(** * ComPulse: entity resolution and aggregation pipeline

    A shallow embedding of the company-lookup code of the repository
    (dispute.py, get_sec.py, layoff.py, utils.py, jobsearch.py and the
    orchestrating [fetch_all_data] of stock_app.py) together with the
    properties its specification states about it.

    Conventions of the embedding.
    - Python text is a [string]; a character is a code point below 256 and
      is classified as Python classifies that code point. A method whose
      result can leave that range ([str.upper]) is partial.
    - A Python call either returns a value or raises: [outcome].
    - Library calls whose code is not part of the repository (the
      fuzzywuzzy scorer, [datetime.fromisoformat], the remote services)
      are parameters of the functions that use them. *)

From Stdlib Require Import Ascii String ZArith Lia.
From stdpp Require Import base numbers list strings gmap pretty.

(** ** Python calls: return or raise *)

Inductive exn_class :=
  | IndexError | KeyError | AttributeError | TypeError | ValueError
  | UnboundLocalError | JSONDecodeError | ConnectionError | RuntimeError
  | NameError
  | OtherError (name : string).   (* any other class, by its name *)

(** An exception object: its class and the text [str(e)] gives. *)
Record exn := Exn { exn_cls : exn_class; exn_msg : string }.

Inductive outcome (A : Type) :=
  | Return (a : A)
  | Raise (e : exn).
Arguments Return {A} a.
Arguments Raise {A} e.

Definition obind {A B} (m : outcome A) (k : A -> outcome B) : outcome B :=
  match m with
  | Return a => k a
  | Raise e => Raise e
  end.

Global Instance outcome_bind : MBind outcome := fun A B k m => obind m k.
Global Instance outcome_ret : MRet outcome := fun A a => Return a.

Definition raises {A} (m : outcome A) : bool :=
  match m with Raise _ => true | Return _ => false end.

Global Instance exn_class_eq_dec : EqDecision exn_class.
Proof. solve_decision. Defined.

(** ** Python [str] methods used by the code *)

Module Str.

(** [str.isspace] on one character (code points below 256). *)
Definition isspace (c : ascii) : bool :=
  let n := N_of_ascii c in
  ((9 <=? n) && (n <=? 13) || (28 <=? n) && (n <=? 32)
   || (n =? 133) || (n =? 160))%N.

Fixpoint lstrip (s : string) : string :=
  match s with
  | EmptyString => EmptyString
  | String c s' => if isspace c then lstrip s' else s
  end.

Fixpoint rstrip (s : string) : string :=
  match s with
  | EmptyString => EmptyString
  | String c s' =>
      match rstrip s' with
      | EmptyString => if isspace c then EmptyString else String c EmptyString
      | r => String c r
      end
  end.

(** [s.strip()] *)
Definition strip (s : string) : string := rstrip (lstrip s).

Fixpoint take (n : nat) (s : string) : string :=
  match n, s with
  | S n', String c s' => String c (take n' s')
  | _, _ => EmptyString
  end.

Fixpoint drop (n : nat) (s : string) : string :=
  match n, s with
  | S n', String _ s' => drop n' s'
  | _, _ => s
  end.

(** [s.endswith(suf)] *)
Definition endswith (s suf : string) : bool :=
  (String.length suf <=? String.length s)
  && String.eqb (drop (String.length s - String.length suf) s) suf.

(** [s[:-k]]; for [k = 0] Python reads the slice [s[:0]]. *)
Definition slice_off (s : string) (k : nat) : string :=
  match k with
  | 0 => EmptyString
  | _ => take (String.length s - k) s
  end.

Definition between (lo hi : N) (c : ascii) : bool :=
  let n := N_of_ascii c in ((lo <=? n) && (n <=? hi))%N.

(** [str.isalnum] on one character (code points below 256). *)
Definition isalnum_char (c : ascii) : bool :=
  between 48 57 c || between 65 90 c || between 97 122 c
  || between 170 170 c || between 178 179 c || between 181 181 c
  || between 185 186 c || between 188 190 c || between 192 214 c
  || between 216 246 c || between 248 255 c.

Fixpoint all_chars (p : ascii -> bool) (s : string) : bool :=
  match s with
  | EmptyString => true
  | String c s' => p c && all_chars p s'
  end.

(** [s.isalnum()] *)
Definition isalnum (s : string) : bool :=
  match s with
  | EmptyString => false
  | _ => all_chars isalnum_char s
  end.

(** [s.upper()]. The capitals of code points 181 and 255 lie above 255,
    outside the text type: for a text that holds one of the two the
    result is [None]. *)
Fixpoint upper (s : string) : option string :=
  match s with
  | EmptyString => Some EmptyString
  | String c s' =>
      let n := N_of_ascii c in
      if (n =? 181)%N || (n =? 255)%N then None
      else
        match upper s' with
        | None => None
        | Some u =>
            if (n =? 223)%N then Some (String "S" (String "S" u))
            else if between 97 122 c || between 224 246 c
                    || between 248 254 c
                 then Some (String (ascii_of_N (n - 32)) u)
                 else Some (String c u)
        end
  end.

(** [s.isascii()] *)
Definition isascii (s : string) : bool := all_chars (between 0 127) s.

(** Truth value of a [str]. *)
Definition nonempty (s : string) : bool :=
  match s with EmptyString => false | _ => true end.

(** The double quote of the f-strings [f'"{name}"']. *)
Definition dquote : string := String (ascii_of_nat 34) EmptyString.

(** The line feed. *)
Definition newline : ascii := ascii_of_nat 10.
Definition nl : string := String newline EmptyString.

(** [s.replace(c, r)] for a one-character [c]. *)
Fixpoint replace_char (c : ascii) (r : string) (s : string) : string :=
  match s with
  | EmptyString => EmptyString
  | String a s' =>
      if Ascii.eqb a c then r +:+ replace_char c r s'
      else String a (replace_char c r s')
  end.

(** [re.sub(r'\n\n', '\n', s)]: from the left, each pair of line feeds
    becomes one. *)
Fixpoint sub_blank_lines (s : string) : string :=
  match s with
  | EmptyString => EmptyString
  | String a s' =>
      match s' with
      | String b s'' =>
          if Ascii.eqb a newline && Ascii.eqb b newline
          then String newline (sub_blank_lines s'')
          else String a (sub_blank_lines s')
      | EmptyString => s
      end
  end.

Fixpoint zeros (n : nat) : string :=
  match n with
  | 0 => EmptyString
  | S n' => String "0" (zeros n')
  end.

(** [s.zfill(width)] *)
Definition zfill (width : nat) (s : string) : string :=
  if width <=? String.length s then s
  else
    match s with
    | String a s' =>
        if Ascii.eqb a "+" || Ascii.eqb a "-"
        then String a (zeros (width - String.length s) +:+ s')
        else zeros (width - String.length s) +:+ s
    | EmptyString => zeros width
    end.

(** [s.lower()] (code points below 256). *)
Fixpoint lower (s : string) : string :=
  match s with
  | EmptyString => EmptyString
  | String c s' =>
      if between 65 90 c || between 192 214 c || between 216 222 c
      then String (ascii_of_N (N_of_ascii c + 32)) (lower s')
      else String c (lower s')
  end.

(** [s.startswith(p)] *)
Definition startswith (s p : string) : bool := String.prefix p s.

(** [sub in s] *)
Fixpoint contains (s sub : string) : bool :=
  String.prefix sub s
  || match s with
     | EmptyString => false
     | String _ s' => contains s' sub
     end.

(** [s.split(sep)] for a one-character [sep]. *)
Fixpoint split (sep : ascii) (s : string) : list string :=
  match s with
  | EmptyString => [EmptyString]
  | String c s' =>
      if Ascii.eqb c sep then EmptyString :: split sep s'
      else
        match split sep s' with
        | first :: rest => String c first :: rest
        | [] => [String c EmptyString]
        end
  end.

(** [sep.join(l)] *)
Fixpoint join (sep : string) (l : list string) : string :=
  match l with
  | [] => EmptyString
  | [x] => x
  | x :: rest => x +:+ sep +:+ join sep rest
  end.

End Str.

(** ** dispute.py: [CourtListenerAPI._normalize_company_name] *)

Definition suffixes : list string :=
  [ "Inc"; "Inc."; "Incorporated";
    "Corp"; "Corp."; "Corporation";
    "LLC"; "L.L.C."; "Limited Liability Company";
    "Ltd"; "Ltd."; "Limited";
    "Co"; "Co."; "Company" ].

(** The [for suffix in suffixes: if name.endswith(...): ...; break] loop:
    the value of [base_name] once the loop is left. *)
Fixpoint remove_suffix (name : string) (sufs : list string) : string :=
  match sufs with
  | [] => name
  | suffix :: rest =>
      if Str.endswith name (" " +:+ suffix)
      then Str.strip (Str.slice_off name (String.length suffix))
      else remove_suffix name rest
  end.

(** The local [base_name] of [_normalize_company_name]. *)
Definition base_name (company_name : string) : string :=
  remove_suffix (Str.strip company_name) suffixes.

(** The list [variants] before [list(set(variants))]. *)
Definition variants (company_name : string) : list string :=
  let name := Str.strip company_name in
  let base := base_name company_name in
  [ name; base;
    Str.dquote +:+ name +:+ Str.dquote;
    Str.dquote +:+ base +:+ Str.dquote ]
  ++ map (fun suffix => base +:+ " " +:+ suffix) suffixes.

(** [list(set(variants))]: the elements of the set, in the set's own
    order. *)
Definition _normalize_company_name (company_name : string) : list string :=
  elements (list_to_set (variants company_name) : gset string).

(** Does a recognised suffix still end the name? *)
Definition has_suffix (name : string) : bool :=
  existsb (fun suffix => Str.endswith name (" " +:+ suffix)) suffixes.

(** ** pandas: the part of [DataFrame] the code relies on *)

(** A cell holds text or is missing ([NaN]). *)
Inductive cell := NaN | Text (s : string).

Global Instance cell_eq_dec : EqDecision cell.
Proof. solve_decision. Defined.

(** A frame: its column labels and its rows, cells in column order. *)
Record DataFrame := { columns : list string; records : list (list cell) }.

(** [pd.DataFrame()] *)
Definition empty_frame : DataFrame := {| columns := []; records := [] |}.

(** [df.empty]: some axis has length 0. *)
Definition empty (df : DataFrame) : bool :=
  match columns df, records df with
  | _ :: _, _ :: _ => false
  | _, _ => true
  end.

Fixpoint position (c : string) (cols : list string) : option nat :=
  match cols with
  | [] => None
  | c' :: rest => if String.eqb c c' then Some 0 else S <$> position c rest
  end.

Definition at_column (i : nat) (r : list cell) : cell := default NaN (r !! i).

(** [df[c]]: the column, or [KeyError]. *)
Definition getitem (df : DataFrame) (c : string) : outcome (list cell) :=
  match position c (columns df) with
  | Some i => Return (map (at_column i) (records df))
  | None => Raise (Exn KeyError c)
  end.

(** [series.dropna()] *)
Definition dropna (l : list cell) : list string :=
  omap (fun c => match c with Text s => Some s | NaN => None end) l.

(** [series.unique()]: distinct values in order of first appearance. *)
Definition unique (l : list string) : list string :=
  fold_left (fun seen x => if decide (x ∈ seen) then seen else seen ++ [x]) l [].

(** [df[df[c] == v]]: the rows whose cell in column [c] is the text [v]. *)
Definition where_eq (df : DataFrame) (c : string) (v : string)
  : outcome DataFrame :=
  match position c (columns df) with
  | Some i =>
      Return {| columns := columns df;
                records := filter (fun r => at_column i r = Text v) (records df) |}
  | None => Raise (Exn KeyError c)
  end.

Definition isin (vs : list string) (c : cell) : bool :=
  match c with
  | Text v => bool_decide (v ∈ vs)
  | NaN => false
  end.

(** [df[df[c].isin(vs)]] *)
Definition where_isin (df : DataFrame) (c : string) (vs : list string)
  : outcome DataFrame :=
  match position c (columns df) with
  | Some i =>
      Return {| columns := columns df;
                records := filter (fun r => isin vs (at_column i r) = true)
                                  (records df) |}
  | None => Raise (Exn KeyError c)
  end.

(** [df.iloc[0][c]] *)
Definition iloc0 (df : DataFrame) (c : string) : outcome cell :=
  match records df with
  | [] => Raise (Exn IndexError "single positional indexer is out-of-bounds")
  | r :: _ =>
      match position c (columns df) with
      | Some i => Return (at_column i r)
      | None => Raise (Exn KeyError c)
      end
  end.

(** A local variable that an earlier branch may have left unassigned. *)
Inductive binding (A : Type) := Unbound | Bound (a : A).
Arguments Unbound {A}.
Arguments Bound {A} a.

(** ** fuzzywuzzy: [process.extract] and [process.extractOne]

    [scorer query choice] is the integer the library's default processor
    and scorer give the pair; the library keeps a choice whose score
    reaches its default [score_cutoff] of 0. *)

Section Fuzzy.

Variable scorer : string -> string -> Z.

Definition extractWithoutOrder (query : string) (choices : list string)
  : list (string * Z) :=
  filter (fun m => (0 <= m.2)%Z) (map (fun c => (c, scorer query c)) choices).

(** Descending by score, earlier elements first among equal scores (what
    [heapq.nlargest] and [sorted(..., reverse=True)] both give). *)
Fixpoint insert_desc (x : string * Z) (l : list (string * Z))
  : list (string * Z) :=
  match l with
  | [] => [x]
  | y :: l' => if (x.2 <? y.2)%Z then y :: insert_desc x l' else x :: l
  end.

Definition sort_desc (l : list (string * Z)) : list (string * Z) :=
  foldr insert_desc [] l.

(** [process.extract(query, choices)], with its default [limit=5]. *)
Definition extract (query : string) (choices : list string)
  : list (string * Z) :=
  take 5 (sort_desc (extractWithoutOrder query choices)).

(** [max(iterable, key=score)]: the first element of greatest score. *)
Definition first_max (l : list (string * Z)) : option (string * Z) :=
  fold_left (fun best x =>
               match best with
               | None => Some x
               | Some b => if (b.2 <? x.2)%Z then Some x else Some b
               end) l None.

(** [process.extractOne(query, choices)]; [None] when nothing is kept. *)
Definition extractOne (query : string) (choices : list string)
  : option (string * Z) :=
  first_max (extractWithoutOrder query choices).

(** *** utils.py: [get_ticker]

    [read_csv] is what [pd.read_csv("data/companies.csv")] does. The
    result comes with the lines the call prints, which is how its
    "Ticker not found" branch shows. *)
Definition ticker_not_found : string :=
  "Ticker not found for the matched company.".

Definition get_ticker (read_csv : outcome DataFrame) (input_company : string)
  : list string * outcome (option cell) :=
  match (stock_name ← read_csv;
         title ← getitem stock_name "title";
         Return (stock_name, title)) with
  | Raise e => ([], Raise e)
  | Return (stock_name, title) =>
      let company_names := unique (dropna title) in
      let matches := extract input_company company_names in
      match matches with
      | [] => (["No matches were found"], Return None)
      | (best_match, _) :: _ =>
          let out := ["Best matched company: " +:+ best_match] in
          match where_eq stock_name "title" best_match with
          | Raise e => (out, Raise e)
          | Return matched_row =>
              let '(out', ticker) :=
                if negb (empty matched_row)
                then (out, t ← iloc0 matched_row "ticker"; Return (Bound t))
                else (out ++ [ticker_not_found], Return Unbound) in
              (out',
               t ← ticker;
               match t with
               | Bound t => Return (Some t)
               | Unbound =>
                   Raise (Exn UnboundLocalError
                            "cannot access local variable 'ticker'")
               end)
          end
      end
  end.

(** *** layoff.py: [layoffs]

    [read_excel] is what [pd.read_excel("data/filtered_WARN_data.xlsx")]
    does. *)
Definition layoffs (read_excel : outcome DataFrame) (company_name : string)
  : outcome (option DataFrame) :=
  df ← read_excel;
  company ← getitem df "Company";
  let unique_names := unique (dropna company) in
  let matches := extract company_name unique_names in
  match matches with
  | [] => Return None
  | _ :: _ =>
      let matched_names :=
        map fst (filter (fun m => (80 <= m.2)%Z) matches) in
      match matched_names with
      | [] => Raise (Exn IndexError "list index out of range")
      | target :: _ =>
          filtered_df ← where_eq df "Company" target;
          Return (Some filtered_df)
      end
  end.

(** *** h1b.py: [process_and_match_companies] *)
Definition process_and_match_companies (read_excel : outcome DataFrame)
  (input_company : string) : outcome (option DataFrame) :=
  df ← read_excel;
  employer ← getitem df "Employer (Petitioner) Name";
  let unique_names := unique (dropna employer) in
  let matches := extract input_company unique_names in
  let matched_names := map fst (filter (fun m => (50 <= m.2)%Z) matches) in
  match matched_names with
  | [] => Return None
  | _ :: _ =>
      filtered_df ← where_isin df "Employer (Petitioner) Name" matched_names;
      Return (Some filtered_df)
  end.

End Fuzzy.

(** ** get_sec.py: the ticker cache and [get_ticker_or_cik] *)

(** One entry of the SEC table [company_tickers.json]. *)
Record company := { title : string; cik_str : Z }.

(** The decoded table: a dict from a row key to its entry, in the order of
    the file. *)
Definition payload := list (string * company).

(** What [datetime.fromisoformat] yields: microseconds on the local clock,
    without or with a UTC offset. *)
Inductive datetime := Naive (us : Z) | Aware (us : Z).

(** What [data.get("timestamp")] finds. *)
Inductive field := Missing | NotText | IsText (s : string).

(** The states of [company_tickers_cache.json] that [load_cache]
    tells apart. In an entry, [companies] is the table under the key
    ["companies"], [None] when the key is missing or holds [null]. *)
Inductive cache_file :=
  | Absent                      (* [os.path.exists] is false *)
  | Unreadable (e : exn)        (* [open] or [json.load] raises [e] *)
  | NotADict (type_name : string)
                                (* it decodes to a value without [.get] *)
  | Entry (timestamp : field) (companies : option payload).

(** [CACHE_DURATION = timedelta(days=7)], in microseconds. *)
Definition CACHE_DURATION : Z := 7 * 86400 * 1000000.

(** The answer of [requests.get]: the status code and what
    [response.json()] does. *)
Record response := { status_code : Z; json : outcome payload }.

Section GetSec.

Variable scorer : string -> string -> Z.

(** [datetime.fromisoformat] on text; [None] is its [ValueError]. *)
Variable fromisoformat : string -> option datetime.

(** [datetime.isoformat] of a naive time. *)
Variable isoformat : Z -> string.

(** [load_cache()]: the payload, or [None] for none. [now] is
    [datetime.now()]. *)
Definition load_cache (file : cache_file) (now : Z)
  : outcome (option payload) :=
  match file with
  | Absent => Return None
  | Unreadable e => Raise e
  | NotADict type_name =>
      Raise (Exn AttributeError
               ("'" +:+ type_name +:+ "' object has no attribute 'get'"))
  | Entry timestamp companies =>
      cache_time ←
        match timestamp with
        | Missing | NotText =>
            Raise (Exn TypeError "fromisoformat: argument must be str")
        | IsText s =>
            match fromisoformat s with
            | Some t => Return t
            | None => Raise (Exn ValueError "Invalid isoformat string")
            end
        end;
      match cache_time with
      | Aware _ =>
          Raise (Exn TypeError
                   "can't subtract offset-naive and offset-aware datetimes")
      | Naive t =>
          if (now - t <? CACHE_DURATION)%Z then Return companies
          else Return None
      end
  end.

(** [save_cache(companies)]: the file it leaves. *)
Definition save_cache (companies : payload) (now : Z) : cache_file :=
  Entry (IsText (isoformat now)) (Some companies).

(** Truth value of a payload or [None]. *)
Definition truthy (p : option payload) : bool :=
  match p with
  | Some (_ :: _) => true
  | _ => false
  end.

(** [get_company_data()]: the result and the cache file afterwards.
    [http] is what [requests.get] does. *)
Definition get_company_data (file : cache_file) (now : Z)
  (http : outcome response) : outcome (option payload) * cache_file :=
  match load_cache file now with
  | Raise e => (Raise e, file)
  | Return cached_data =>
      if truthy cached_data then (Return cached_data, file)
      else
        match http with
        | Raise e => (Raise e, file)
        | Return resp =>
            if (status_code resp =? 200)%Z then
              match json resp with
              | Raise e => (Raise e, file)
              | Return companies =>
                  (Return (Some companies), save_cache companies now)
              end
            else (Return None, file)
        end
  end.

(** [d[k] = v] on a dict kept in insertion order. *)
Fixpoint dict_set (d : list (string * Z)) (k : string) (v : Z)
  : list (string * Z) :=
  match d with
  | [] => [(k, v)]
  | (k', v') :: d' =>
      if String.eqb k k' then (k', v) :: d' else (k', v') :: dict_set d' k v
  end.

Fixpoint dict_get (d : list (string * Z)) (k : string) : option Z :=
  match d with
  | [] => None
  | (k', v') :: d' => if String.eqb k k' then Some v' else dict_get d' k
  end.

(** [{data['title']: data['cik_str'] for data in company_data.values()}] *)
Definition flatten (company_data : payload) : list (string * Z) :=
  fold_left (fun d kv => dict_set d (title kv.2) (cik_str kv.2))
            company_data [].

(** Lines 58 to 72 of [get_ticker_or_cik], once [company_data] is
    there. The pair [(None, None)] is [None]. *)
Definition resolve (company_data : option payload) (company_name : string)
  : outcome (option (string * Z)) :=
  if negb (truthy company_data) then Return None
  else
    let companies := flatten (default [] company_data) in
    match extractOne scorer company_name (map fst companies) with
    | None =>
        Raise (Exn TypeError "cannot unpack non-iterable NoneType object")
    | Some (match_, score) =>
        if (70 <? score)%Z then
          match dict_get companies match_ with
          | Some cik => Return (Some (match_, cik))
          | None => Raise (Exn KeyError match_)
          end
        else Return None
    end.

Definition get_ticker_or_cik (file : cache_file) (now : Z)
  (http : outcome response) (company_name : string)
  : outcome (option (string * Z)) * cache_file :=
  let '(company_data, file') := get_company_data file now http in
  (d ← company_data; resolve d company_name, file').

End GetSec.

(** ** jobsearch.py: [get_company_jobs] *)

Section Retry.

Context {A : Type}.

(** [op n] is what the [n]-th call of the wrapped function does. *)
Variable op : nat -> outcome A.

(** How tenacity's loop ends: the call returned, or the stop condition
    held after a failed attempt and [RetryError] is raised around that
    last failure. *)
Inductive retry_end :=
  | Succeeded (v : A)
  | Exhausted (last_attempt : exn)
  | Unfinished.

(** [@retry(stop=stop_after_attempt(bound))]: the loop from attempt
    [attempt_number] on, and the number of the last attempt made. The
    waits between attempts are not part of the model. *)
Fixpoint retrying (bound fuel attempt_number : nat) : retry_end * nat :=
  match op attempt_number with
  | Return v => (Succeeded v, attempt_number)
  | Raise e =>
      if bound <=? attempt_number then (Exhausted e, attempt_number)
      else
        match fuel with
        | 0 => (Unfinished, attempt_number)
        | S fuel' => retrying bound fuel' (S attempt_number)
        end
  end.

End Retry.

(** [get_company_jobs]: [search n] is what the [n]-th call of
    [get_filtered_company_jobs] does. The result comes with the number of
    calls made. *)
Definition get_company_jobs (search : nat -> outcome (option DataFrame))
  : outcome (option DataFrame) * nat :=
  match retrying search 3 3 1 with
  | (Succeeded v, n) => (Return v, n)
  | (Exhausted e, n) => (Return (Some empty_frame), n)
  | (Unfinished, n) => (Raise (Exn RuntimeError "retry loop not finished"), n)
  end.

(** ** utils.py: [validate_symbol] *)

Definition validate_symbol (symbol : string) : bool :=
  Str.nonempty symbol && Str.nonempty (Str.strip symbol) && Str.isalnum symbol.

(** ** stock_app.py: [StockApp.fetch_all_data] *)

(** The dictionaries [fetch_stock_data] and [fetch_historical_data]
    return, values as text. *)
Abbreviation pydict := (gmap string string).

(** The calls [fetch_all_data] makes outside its own class. The two
    market-data calls catch every exception themselves and answer with
    [(success, data)]. *)
Record sources := {
  call_get_ticker : string -> outcome (option cell);
  call_fetch_stock_data : string -> bool * pydict;
  call_fetch_historical_data : string -> bool * pydict;
  call_process_and_match_companies : string -> outcome (option DataFrame);
  call_layoffs : string -> outcome (option DataFrame);
  call_get_filtered_company_jobs :
    string -> string -> outcome (option DataFrame);
  call_get_info : string -> outcome string;
  call_get_summary : string -> outcome string
}.

(** The methods of the window that the function calls or schedules. An
    argument read from a local variable is a [binding]: the lambda reads
    the variable when the main loop runs it. *)
Inductive ui_action :=
  | showerror (title message : string)
  | show_loading (show : bool)
  | clear_frames
  | display_error (message : string)
  | clear_layoff_tab
  | display_layoff_charts (layoff_df : binding (option DataFrame))
  | display_jobs (jobs_df : binding (option DataFrame))
  | display_overview (current_data : pydict) (h1b_df : option DataFrame)
  | display_charts (hist_data : pydict)
  | display_h1b_charts (h1b_df : option DataFrame)
  | display_dispute_report (report : string)
  | display_sec_summary (summary : string).

(** A direct call on the worker thread, or [self.root.after(0, ...)]. *)
Inductive event :=
  | Call (a : ui_action)
  | After (a : ui_action).

(** How the worker thread ends: what it did, the exception that left it
    (if any), and the fields of [self] it set. *)
Record thread_end := {
  events : list event;
  uncaught : option exn;
  current_hist_data : option pydict;
  current_symbol : option string
}.

(** How a call of [fetch_all_data] ends. *)
Inductive run :=
  | Refused (a : ui_action)       (* an error box, no thread started *)
  | Raised (e : exn)              (* an exception leaves the call *)
  | Started (t : thread_end).     (* the thread ran *)

(** [str(e)] *)
Definition str_exn (e : exn) : string := exn_msg e.

(** [d.get(key, fallback)] *)
Definition get_or (d : pydict) (key fallback : string) : string :=
  default fallback (d !! key).

Section Orchestrator.

Variable srcs : sources.

(** The [try] block around [layoffs]: what it schedules and what
    [layoff_df] holds afterwards. *)
Definition layoff_block (company_name : string)
  : list event * binding (option DataFrame) :=
  match call_layoffs srcs company_name with
  | Raise e => ([After clear_layoff_tab], Unbound)
  | Return None =>
      (* [layoff_df.empty] raises AttributeError, caught below *)
      ([After clear_layoff_tab], Bound None)
  | Return (Some df) =>
      if negb (empty df)
      then ([After (display_layoff_charts (Bound (Some df)))], Bound (Some df))
      else ([After clear_layoff_tab], Bound (Some df))
  end.

(** The [try] block around [get_filtered_company_jobs]. *)
Definition jobs_block (company_name : string)
  : list event * binding (option DataFrame) :=
  match call_get_filtered_company_jobs srcs company_name "Software Engineer" with
  | Raise e => ([After (display_jobs (Bound None))], Unbound)
  | Return jobs_df => ([After (display_jobs (Bound jobs_df))], Bound jobs_df)
  end.

Definition dispute_block (company_name : string) : string :=
  match call_get_info srcs company_name with
  | Return dispute_report => dispute_report
  | Raise e => "Error generating legal report: " +:+ str_exn e
  end.

Definition summary_block (company_name : string) : string :=
  match call_get_summary srcs company_name with
  | Return summary => summary
  | Raise e => "Error generating 10K summary: " +:+ str_exn e
  end.

(** The nested [fetch_thread]. *)
Definition fetch_thread (company_name symbol : string) : thread_end :=
  let start := [Call (show_loading true); Call clear_frames] in
  let '(success, current_data) := call_fetch_stock_data srcs symbol in
  if negb success then
    {| events := start ++
         [After (show_loading false);
          After (display_error
                   (get_or current_data "error" "Error fetching current data"))];
       uncaught := None; current_hist_data := None; current_symbol := None |}
  else
  let '(success, hist_data) := call_fetch_historical_data srcs symbol in
  if negb success then
    {| events := start ++
         [After (show_loading false);
          After (display_error
                   (get_or hist_data "error" "Error fetching historical data"))];
       uncaught := None; current_hist_data := None; current_symbol := None |}
  else
  match call_process_and_match_companies srcs company_name with
  | Raise e =>
      {| events := start; uncaught := Some e;
         current_hist_data := None; current_symbol := None |}
  | Return h1b_df =>
      let '(layoff_events, layoff_df) := layoff_block company_name in
      let '(jobs_events, jobs_df) := jobs_block company_name in
      let dispute_report := dispute_block company_name in
      let summary := summary_block company_name in
      {| events := start ++ layoff_events ++ jobs_events ++
           [After (show_loading false);
            After (display_overview current_data h1b_df);
            After (display_charts hist_data);
            After (display_h1b_charts h1b_df);
            After (display_layoff_charts layoff_df);
            After (display_jobs jobs_df);
            After (display_dispute_report dispute_report);
            After (display_sec_summary summary)];
         uncaught := None;
         current_hist_data := Some hist_data;
         current_symbol := Some symbol |}
  end.

(** [fetch_all_data]; [entry] is the text of the entry box. The thread
    is run to its end. The result is [None] only where [ticker.upper()]
    leaves the text type. *)
Definition fetch_all_data (entry : string) : option run :=
  let company_name := Str.strip entry in
  if negb (Str.nonempty company_name)
  then Some (Refused (showerror "Error" "Please enter a company name"))
  else
  match call_get_ticker srcs company_name with
  | Raise e => Some (Raised e)
  | Return ticker =>
      match ticker with
      | None =>
          Some (Raised (Exn AttributeError
                          "'NoneType' object has no attribute 'upper'"))
      | Some NaN =>
          Some (Raised (Exn AttributeError
                          "'float' object has no attribute 'upper'"))
      | Some (Text ticker) =>
          symbol ← Str.upper ticker;
          Some (if negb (Str.nonempty ticker)
                then Refused (showerror "Error"
                                "Ticker not found for the given company name.")
                else if negb (validate_symbol symbol)
                then Refused (showerror "Error"
                                "Please enter a valid stock symbol")
                else Started (fetch_thread company_name symbol))
      end
  end.


End Orchestrator.

(** ** Sample data for the examples *)

(** A scorer read off a table: the score listed for a choice, 0 for a
    choice that is not listed. *)
Definition table_scorer (tbl : list (string * Z)) : string -> string -> Z :=
  fun _ choice => default 0%Z (dict_get tbl choice).

Definition sample_scorer : string -> string -> Z :=
  table_scorer [("NVIDIA CORP", 30%Z); ("Acme Corp", 90%Z)].

(** A [data/companies.csv] with a repeated title and a missing one. *)
Definition sample_companies_csv : DataFrame :=
  {| columns := ["ticker"; "title"];
     records := [ [Text "NVDA"; Text "NVIDIA CORP"];
                  [Text "ZZZ"; NaN];
                  [Text "ACME"; Text "Acme Corp"];
                  [Text "ACME2"; Text "Acme Corp"] ] |}.

(** A WARN sheet with two employers. *)
Definition sample_warn_sheet : DataFrame :=
  {| columns := ["Company"; "Employees"];
     records := [ [Text "Acme Corp"; Text "120"];
                  [Text "Globex LLC"; Text "45"] ] |}.

(** A decoded [company_tickers.json] with two entries. *)
Definition sample_payload : payload :=
  [ ("0", {| title := "Acme Corp"; cik_str := 1001 |});
    ("1", {| title := "Acme Co"; cik_str := 1002 |}) ].

Definition sample_response : outcome response :=
  Return {| status_code := 200; json := Return sample_payload |}.

(** A clock text that reads as time 0, one with an offset, and nothing
    else. *)
Definition sample_fromisoformat (s : string) : option datetime :=
  if String.eqb s "2025-02-08T09:00:00" then Some (Naive 0)
  else if String.eqb s "2025-02-08T09:00:00+00:00" then Some (Aware 0)
  else None.

Definition sample_isoformat (t : Z) : string := "2025-02-08T09:00:00".

Definition hour : Z := 3600 * 1000000.
Definition day : Z := 24 * hour.

(** The cache states the specification calls corrupt: the file cannot be
    opened or decoded, decodes to something that is not a dict, or its
    timestamp is missing, not text, or text that [fromisoformat]
    rejects. *)
Definition corrupt (fromisoformat : string -> option datetime)
  (file : cache_file) : bool :=
  match file with
  | Absent => false
  | Unreadable _ | NotADict _ => true
  | Entry Missing _ | Entry NotText _ => true
  | Entry (IsText s) _ =>
      match fromisoformat s with
      | None => true
      | Some _ => false
      end
  end.

(** A job search that fails on its first [k] calls and then finds
    nothing. *)
Definition failing_first (k : nat) (n : nat) : outcome (option DataFrame) :=
  if n <=? k then Raise (Exn ConnectionError "Connection timed out")
  else Return None.

(** A job search that fails on every call. *)
Definition always_failing (n : nat) : outcome (option DataFrame) :=
  Raise (Exn ConnectionError "Connection timed out").

(** Sources around the sample files: the ticker comes from [get_ticker],
    the layoff lookup is [layoffs] on a sheet where nothing scores 80, the
    job search and the legal report fail. The market data and the
    visa-sponsorship lookup are as given. *)
Definition sample_sources (stock_ok : bool)
  (h1b : outcome (option DataFrame)) : sources :=
  {| call_get_ticker :=
       fun q => (get_ticker sample_scorer (Return sample_companies_csv) q).2;
     call_fetch_stock_data :=
       fun _ => (stock_ok,
                 if stock_ok then ∅
                 else {[ "error" := "Invalid stock symbol" ]});
     call_fetch_historical_data := fun _ => (true, ∅);
     call_process_and_match_companies := fun _ => h1b;
     call_layoffs :=
       layoffs (table_scorer [("Acme Corp", 40%Z); ("Globex LLC", 25%Z)])
         (Return sample_warn_sheet);
     call_get_filtered_company_jobs :=
       fun _ _ => Raise (Exn ConnectionError "Connection timed out");
     call_get_info :=
       fun _ => Raise (Exn ValueError "a coroutine was expected");
     call_get_summary := fun _ => Return "Annual report in brief." |}.

(** The thread ran to its last line: no exception left it and it
    scheduled the closing call of every part of the report. Whether the
    scheduled callbacks can run is another matter, see
    [callback_error]. *)
Definition closing_calls_scheduled (t : thread_end) : Prop :=
  uncaught t = None
  /\ (exists cur h, After (display_overview cur h) ∈ events t)
  /\ (exists h, After (display_h1b_charts h) ∈ events t)
  /\ (exists l, After (display_layoff_charts l) ∈ events t)
  /\ (exists j, After (display_jobs j) ∈ events t)
  /\ (exists r, After (display_dispute_report r) ∈ events t)
  /\ (exists x, After (display_sec_summary x) ∈ events t).


(** ** get_sec.py: filings and their sections *)

(** [str(cik)] for the CIK [get_ticker_or_cik] returned, [None] included. *)
Definition str_cik (cik : option Z) : string :=
  match cik with
  | Some z => pretty z
  | None => "None"
  end.

(** The part of a submissions document that [get_filing_urls] reads:
    [filings.recent.accessionNumber] and [filings.recent.form], each empty
    when its key is missing. *)
Record recent := { accessionNumber : list string; form : list string }.

(** The answer to the submissions request. *)
Record submissions := { sub_status : Z; sub_json : outcome recent }.

Definition submissions_url (cik : option Z) : string :=
  "https://data.sec.gov/submissions/CIK" +:+ Str.zfill 10 (str_cik cik)
  +:+ ".json".

Definition filing_url (cik : option Z) (acc_number : string) : string :=
  "https://www.sec.gov/Archives/edgar/data/" +:+ str_cik cik +:+ "/"
  +:+ Str.replace_char "-" "" acc_number +:+ "/index.html".

(** [zip(a, b)] *)
Fixpoint zip (a b : list string) : list (string * string) :=
  match a, b with
  | x :: a', y :: b' => (x, y) :: zip a' b'
  | _, _ => []
  end.

Section Filings.

(** [requests.get(url, headers=...)] on the submissions site. *)
Variable requests_get : string -> outcome submissions.

(** [requests.get(SEC_EXTRACT_API_URL, params=...)]: for a filing URL and
    an item, the status code and the text of the answer. *)
Variable extractor_get : string -> string -> outcome (Z * string).

(** The first substitution of [clean_text_regex], the one for the
    [Form 10-K] header lines. *)
Variable sub_form_10k_header : string -> string.

(** [os.makedirs] of the directory followed by [open(file_name, "w")]. *)
Variable open_for_writing : string -> outcome unit.

Definition get_filing_urls (cik : option Z) (filing_type : string)
  : outcome (list string) :=
  response ← requests_get (submissions_url cik);
  if negb (sub_status response =? 200)%Z then Return []
  else
    filings ← sub_json response;
    Return (map (fun p => filing_url cik p.1)
              (filter (fun p => p.2 = filing_type)
                 (zip (accessionNumber filings) (form filings)))).

Definition extract_section (filing_url item : string)
  : outcome (option string) :=
  response ← extractor_get filing_url item;
  if (response.1 =? 200)%Z then Return (Some response.2) else Return None.

(** [clean_text_regex]: the second substitution reads [text] again, not
    the result of the first. *)
Definition clean_text_regex (text : string) : string :=
  let cleaned := sub_form_10k_header text in
  let cleaned := Str.sub_blank_lines text in
  Str.strip cleaned.

(** [os.path.join(a, b)] with [/] as separator. *)
Definition path_join (a b : string) : string :=
  if Str.startswith b "/" then b
  else if negb (Str.nonempty a) || Str.endswith a "/" then a +:+ b
  else a +:+ "/" +:+ b.

(** The [for section_id in section_ids] loop of [get_10k_section_text]:
    the value of [text] and what has been written to the file, at the end
    of the loop or where an exception leaves it. *)
Fixpoint sections_loop (filing_urls : list string) (section_ids : list string)
  (text written : string) : outcome string * string :=
  match section_ids with
  | [] => (Return text, written)
  | section_id :: rest =>
      match filing_urls with
      | [] => (Raise (Exn IndexError "list index out of range"), written)
      | first_url :: _ =>
          match extract_section first_url section_id with
          | Raise e => (Raise e, written)
          | Return None => sections_loop filing_urls rest text written
          | Return (Some relevant_section) =>
              let cleaned_section_text := clean_text_regex relevant_section in
              sections_loop filing_urls rest
                (text +:+ cleaned_section_text)
                (written +:+ cleaned_section_text)
          end
      end
  end.

(** How a call of [get_10k_section_text] ends: its result, and the file
    it opened with the content it left there, if it got that far. *)
Record section_run := {
  section_text : outcome string;
  section_file : option (string * string)
}.

(** [get_10k_section_text]; [resolved] is what [get_ticker_or_cik]
    returned. *)
Definition get_10k_section_text (resolved : outcome (option (string * Z)))
  (store_dir : string) (section_ids : list string) : section_run :=
  match resolved with
  | Raise e => {| section_text := Raise e; section_file := None |}
  | Return r =>
      let matched_name := fst <$> r in
      let cik := snd <$> r in
      match get_filing_urls cik "10-K" with
      | Raise e => {| section_text := Raise e; section_file := None |}
      | Return filing_urls =>
          match matched_name with
          | None =>
              {| section_text :=
                   Raise (Exn AttributeError
                            "'NoneType' object has no attribute 'replace'");
                 section_file := None |}
          | Some matched_name =>
              let file_name :=
                path_join
                  (path_join store_dir (Str.replace_char " " "_" matched_name))
                  "10K.txt" in
              match open_for_writing file_name with
              | Raise e => {| section_text := Raise e; section_file := None |}
              | Return _ =>
                  let '(text, written) :=
                    sections_loop filing_urls section_ids "" "" in
                  {| section_text := text;
                     section_file := Some (file_name, written) |}
              end
          end
      end
  end.

Definition default_section_ids : list string :=
  ["1"; "1A"; "2"; "7"; "7A"; "8"].

(** [get_summary]; [summarize_text] is the call to the language model,
    which answers [None] on any failure. *)
Definition get_summary (summarize_text : string -> option string)
  (resolved : outcome (option (string * Z))) : outcome (option string) :=
  text ← section_text
           (get_10k_section_text resolved "sec-edgar-filings"
              default_section_ids);
  Return (summarize_text text).

End Filings.

(** Does the text hold two line feeds in a row? *)
Definition has_blank_line (s : string) : bool :=
  Str.contains s (Str.nl +:+ Str.nl).

(** ** utils.py: [fetch_stock_data] *)

(** A value of the [info] dict: [None], an int, text, or a float given by
    the texts [str] and [format(_, ',')] make of it. *)
Inductive value :=
  | VNone
  | VInt (z : Z)
  | VFloat (plain grouped : string)
  | VText (s : string).

(** Commas between groups of three digits, on the reversed digits. *)
Fixpoint group3 (fuel : nat) (rev_digits : string) : string :=
  match fuel with
  | 0 => rev_digits
  | S fuel' =>
      match rev_digits with
      | String a (String b (String c (String d rest))) =>
          String a (String b (String c (String ","
            (group3 fuel' (String d rest)))))
      | _ => rev_digits
      end
  end.

(** [format(z, ',')] for an int. *)
Definition format_int_comma (z : Z) : string :=
  let digits := pretty (Z.abs z) in
  let grouped :=
    String.rev (group3 (String.length digits) (String.rev digits)) in
  if (z <? 0)%Z then "-" +:+ grouped else grouped.

(** [str(v)], which is also what an f-string without a format makes of
    [v]. *)
Definition str_value (v : value) : string :=
  match v with
  | VNone => "None"
  | VInt z => pretty z
  | VFloat plain _ => plain
  | VText s => s
  end.

(** [format(v, ',')], the [:,] of the f-strings. *)
Definition format_comma (v : value) : outcome string :=
  match v with
  | VNone =>
      Raise (Exn TypeError
               "unsupported format string passed to NoneType.__format__")
  | VInt z => Return (format_int_comma z)
  | VFloat _ grouped => Return grouped
  | VText _ => Raise (Exn ValueError "Cannot specify ',' with 's'.")
  end.

(** [info.get(key, 'N/A')] *)
Definition info_get (info : gmap string value) (key : string) : value :=
  default (VText "N/A") (info !! key).

(** [fetch_stock_data]; [info] is what [yf.Ticker(symbol).info] does.
    The values of the returned dict are given as text. *)
Definition fetch_stock_data (info : outcome (gmap string value))
  : bool * pydict :=
  let body : outcome (bool * pydict) :=
    info ← info;
    if negb (bool_decide (is_Some (info !! "longName")))
    then Return (false, {[ "error" := "Invalid stock symbol" ]})
    else
      market_cap ← format_comma (info_get info "marketCap");
      volume ← format_comma (info_get info "volume");
      Return (true,
              <[ "Company Name" := str_value (info_get info "longName") ]>
              (<[ "Current Price" :=
                    "$" +:+ str_value (info_get info "currentPrice") ]>
              (<[ "Market Cap" := "$" +:+ market_cap ]>
              (<[ "52 Week High" :=
                    "$" +:+ str_value (info_get info "fiftyTwoWeekHigh") ]>
              (<[ "52 Week Low" :=
                    "$" +:+ str_value (info_get info "fiftyTwoWeekLow") ]>
              (<[ "P/E Ratio" := str_value (info_get info "trailingPE") ]>
              (<[ "Volume" := volume ]>
              (<[ "Industry" := str_value (info_get info "industry") ]>
               ∅)))))))) in
  match body with
  | Return r => r
  | Raise e => (false, {[ "error" := "Error fetching data: " +:+ str_exn e ]})
  end.

(** Is the value one that [format(_, ',')] accepts? *)
Definition numeric (v : option value) : bool :=
  match v with
  | Some (VInt _) | Some (VFloat _ _) => true
  | _ => false
  end.

(** The head of a ranked list carries its greatest score. *)
Definition head_is_max (l : list (string * Z)) : Prop :=
  match l with
  | [] => True
  | m :: _ => forall x, x ∈ l -> (x.2 <= m.2)%Z
  end.

(** ** dispute.py: the analysis of the court cases *)

Record CaseType := {
  ct_name : string;
  priority : Z;
  nature_of_suit_codes : list string;
  keywords : list string
}.

(** [CourtListenerConfig.CASE_TYPES], in the order of the dict. *)
Definition CASE_TYPES : list (string * CaseType) :=
  [ ("employment_discrimination",
     {| ct_name := "Employment Discrimination"; priority := 1;
        nature_of_suit_codes := ["442"; "445"];
        keywords := ["discrimination"; "hostile work environment";
                     "retaliation"] |});
    ("wage_violations",
     {| ct_name := "Wage Violations"; priority := 1;
        nature_of_suit_codes := ["710"];
        keywords := ["unpaid wages"; "overtime"; "FLSA"] |});
    ("workplace_safety",
     {| ct_name := "Workplace Safety"; priority := 2;
        nature_of_suit_codes := ["790"];
        keywords := ["OSHA"; "safety violation"; "workplace injury"] |});
    ("bankruptcy",
     {| ct_name := "Bankruptcy"; priority := 1;
        nature_of_suit_codes := ["422"; "423"];
        keywords := ["Chapter 11"; "bankruptcy"; "reorganization"] |}) ].

(** One entry of the [results] list of a search answer: what
    [case.get("dateFiled")] finds, and the texts the f-string makes of
    [case_name] and [description] when these keys are there. *)
Record court_case := {
  dateFiled : field;
  case_name : option string;
  description : option string
}.

(** One value of [results["case_summary"]]. *)
Record analysis := {
  total_cases : nat;
  recent_cases : nat;
  priority_level : Z;
  keywords_found : gmap string nat
}.

(** The [results] dict of [analyze_company]; [risk_assessment] is given
    by its two fields, a factor by its text and its severity. *)
Record results := {
  company_name_of : string;
  analysis_date : string;
  lookback_period : string;
  case_summary : list (string * analysis);
  red_flags : list string;
  overall_risk : string;
  factors : list (string * string)
}.

(** [d[k] = v] on a dict kept in insertion order. *)
Fixpoint summary_set (d : list (string * analysis)) (k : string)
  (v : analysis) : list (string * analysis) :=
  match d with
  | [] => [(k, v)]
  | (k', v') :: d' =>
      if String.eqb k k' then (k', v) :: d' else (k', v') :: summary_set d' k v
  end.

(** [timedelta(days=365)], in microseconds. *)
Definition YEAR : Z := 365 * 86400 * 1000000.

Section Dispute.

Variable fromisoformat : string -> option datetime.

(** The body of the loop of [_count_recent_cases]: does this case add one
    to [count]? A date that is missing, empty, not text, unparsable or
    given with an offset does not (the last three through the [except]
    clause). *)
Definition counts_as_recent (now : Z) (case : court_case) : bool :=
  match dateFiled case with
  | IsText date_filed =>
      Str.nonempty date_filed
      && match fromisoformat date_filed with
         | Some (Naive case_date) => (now - YEAR <? case_date)%Z
         | _ => false
         end
  | Missing | NotText => false
  end.

(** [_count_recent_cases]; [now] is the [datetime.now()] it reads. *)
Definition _count_recent_cases (now : Z) (cases : list court_case) : nat :=
  fold_left (fun count case =>
               if counts_as_recent now case then S count else count)
            cases 0.

(** The text [_analyze_keywords] searches for one case. *)
Definition case_text (case : court_case) : string :=
  default "" (case_name case) +:+ " " +:+ default "" (description case).

Definition mentions (case : court_case) (keyword : string) : bool :=
  Str.contains (Str.lower (case_text case)) (Str.lower keyword).

(** [_analyze_keywords] *)
Definition _analyze_keywords (cases : list court_case)
  (keywords : list string) : gmap string nat :=
  let keyword_counts : gmap string nat :=
    list_to_map (map (fun keyword => (keyword, 0)) keywords) in
  fold_left
    (fun counts case =>
       fold_left
         (fun counts keyword =>
            if mentions case keyword
            then <[ keyword := S (default 0 (counts !! keyword)) ]> counts
            else counts)
         keywords counts)
    cases keyword_counts.

(** [_analyze_case_type]; [cases] is [cases.get("results", [])]. *)
Definition _analyze_case_type (now : Z) (cases : list court_case)
  (case_type : CaseType) : analysis :=
  {| total_cases := length cases;
     recent_cases := _count_recent_cases now cases;
     priority_level := priority case_type;
     keywords_found := _analyze_keywords cases (keywords case_type) |}.

(** [_update_risk_assessment] *)
Definition _update_risk_assessment (r : results) (case_analysis : analysis)
  (case_type : CaseType) : results :=
  let r1 :=
    if (priority case_type =? 1)%Z && (2 <? recent_cases case_analysis)
    then {| company_name_of := company_name_of r;
            analysis_date := analysis_date r;
            lookback_period := lookback_period r;
            case_summary := case_summary r;
            red_flags :=
              red_flags r
              ++ ["Multiple recent " +:+ ct_name case_type
                  +:+ " cases detected"];
            overall_risk := "HIGH";
            factors := factors r |}
    else r in
  if 5 <? total_cases case_analysis
  then {| company_name_of := company_name_of r1;
          analysis_date := analysis_date r1;
          lookback_period := lookback_period r1;
          case_summary := case_summary r1;
          red_flags := red_flags r1;
          overall_risk := overall_risk r1;
          factors :=
            factors r1
            ++ [("High volume of " +:+ ct_name case_type +:+ " cases",
                 "HIGH")] |}
  else r1.

(** [search_cases] as [analyze_company] sees it: for a company and a case
    type, the [results] list of the answer (empty for an answer without
    one, and for a status other than 200), or the exception of the
    request. *)
Variable search_cases : string -> CaseType -> outcome (list court_case).

(** The clock, read once by each call of [_count_recent_cases]. *)
Variable now_for : CaseType -> Z.

(** The loop of [analyze_company] over the case types. *)
Fixpoint analyze_loop (company_name : string) (case_types : list CaseType)
  (r : results) : outcome results :=
  match case_types with
  | [] => Return r
  | case_type :: rest =>
      cases ← search_cases company_name case_type;
      let case_analysis :=
        _analyze_case_type (now_for case_type) cases case_type in
      let r1 :=
        {| company_name_of := company_name_of r;
           analysis_date := analysis_date r;
           lookback_period := lookback_period r;
           case_summary :=
             summary_set (case_summary r) (ct_name case_type) case_analysis;
           red_flags := red_flags r;
           overall_risk := overall_risk r;
           factors := factors r |} in
      let r2 :=
        if 0 <? total_cases case_analysis
        then _update_risk_assessment r1 case_analysis case_type
        else r1 in
      analyze_loop company_name rest r2
  end.

(** [analyze_company]; [end_date] is the text of
    [datetime.now().isoformat()]. *)
Definition analyze_company (end_date : string) (company_name : string)
  (lookback_years : Z) : outcome results :=
  analyze_loop company_name (map snd CASE_TYPES)
    {| company_name_of := company_name;
       analysis_date := end_date;
       lookback_period := pretty lookback_years +:+ " years";
       case_summary := [];
       red_flags := [];
       overall_risk := "LOW";
       factors := [] |}.

End Dispute.

(** The list [report] of [generate_report], before it is joined. *)
Definition report_lines (r : results) : list string :=
  [ "Employment Legal Analysis Report";
    "==============================";
    Str.nl +:+ "Company: " +:+ company_name_of r;
    "Analysis Date: " +:+ analysis_date r;
    "Lookback Period: " +:+ lookback_period r;
    Str.nl +:+ "Risk Assessment";
    "---------------";
    "Overall Risk: " +:+ overall_risk r ]
  ++ (match red_flags r with
      | [] => []
      | _ :: _ =>
          [Str.nl +:+ "Red Flags"; "---------"]
          ++ map (fun flag => "- " +:+ flag) (red_flags r)
      end)
  ++ [Str.nl +:+ "Case Summary"; "-----------"]
  ++ concat (map (fun entry : string * analysis =>
                    [ Str.nl +:+ entry.1 +:+ ":";
                      "  Total Cases: " +:+ pretty (total_cases entry.2);
                      "  Recent Cases: " +:+ pretty (recent_cases entry.2) ])
               (case_summary r)).

(** [EmploymentAnalysisReport.generate_report] *)
Definition generate_report (r : results) : string :=
  Str.join Str.nl (report_lines r).

(** How often a keyword stands in the keyword list. *)
Definition multiplicity (keyword : string) (keywords : list string) : nat :=
  length (filter (fun k => k = keyword) keywords).

(** ** jobsearch.py: [get_filtered_company_jobs] *)

Definition relevant_columns : list string :=
  ["company"; "title"; "location"; "job_url"].

(** [df[cols]]: the listed columns, or [KeyError] when one is missing. *)
Definition select_columns (df : DataFrame) (cols : list string)
  : outcome DataFrame :=
  match mapM (fun c => position c (columns df)) cols with
  | Some indices =>
      Return {| columns := cols;
                records := map (fun r => map (fun i => at_column i r) indices)
                               (records df) |}
  | None => Raise (Exn KeyError "not in index")
  end.

Section JobSearch.

Variable scorer : string -> string -> Z.

(** [series.str.contains(pattern, case=False, na=False)] on one text:
    compiling the pattern may raise. *)
Variable str_contains : string -> outcome (string -> bool).

(** [get_filtered_company_jobs]; [scraped] is what [scrape_jobs] does. *)
Definition get_filtered_company_jobs (scraped : outcome DataFrame)
  (company_name : string) (match_threshold : Z)
  : outcome (option DataFrame) :=
  jobs ← scraped;
  if empty jobs then Return None
  else
    company ← getitem jobs "company";
    let unique_companies := unique (dropna company) in
    let matches := extract scorer company_name unique_companies in
    match matches with
    | [] => Return None
    | (best_match, score) :: _ =>
        if (score <? match_threshold)%Z then Return None
        else
          matcher ← str_contains best_match;
          let keep (r : list cell) : bool :=
            match position "company" (columns jobs) with
            | Some i =>
                match at_column i r with
                | Text s => matcher s
                | NaN => false
                end
            | None => false
            end in
          let filtered_df :=
            {| columns := columns jobs;
               records := List.filter keep (records jobs) |} in
          if empty filtered_df then Return None
          else
            out ← select_columns filtered_df relevant_columns;
            Return (Some out)
    end.

End JobSearch.

(** The two tests of [_update_risk_assessment], read off a summary
    entry, and the texts it appends. *)
Definition is_flagged (a : analysis) : bool :=
  (priority_level a =? 1)%Z && (2 <? recent_cases a).

Definition is_voluminous (a : analysis) : bool := 5 <? total_cases a.

Definition flag_text (name : string) : string :=
  "Multiple recent " +:+ name +:+ " cases detected".

Definition factor_of (name : string) : string * string :=
  ("High volume of " +:+ name +:+ " cases", "HIGH").

(** The summary entry of one case type, when its search returns. *)
Definition entry_of (fromisoformat : string -> option datetime)
  (search_cases : string -> CaseType -> outcome (list court_case))
  (now_for : CaseType -> Z) (company_name : string) (case_type : CaseType)
  : option (string * analysis) :=
  match search_cases company_name case_type with
  | Return cases =>
      Some (ct_name case_type,
            _analyze_case_type fromisoformat (now_for case_type) cases
              case_type)
  | Raise _ => None
  end.

(** * Properties *)

(** ** Text *)

Section StripFacts.

Import Str.

Lemma lstrip_head (s : string) :
  lstrip s = EmptyString \/
  exists c t, lstrip s = String c t /\ isspace c = false.
Proof.
  induction s as [|c s IH]; simpl; [by left|].
  destruct (isspace c) eqn:E; [exact IH|].
  right. by exists c, s.
Qed.

Lemma rstrip_cons_keep (c : ascii) (t : string) :
  isspace c = false -> rstrip (String c t) = String c (rstrip t).
Proof.
  intros E. simpl. rewrite E. by destruct (rstrip t).
Qed.

Lemma rstrip_cons (c : ascii) (s : string) :
  rstrip (String c s) =
  match rstrip s with
  | EmptyString => if isspace c then EmptyString else String c EmptyString
  | r => String c r
  end.
Proof. reflexivity. Qed.

Lemma rstrip_idem (s : string) : rstrip (rstrip s) = rstrip s.
Proof.
  induction s as [|c s IH]; [done|].
  rewrite rstrip_cons.
  destruct (rstrip s) as [|d r] eqn:R.
  - destruct (isspace c) eqn:E; [done|]. rewrite rstrip_cons. simpl.
    by rewrite E.
  - rewrite rstrip_cons, IH. done.
Qed.

Lemma strip_idem (s : string) : strip (strip s) = strip s.
Proof.
  unfold strip.
  destruct (lstrip_head s) as [->|(c & t & -> & E)]; [done|].
  rewrite (rstrip_cons_keep c t E).
  cbn [lstrip]. rewrite E.
  rewrite (rstrip_cons_keep c _ E). by rewrite rstrip_idem.
Qed.

Lemma lstrip_length (s : string) :
  String.length (lstrip s) <= String.length s.
Proof.
  induction s as [|c s IH]; simpl; [lia|].
  destruct (isspace c); simpl; lia.
Qed.

Lemma rstrip_length (s : string) :
  String.length (rstrip s) <= String.length s.
Proof.
  induction s as [|c s IH]; simpl; [lia|].
  destruct (rstrip s); [destruct (isspace c)|]; simpl in *; lia.
Qed.

Lemma strip_length (s : string) :
  String.length (strip s) <= String.length s.
Proof.
  unfold strip. pose proof (rstrip_length (lstrip s)).
  pose proof (lstrip_length s). lia.
Qed.

Lemma take_length (n : nat) (s : string) :
  String.length (take n s) <= n.
Proof.
  revert s; induction n as [|n IH]; intros [|c s]; simpl; try lia.
  specialize (IH s). lia.
Qed.

Lemma endswith_length (s suf : string) :
  endswith s suf = true -> String.length suf <= String.length s.
Proof.
  unfold endswith. intros H. apply andb_prop in H as [H _].
  by apply Nat.leb_le in H.
Qed.

Lemma slice_off_shorter (s suffix : string) :
  endswith s (" " +:+ suffix) = true ->
  String.length (strip (slice_off s (String.length suffix)))
  < String.length s.
Proof.
  intros H. apply endswith_length in H. simpl in H.
  pose proof (strip_length (slice_off s (String.length suffix))) as L.
  unfold slice_off in *. destruct (String.length suffix) as [|k] eqn:K.
  - simpl in *. lia.
  - pose proof (take_length (String.length s - S k) s). lia.
Qed.

End StripFacts.

(** ** Name normalisation *)

Lemma remove_suffix_none (name : string) (sufs : list string) :
  existsb (fun suffix => Str.endswith name (" " +:+ suffix)) sufs = false ->
  remove_suffix name sufs = name.
Proof.
  induction sufs as [|suffix rest IH]; simpl; [done|].
  intros H. apply orb_false_elim in H as [-> H]. by apply IH.
Qed.

Lemma remove_suffix_some (name : string) (sufs : list string) :
  existsb (fun suffix => Str.endswith name (" " +:+ suffix)) sufs = true ->
  String.length (remove_suffix name sufs) < String.length name.
Proof.
  induction sufs as [|suffix rest IH]; simpl; [done|].
  destruct (Str.endswith name (" " +:+ suffix)) eqn:E; simpl.
  - intros _. by apply slice_off_shorter.
  - exact IH.
Qed.

Lemma remove_suffix_stripped (name : string) (sufs : list string) :
  Str.strip name = name ->
  Str.strip (remove_suffix name sufs) = remove_suffix name sufs.
Proof.
  intros Hn. induction sufs as [|suffix rest IH]; simpl; [done|].
  destruct (Str.endswith name (" " +:+ suffix)); [apply strip_idem | exact IH].
Qed.

Lemma base_name_stripped (company_name : string) :
  Str.strip (base_name company_name) = base_name company_name.
Proof. apply remove_suffix_stripped, strip_idem. Qed.

Lemma variants_name (company_name : string) :
  Str.strip company_name ∈ variants company_name.
Proof. unfold variants. simpl. apply list_elem_of_here. Qed.

Lemma normalize_elem (company_name v : string) :
  v ∈ _normalize_company_name company_name <-> v ∈ variants company_name.
Proof.
  unfold _normalize_company_name.
  by rewrite elem_of_elements, elem_of_list_to_set.
Qed.

(** C7, as the specification words it, fails: the variants of a name typed
    with surrounding blanks do not hold the name as typed. *)
Lemma C7_raw_input_missing :
  ~ (" Acme " ∈ _normalize_company_name " Acme ").
Proof.
  rewrite normalize_elem. unfold variants, base_name. simpl.
  rewrite !elem_of_cons, elem_of_nil. intros H.
  repeat (destruct H as [H|H]; [discriminate H|]). exact H.
Qed.

(** C7 (amended): for every raw company name, the variant list of
    [_normalize_company_name] is non-empty and holds the name with its
    surrounding whitespace removed; it holds the raw input itself whenever
    that input carries no surrounding whitespace. *)
Theorem C7_variants_hold_stripped_name (company_name : string) :
  _normalize_company_name company_name <> []
  /\ Str.strip company_name ∈ _normalize_company_name company_name
  /\ (Str.strip company_name = company_name ->
      company_name ∈ _normalize_company_name company_name).
Proof.
  assert (H : Str.strip company_name ∈ _normalize_company_name company_name)
    by (apply normalize_elem, variants_name).
  split; [|split].
  - intros E. rewrite E in H. by apply elem_of_nil in H.
  - exact H.
  - intros E. by rewrite E in H.
Qed.

Lemma C7_variants_witness :
  "Acme Inc." ∈ _normalize_company_name "  Acme Inc. "
  /\ "Acme Inc." ∈ _normalize_company_name "Acme Inc.".
Proof.
  split.
  - exact (proj1 (proj2 (C7_variants_hold_stripped_name "  Acme Inc. "))).
  - exact (proj2 (proj2 (C7_variants_hold_stripped_name "Acme Inc.")) eq_refl).
Defined.

(** C9, as the specification words it, fails: a name with two stacked
    suffixes loses one per normalisation. *)
Lemma C9_stacked_suffixes :
  base_name "Acme Co Inc" = "Acme Co"
  /\ base_name (base_name "Acme Co Inc") = "Acme"
  /\ base_name (base_name "Acme Co Inc") <> base_name "Acme Co Inc".
Proof. repeat split. discriminate. Qed.

(** C9 (amended): normalising a base form again leaves it unchanged exactly
    when the base form does not itself end in a blank and a recognised
    suffix; one suffix is removed per normalisation. *)
Theorem C9_base_name_idempotent_iff (company_name : string) :
  base_name (base_name company_name) = base_name company_name
  <-> has_suffix (base_name company_name) = false.
Proof.
  unfold base_name at 1. rewrite base_name_stripped.
  unfold has_suffix. split.
  - intros E. destruct (existsb _ suffixes) eqn:X; [|done].
    apply remove_suffix_some in X. rewrite E in X. lia.
  - apply remove_suffix_none.
Qed.

Lemma C9_base_name_witness :
  base_name (base_name "Acme Holdings Inc.") = base_name "Acme Holdings Inc.".
Proof.
  exact (proj2 (C9_base_name_idempotent_iff "Acme Holdings Inc.") eq_refl).
Defined.

(** ** pandas helpers *)

Lemma unique_fold_elem (l seen : list string) (x : string) :
  x ∈ fold_left (fun seen x => if decide (x ∈ seen) then seen else seen ++ [x])
        l seen
  <-> x ∈ seen \/ x ∈ l.
Proof.
  revert seen. induction l as [|y l IH]; intros seen; simpl.
  - rewrite elem_of_nil. tauto.
  - rewrite IH, elem_of_cons. destruct (decide (y ∈ seen)) as [Hy|Hy].
    + split; [tauto|]. intros [H|[->|H]]; tauto.
    + rewrite elem_of_app, list_elem_of_singleton. tauto.
Qed.

Lemma unique_elem (l : list string) (x : string) : x ∈ unique l <-> x ∈ l.
Proof.
  unfold unique. rewrite unique_fold_elem, elem_of_nil. tauto.
Qed.

Lemma dropna_elem (l : list cell) (s : string) : s ∈ dropna l <-> Text s ∈ l.
Proof.
  unfold dropna. rewrite list_elem_of_omap. split.
  - intros ([|t] & Hin & E); [discriminate|]. by injection E as ->.
  - intros H. by exists (Text s).
Qed.

Lemma empty_rows (c : string) (i : nat) (cols : list string)
  (r : list cell) (rs : list (list cell)) :
  position c cols = Some i ->
  empty {| columns := cols; records := r :: rs |} = false.
Proof. by destruct cols. Qed.

Lemma filter_first {A} (P : A -> Prop) `{!forall x, Decision (P x)}
  (l : list A) (x : A) :
  x ∈ l -> P x -> exists r rest, filter P l = r :: rest.
Proof.
  intros Hin HP.
  assert (Hf : x ∈ filter P l) by (by apply list_elem_of_filter).
  destruct (filter P l) as [|r rest]; [by apply elem_of_nil in Hf|eauto].
Qed.

(** ** Fuzzy matching *)

Section FuzzyFacts.

Variable scorer : string -> string -> Z.

Lemma extractWithoutOrder_elem (q : string) (choices : list string)
  (m : string * Z) :
  m ∈ extractWithoutOrder scorer q choices ->
  m.1 ∈ choices /\ m.2 = scorer q m.1.
Proof.
  unfold extractWithoutOrder. rewrite list_elem_of_filter, list_elem_of_fmap.
  intros (_ & c & -> & Hc). done.
Qed.

Lemma extractWithoutOrder_keeps (q : string) (choices : list string)
  (c : string) :
  (0 <= scorer q c)%Z -> c ∈ choices ->
  (c, scorer q c) ∈ extractWithoutOrder scorer q choices.
Proof.
  intros Hs Hc. unfold extractWithoutOrder.
  apply list_elem_of_filter. split; [done|].
  apply list_elem_of_fmap. by exists c.
Qed.

Lemma insert_desc_elem (x y : string * Z) (l : list (string * Z)) :
  y ∈ insert_desc x l <-> y = x \/ y ∈ l.
Proof.
  induction l as [|z l IH]; simpl.
  - rewrite list_elem_of_singleton, elem_of_nil. tauto.
  - destruct (x.2 <? z.2)%Z.
    + rewrite !elem_of_cons, IH. tauto.
    + by rewrite elem_of_cons.
Qed.

Lemma sort_desc_elem (y : string * Z) (l : list (string * Z)) :
  y ∈ sort_desc l <-> y ∈ l.
Proof.
  induction l as [|x l IH]; simpl; [done|].
  by rewrite insert_desc_elem, elem_of_cons, IH.
Qed.

Lemma extract_elem (q : string) (choices : list string) (m : string * Z) :
  m ∈ extract scorer q choices -> m.1 ∈ choices /\ m.2 = scorer q m.1.
Proof.
  unfold extract. intros H. apply elem_of_take in H as (i & H & _).
  apply list_elem_of_lookup_2 in H. rewrite sort_desc_elem in H.
  by apply extractWithoutOrder_elem in H.
Qed.

Lemma extract_nonempty (q : string) (choices : list string) (c : string) :
  (0 <= scorer q c)%Z -> c ∈ choices ->
  exists m rest, extract scorer q choices = m :: rest.
Proof.
  intros Hs Hc.
  pose proof (extractWithoutOrder_keeps q choices c Hs Hc) as H.
  rewrite <- sort_desc_elem in H. unfold extract.
  destruct (sort_desc _) as [|m rest]; [by apply elem_of_nil in H|].
  simpl. eauto.
Qed.

Lemma first_max_fold_elem (l : list (string * Z)) (b m : string * Z) :
  fold_left (fun best x =>
               match best with
               | None => Some x
               | Some b => if (b.2 <? x.2)%Z then Some x else Some b
               end) l (Some b) = Some m ->
  m = b \/ m ∈ l.
Proof.
  revert b. induction l as [|x l IH]; intros b; simpl.
  - intros [= ->]. by left.
  - destruct (b.2 <? x.2)%Z; intros H; apply IH in H as [->|H];
      rewrite ?elem_of_cons; tauto.
Qed.

Lemma first_max_elem (l : list (string * Z)) (m : string * Z) :
  first_max l = Some m -> m ∈ l.
Proof.
  unfold first_max. destruct l as [|x l]; simpl; [done|].
  intros H. apply first_max_fold_elem in H. rewrite elem_of_cons. tauto.
Qed.

Lemma extractOne_elem (q : string) (choices : list string) (m : string * Z) :
  extractOne scorer q choices = Some m ->
  m.1 ∈ choices /\ m.2 = scorer q m.1.
Proof.
  unfold extractOne. intros H. apply first_max_elem in H.
  by apply extractWithoutOrder_elem in H.
Qed.

End FuzzyFacts.

(** ** utils.py: [get_ticker] *)

(** C10: when the table read from [data/companies.csv] has a [title] and a
    [ticker] column and at least one title that is not missing, and the
    scorer gives scores of 0 or more, the match list of [get_ticker] is not
    empty, its best match is a title of the table, the "Ticker not found"
    line is never printed, [ticker] is bound at the [return], and the call
    returns the ticker of the first row whose title is the best match. *)
Theorem C10_get_ticker_branch_unreachable
  (scorer : string -> string -> Z) (df : DataFrame) (input_company : string)
  (i j : nat) (known : string) :
  (forall q c, (0 <= scorer q c)%Z) ->
  position "title" (columns df) = Some i ->
  position "ticker" (columns df) = Some j ->
  Text known ∈ map (at_column i) (records df) ->
  exists best score rest row others,
    extract scorer input_company (unique (dropna (map (at_column i) (records df))))
      = (best, score) :: rest
    /\ Text best ∈ map (at_column i) (records df)
    /\ filter (fun r => at_column i r = Text best) (records df) = row :: others
    /\ get_ticker scorer (Return df) input_company
       = (["Best matched company: " +:+ best], Return (Some (at_column j row)))
    /\ ~ (ticker_not_found ∈ (get_ticker scorer (Return df) input_company).1).
Proof.
  intros Hscore Hi Hj Hknown.
  set (titles := map (at_column i) (records df)).
  destruct (extract_nonempty scorer input_company (unique (dropna titles)) known)
    as ([best score] & rest & Hex).
  { apply Hscore. }
  { apply unique_elem, dropna_elem, Hknown. }
  assert (Hbest : Text best ∈ titles).
  { apply dropna_elem, unique_elem.
    apply (extract_elem scorer input_company _ (best, score)).
    rewrite Hex. apply list_elem_of_here. }
  assert (Hrow : exists r, r ∈ records df /\ at_column i r = Text best).
  { unfold titles in Hbest. apply list_elem_of_fmap in Hbest as (r & E & Hr).
    by exists r. }
  destruct Hrow as (r & Hr & Er).
  destruct (filter_first (fun r => at_column i r = Text best) (records df) r Hr Er)
    as (row & others & Hf).
  assert (Hget : get_ticker scorer (Return df) input_company
                 = (["Best matched company: " +:+ best],
                    Return (Some (at_column j row)))).
  { unfold get_ticker, getitem, where_eq. simpl. rewrite Hi. simpl.
    fold titles. rewrite Hex, Hi, Hf.
    rewrite (empty_rows _ i _ _ _ Hi). unfold iloc0. cbn.
    rewrite Hj. reflexivity. }
  exists best, score, rest, row, others.
  repeat split; try done.
  rewrite Hget. simpl. rewrite list_elem_of_singleton. discriminate.
Qed.

Lemma C10_get_ticker_witness :
  exists best score rest row others,
    extract sample_scorer "acme"
      (unique (dropna (map (at_column 1) (records sample_companies_csv))))
      = (best, score) :: rest
    /\ Text best ∈ map (at_column 1) (records sample_companies_csv)
    /\ filter (fun r => at_column 1 r = Text best) (records sample_companies_csv)
       = row :: others
    /\ get_ticker sample_scorer
         (Return sample_companies_csv) "acme"
       = (["Best matched company: " +:+ best], Return (Some (at_column 0 row)))
    /\ ~ (ticker_not_found
          ∈ (get_ticker sample_scorer
               (Return sample_companies_csv) "acme").1).
Proof.
  apply (C10_get_ticker_branch_unreachable
           sample_scorer
           sample_companies_csv "acme" 1 0 "Acme Corp").
  - intros q c. unfold sample_scorer, table_scorer. simpl.
    repeat (case_match; simpl; try lia).
  - reflexivity.
  - reflexivity.
  - simpl. do 2 apply list_elem_of_further. apply list_elem_of_here.
Defined.

Example get_ticker_sample :
  get_ticker sample_scorer
    (Return sample_companies_csv) "acme"
  = (["Best matched company: Acme Corp"], Return (Some (Text "ACME"))).
Proof. vm_compute. reflexivity. Qed.

(** ** layoff.py: [layoffs] *)

Lemma filter_none {A} (P : A -> Prop) `{!forall x, Decision (P x)}
  (l : list A) :
  (forall x, x ∈ l -> ~ P x) -> filter P l = [].
Proof.
  intros Hl. induction l as [|x l IH]; [done|].
  rewrite filter_cons. destruct (decide (P x)) as [HP|_].
  - exfalso. apply (Hl x); [apply list_elem_of_here | exact HP].
  - apply IH. intros y Hy. apply Hl. by apply list_elem_of_further.
Qed.



(** The sibling lookup of h1b.py guards the same list and returns [None]
    where [layoffs] raises. *)
Lemma process_and_match_companies_without_match
  (scorer : string -> string -> Z) (df : DataFrame) (input_company : string)
  (i : nat) :
  position "Employer (Petitioner) Name" (columns df) = Some i ->
  (forall c, (scorer input_company c < 50)%Z) ->
  process_and_match_companies scorer (Return df) input_company = Return None.
Proof.
  intros Hi Hscore.
  unfold process_and_match_companies, getitem. simpl. rewrite Hi. simpl.
  rewrite filter_none; [done|].
  intros x Hx. apply extract_elem in Hx as [_ ->].
  specialize (Hscore x.1). lia.
Qed.

(** ** get_sec.py: [get_ticker_or_cik] *)

Lemma dict_get_set (d : list (string * Z)) (k k' : string) (v : Z) :
  dict_get (dict_set d k v) k'
  = if String.eqb k' k then Some v else dict_get d k'.
Proof.
  induction d as [|[k0 v0] d IH]; simpl; [done|].
  destruct (String.eqb_spec k k0) as [->|Hk]; simpl.
  - by destruct (String.eqb_spec k' k0).
  - destruct (String.eqb_spec k' k0) as [->|Hk'].
    + destruct (String.eqb_spec k0 k); congruence.
    + exact IH.
Qed.

Lemma dict_get_keys (d : list (string * Z)) (k : string) :
  k ∈ map fst d -> exists v, dict_get d k = Some v.
Proof.
  induction d as [|[k0 v0] d IH]; simpl.
  - intros H. by apply elem_of_nil in H.
  - rewrite elem_of_cons. destruct (String.eqb_spec k k0) as [->|Hk].
    + eauto.
    + intros [H|H]; [done|by apply IH].
Qed.

Lemma flatten_fold_sound (data : payload) (d : list (string * Z))
  (k : string) (v : Z) :
  dict_get (fold_left (fun d kv => dict_set d (title kv.2) (cik_str kv.2))
              data d) k = Some v ->
  dict_get d k = Some v
  \/ exists key c, (key, c) ∈ data /\ title c = k /\ cik_str c = v.
Proof.
  revert d. induction data as [|[key c] data IH]; intros d; simpl.
  - by left.
  - intros H. apply IH in H as [H|(key' & c' & Hin & Ht & Hc)].
    + rewrite dict_get_set in H.
      destruct (String.eqb_spec k (title c)) as [->|_].
      * right. exists key, c. split; [apply list_elem_of_here|].
        split; [done|congruence].
      * by left.
    + right. exists key', c'. split; [by apply list_elem_of_further|done].
Qed.

Lemma flatten_sound (data : payload) (k : string) (v : Z) :
  dict_get (flatten data) k = Some v ->
  exists key c, (key, c) ∈ data /\ title c = k /\ cik_str c = v.
Proof.
  intros H. apply flatten_fold_sound in H as [H|H]; [discriminate H|exact H].
Qed.

Section GetSecFacts.

Variable scorer : string -> string -> Z.
Variable fromisoformat : string -> option datetime.
Variable isoformat : Z -> string.

Lemma resolve_best (data : payload) (company_name m : string) (s : Z) :
  extractOne scorer company_name (map fst (flatten data)) = Some (m, s) ->
  truthy (Some data) = true
  /\ exists cik,
       dict_get (flatten data) m = Some cik
       /\ (exists key c, (key, c) ∈ data /\ title c = m /\ cik_str c = cik)
       /\ resolve scorer (Some data) company_name
          = if (70 <? s)%Z then Return (Some (m, cik)) else Return None.
Proof.
  intros Hone.
  assert (Ht : truthy (Some data) = true) by (by destruct data).
  split; [exact Ht|].
  pose proof (extractOne_elem scorer _ _ _ Hone) as [Hin _]. simpl in Hin.
  destruct (dict_get_keys _ _ Hin) as (cik & Hcik).
  exists cik. split; [exact Hcik|]. split; [by apply flatten_sound|].
  unfold resolve. rewrite Ht. simpl. rewrite Hone, Hcik. done.
Qed.

(** C2 (amended): the gate of [get_ticker_or_cik] is strict. With the
    company table loaded and [(m, s)] the best fuzzy match, a score above
    70 (71 or more) is accepted with [m] and a CIK the table lists for
    [m]; a score of 70 or less, the score 70 itself included, is rejected
    with [(None, None)]. *)
Theorem C2_gate_is_strict (file file' : cache_file) (now : Z)
  (http : outcome response) (data : payload) (company_name m : string)
  (s : Z) :
  get_company_data fromisoformat isoformat file now http
  = (Return (Some data), file') ->
  extractOne scorer company_name (map fst (flatten data)) = Some (m, s) ->
  ((70 < s)%Z ->
   exists cik,
     get_ticker_or_cik scorer fromisoformat isoformat file now http
       company_name = (Return (Some (m, cik)), file')
     /\ exists key c, (key, c) ∈ data /\ title c = m /\ cik_str c = cik)
  /\ ((s <= 70)%Z ->
      get_ticker_or_cik scorer fromisoformat isoformat file now http
        company_name = (Return None, file')).
Proof.
  intros Hdata Hone.
  destruct (resolve_best data company_name m s Hone)
    as (_ & cik & _ & Hentry & Hres).
  unfold get_ticker_or_cik. rewrite Hdata. simpl. unfold mbind, outcome_bind.
  simpl. rewrite Hres. split.
  - intros Hs. exists cik. split; [|exact Hentry].
    by destruct (Z.ltb_spec 70 s); [|lia].
  - intros Hs. by destruct (Z.ltb_spec 70 s); [lia|].
Qed.

(** C3 (amended): [get_ticker_or_cik] has no ambiguity margin. With the
    best fuzzy match [(m, s)] above 70, the call accepts [m] alone, with
    the CIK the flattened table holds for it, even when another title of
    the table scores within 10 points of [s]: the runner-up is never
    read. *)
Theorem C3_close_runner_up_is_ignored (file file' : cache_file) (now : Z)
  (http : outcome response) (data : payload) (company_name m other : string)
  (s : Z) :
  get_company_data fromisoformat isoformat file now http
  = (Return (Some data), file') ->
  extractOne scorer company_name (map fst (flatten data)) = Some (m, s) ->
  (70 < s)%Z ->
  other ∈ map fst (flatten data) ->
  other <> m ->
  (s - 10 <= scorer company_name other)%Z ->
  exists cik,
    dict_get (flatten data) m = Some cik
    /\ get_ticker_or_cik scorer fromisoformat isoformat file now http
         company_name = (Return (Some (m, cik)), file').
Proof.
  intros Hdata Hone Hs _ _ _.
  destruct (resolve_best data company_name m s Hone)
    as (_ & cik & Hcik & _ & Hres).
  exists cik. split; [exact Hcik|].
  unfold get_ticker_or_cik. rewrite Hdata. simpl. unfold mbind, outcome_bind.
  simpl. rewrite Hres. by destruct (Z.ltb_spec 70 s); [|lia].
Qed.

End GetSecFacts.

(** C2, as the specification words it, fails: a best score of exactly 70 is
    rejected. *)
Lemma C2_score_70_is_rejected :
  extractOne (table_scorer [("Acme Corp", 70%Z); ("Acme Co", 12%Z)]) "Acme"
    (map fst (flatten sample_payload)) = Some ("Acme Corp", 70%Z)
  /\ (get_ticker_or_cik (table_scorer [("Acme Corp", 70%Z); ("Acme Co", 12%Z)])
        sample_fromisoformat sample_isoformat Absent 0 sample_response
        "Acme").1 = Return None
  /\ ~ (exists cik,
         (get_ticker_or_cik
            (table_scorer [("Acme Corp", 70%Z); ("Acme Co", 12%Z)])
            sample_fromisoformat sample_isoformat Absent 0 sample_response
            "Acme").1 = Return (Some ("Acme Corp", cik))).
Proof.
  split; [reflexivity|]. split; [reflexivity|].
  intros (cik & H). vm_compute in H. discriminate H.
Qed.

Lemma C2_gate_witness :
  get_ticker_or_cik (table_scorer [("Acme Corp", 71%Z); ("Acme Co", 12%Z)])
    sample_fromisoformat sample_isoformat Absent 0 sample_response "Acme"
  = (Return (Some ("Acme Corp", 1001%Z)),
     save_cache sample_isoformat sample_payload 0).
Proof.
  destruct (C2_gate_is_strict
              (table_scorer [("Acme Corp", 71%Z); ("Acme Co", 12%Z)])
              sample_fromisoformat sample_isoformat
              Absent (save_cache sample_isoformat sample_payload 0) 0
              sample_response sample_payload "Acme" "Acme Corp" 71
              eq_refl eq_refl) as [Hacc _].
  destruct (Hacc ltac:(lia)) as (cik & Hrun & _).
  rewrite Hrun. vm_compute in Hrun. by injection Hrun as <-.
Defined.

(** C3, as the specification words it, fails: scores 95 and 94 give an
    acceptance of the top candidate, as scores 95 and 80 do. *)
Lemma C3_scores_95_94_accepted :
  extractWithoutOrder (table_scorer [("Acme Corp", 95%Z); ("Acme Co", 94%Z)])
    "Acme" (map fst (flatten sample_payload))
  = [("Acme Corp", 95%Z); ("Acme Co", 94%Z)]
  /\ (get_ticker_or_cik (table_scorer [("Acme Corp", 95%Z); ("Acme Co", 94%Z)])
        sample_fromisoformat sample_isoformat Absent 0 sample_response
        "Acme").1 = Return (Some ("Acme Corp", 1001%Z))
  /\ (get_ticker_or_cik (table_scorer [("Acme Corp", 95%Z); ("Acme Co", 80%Z)])
        sample_fromisoformat sample_isoformat Absent 0 sample_response
        "Acme").1 = Return (Some ("Acme Corp", 1001%Z)).
Proof. repeat split; reflexivity. Qed.

Lemma C3_runner_up_witness :
  exists cik,
    dict_get (flatten sample_payload) "Acme Corp" = Some cik
    /\ get_ticker_or_cik (table_scorer [("Acme Corp", 95%Z); ("Acme Co", 94%Z)])
         sample_fromisoformat sample_isoformat Absent 0 sample_response "Acme"
       = (Return (Some ("Acme Corp", cik)),
          save_cache sample_isoformat sample_payload 0).
Proof.
  apply (C3_close_runner_up_is_ignored
           (table_scorer [("Acme Corp", 95%Z); ("Acme Co", 94%Z)])
           sample_fromisoformat sample_isoformat
           Absent (save_cache sample_isoformat sample_payload 0) 0
           sample_response sample_payload "Acme" "Acme Corp" "Acme Co" 95).
  - reflexivity.
  - reflexivity.
  - lia.
  - simpl. apply list_elem_of_further, list_elem_of_here.
  - discriminate.
  - vm_compute. discriminate.
Defined.

(** ** get_sec.py: [load_cache] *)

(** C5: for an entry whose timestamp reads as the time [fetched_at],
    [load_cache] returns the stored payload when [now - fetched_at] is
    below the seven days of [CACHE_DURATION], and [None] when it is seven
    days or more; it returns [None] when there is no cache file. *)
Theorem C5_cache_ttl (fromisoformat : string -> option datetime)
  (s : string) (fetched_at now : Z) (companies : option payload) :
  fromisoformat s = Some (Naive fetched_at) ->
  ((now - fetched_at < CACHE_DURATION)%Z ->
   load_cache fromisoformat (Entry (IsText s) companies) now = Return companies)
  /\ ((CACHE_DURATION <= now - fetched_at)%Z ->
      load_cache fromisoformat (Entry (IsText s) companies) now = Return None)
  /\ load_cache fromisoformat Absent now = Return None.
Proof.
  intros Ht. unfold load_cache. rewrite Ht. simpl.
  unfold mbind, outcome_bind. simpl.
  repeat split; intros; destruct (Z.ltb_spec (now - fetched_at) CACHE_DURATION);
    done || lia.
Qed.

Lemma C5_cache_ttl_witness :
  load_cache sample_fromisoformat
    (Entry (IsText "2025-02-08T09:00:00") (Some sample_payload)) hour
  = Return (Some sample_payload)
  /\ load_cache sample_fromisoformat
       (Entry (IsText "2025-02-08T09:00:00") (Some sample_payload)) (8 * day)
     = Return None
  /\ load_cache sample_fromisoformat
       (Entry (IsText "2025-02-08T09:00:00") (Some sample_payload)) (7 * day)
     = Return None.
Proof.
  split; [|split].
  - destruct (C5_cache_ttl sample_fromisoformat "2025-02-08T09:00:00" 0 hour
                (Some sample_payload) eq_refl) as (Hhit & _ & _).
    apply Hhit. reflexivity.
  - destruct (C5_cache_ttl sample_fromisoformat "2025-02-08T09:00:00" 0
                (8 * day) (Some sample_payload) eq_refl) as (_ & Hmiss & _).
    apply Hmiss. discriminate.
  - destruct (C5_cache_ttl sample_fromisoformat "2025-02-08T09:00:00" 0
                (7 * day) (Some sample_payload) eq_refl) as (_ & Hmiss & _).
    apply Hmiss. discriminate.
Defined.

(** C6, as the specification words it, fails: on a cache file that does not
    decode (an empty file, say), [load_cache] raises and is no miss, and
    [get_company_data] raises too instead of fetching the table again. *)
Lemma C6_garbled_cache_raises :
  let e := Exn JSONDecodeError "Expecting value: line 1 column 1 (char 0)" in
  load_cache sample_fromisoformat (Unreadable e) 0 = Raise e
  /\ load_cache sample_fromisoformat (Unreadable e) 0 <> Return None
  /\ get_company_data sample_fromisoformat sample_isoformat (Unreadable e) 0
       sample_response
     = (Raise e, Unreadable e).
Proof. repeat split. discriminate. Qed.

(** C6 (amended): a corrupt cache file is fatal to the read. For every
    corrupt state [load_cache] raises: the exception of [open] or
    [json.load] when the file cannot be opened or decoded,
    [AttributeError] when it does not decode to a dict, [TypeError] when
    the timestamp is missing or not text, [ValueError] when it is text
    that [fromisoformat] rejects. [get_company_data] and
    [get_ticker_or_cik] raise the same exception, make no use of the
    network answer and leave the file as it is. [load_cache] returns
    [None] exactly for an absent file, for an entry whose timestamp is
    seven days old or more, and for a younger entry without a table. *)
Theorem C6_corrupt_cache_raises (scorer : string -> string -> Z)
  (fromisoformat : string -> option datetime) (isoformat : Z -> string)
  (file : cache_file) (now : Z) (http : outcome response)
  (company_name : string) :
  (corrupt fromisoformat file = true ->
   exists e,
     load_cache fromisoformat file now = Raise e
     /\ match file with
        | Absent => False
        | Unreadable e' => e = e'
        | NotADict _ => exn_cls e = AttributeError
        | Entry (IsText _) _ => exn_cls e = ValueError
        | Entry _ _ => exn_cls e = TypeError
        end
     /\ get_company_data fromisoformat isoformat file now http
        = (Raise e, file)
     /\ get_ticker_or_cik scorer fromisoformat isoformat file now http
          company_name = (Raise e, file))
  /\ (load_cache fromisoformat file now = Return None <->
      file = Absent
      \/ exists s t companies,
           file = Entry (IsText s) companies
           /\ fromisoformat s = Some (Naive t)
           /\ ((CACHE_DURATION <= now - t)%Z \/ companies = None)).
Proof.
  split.
  - intros Hc. unfold get_ticker_or_cik, get_company_data.
    destruct file as [|e0|ty|[| |s] companies]; simpl in Hc;
      try discriminate Hc.
    5: destruct (fromisoformat s) eqn:E; [discriminate Hc|].
    all: simpl; rewrite ?E; simpl.
    all: eexists; split; [reflexivity|]; split; [|split; reflexivity].
    all: reflexivity.
  - destruct file as [|e0|ty|[| |s] companies]; simpl.
    + split; [by left|done].
    + split; [discriminate|]. intros [[=]|(s & t & c & [=] & _)].
    + split; [discriminate|]. intros [[=]|(s & t & c & [=] & _)].
    + split; [discriminate|]. intros [[=]|(s & t & c & [=] & _)].
    + split; [discriminate|]. intros [[=]|(s & t & c & [=] & _)].
    + destruct (fromisoformat s) as [[t|t]|] eqn:E; simpl.
      * destruct (Z.ltb_spec (now - t) CACHE_DURATION) as [Hfresh|Hold].
        -- split.
           ++ intros [= ->]. right. exists s, t, None. by repeat split; [|right].
           ++ intros [[=]|(s' & t' & c & [= <- <-] & Et & [Hold| ->])];
                [|done]. rewrite E in Et. injection Et as <-. lia.
        -- split; [|done]. intros _. right. exists s, t, companies.
           by repeat split; [|left].
      * split; [discriminate|].
        intros [[=]|(s' & t' & c & [= <- <-] & Et & _)]. congruence.
      * split; [discriminate|].
        intros [[=]|(s' & t' & c & [= <- <-] & Et & _)]. congruence.
Qed.

Lemma C6_corrupt_cache_witness :
  exists e,
    load_cache sample_fromisoformat (Entry (IsText "last week") None) 0
    = Raise e
    /\ exn_cls e = ValueError
    /\ get_company_data sample_fromisoformat sample_isoformat
         (Entry (IsText "last week") None) 0 sample_response
       = (Raise e, Entry (IsText "last week") None)
    /\ get_ticker_or_cik sample_scorer sample_fromisoformat sample_isoformat
         (Entry (IsText "last week") None) 0 sample_response "Acme"
       = (Raise e, Entry (IsText "last week") None).
Proof.
  apply (proj1 (C6_corrupt_cache_raises sample_scorer sample_fromisoformat
                  sample_isoformat (Entry (IsText "last week") None) 0
                  sample_response "Acme")).
  reflexivity.
Defined.

(** On a miss, by contrast, [get_company_data] fetches the table and
    writes the cache: here for an absent file. *)
Lemma get_company_data_refetches_on_miss
  (fromisoformat : string -> option datetime) (isoformat : Z -> string)
  (now : Z) (companies : payload) :
  get_company_data fromisoformat isoformat Absent now
    (Return {| status_code := 200; json := Return companies |})
  = (Return (Some companies), save_cache isoformat companies now).
Proof. reflexivity. Qed.

(** ** jobsearch.py: [get_company_jobs] *)

Lemma retrying_three {A} (op : nat -> outcome A) :
  retrying op 3 3 1
  = match op 1 with
    | Return v => (Succeeded v, 1)
    | Raise _ =>
        match op 2 with
        | Return v => (Succeeded v, 2)
        | Raise _ =>
            match op 3 with
            | Return v => (Succeeded v, 3)
            | Raise e => (Exhausted e, 3)
            end
        end
    end.
Proof.
  simpl. destruct (op 1); [done|]. destruct (op 2); [done|].
  by destruct (op 3).
Qed.

(** C4, as the specification words it, fails: when every attempt fails the
    wrapper raises nothing and returns an empty frame. *)
Lemma C4_exhausted_retry_returns_empty_frame :
  get_company_jobs always_failing = (Return (Some empty_frame), 3)
  /\ raises (get_company_jobs always_failing).1 = false.
Proof. split; reflexivity. Qed.

(** C4 (amended): [get_company_jobs] makes between one and three attempts
    and never raises. When the first two attempts fail and the third
    succeeds, it returns that value after exactly 3 attempts. When all
    three attempts fail, the retry loop stops after exactly 3 attempts with
    the error of the last one, and the wrapper catches it and returns an
    empty DataFrame. *)
Theorem C4_bounded_retry (search : nat -> outcome (option DataFrame)) :
  (1 <= (get_company_jobs search).2 <= 3
   /\ raises (get_company_jobs search).1 = false)
  /\ (forall e1 e2 v,
        search 1 = Raise e1 -> search 2 = Raise e2 -> search 3 = Return v ->
        get_company_jobs search = (Return v, 3))
  /\ (forall e1 e2 e3,
        search 1 = Raise e1 -> search 2 = Raise e2 -> search 3 = Raise e3 ->
        retrying search 3 3 1 = (Exhausted e3, 3)
        /\ get_company_jobs search = (Return (Some empty_frame), 3)).
Proof.
  unfold get_company_jobs. rewrite retrying_three. split; [|split].
  - destruct (search 1); [simpl; split; [lia|done]|].
    destruct (search 2); [simpl; split; [lia|done]|].
    destruct (search 3); simpl; (split; [lia|done]).
  - intros e1 e2 v -> -> ->. reflexivity.
  - intros e1 e2 e3 -> -> ->. split; reflexivity.
Qed.

Lemma C4_bounded_retry_witness :
  get_company_jobs (failing_first 2) = (Return None, 3)
  /\ get_company_jobs always_failing = (Return (Some empty_frame), 3).
Proof.
  split.
  - destruct (C4_bounded_retry (failing_first 2)) as (_ & Hthird & _).
    apply (Hthird _ _ None eq_refl eq_refl eq_refl).
  - destruct (C4_bounded_retry always_failing) as (_ & _ & Hnone).
    apply (Hnone _ _ _ eq_refl eq_refl eq_refl).
Defined.

(** ** stock_app.py: [fetch_all_data] *)


(** A ticker lookup that raises or returns [None] makes the call itself
    raise. *)
Lemma fetch_all_data_unguarded_calls (srcs : sources) (entry : string)
  (e : exn) :
  Str.nonempty (Str.strip entry) = true ->
  (call_get_ticker srcs (Str.strip entry) = Raise e ->
   fetch_all_data srcs entry = Some (Raised e))
  /\ (call_get_ticker srcs (Str.strip entry) = Return None ->
      exists e', fetch_all_data srcs entry = Some (Raised e')
                 /\ exn_cls e' = AttributeError).
Proof.
  intros Hq. unfold fetch_all_data. rewrite Hq. simpl. split.
  - by intros ->.
  - intros ->. eexists. split; reflexivity.
Qed.

Ltac find_event :=
  repeat first [ apply list_elem_of_here | apply list_elem_of_further ].

Ltac split_events H :=
  simpl in H; rewrite ?elem_of_cons, ?elem_of_nil in H;
  repeat match type of H with
         | _ \/ _ => destruct H as [H|H]
         | False => destruct H
         | _ = _ => try discriminate H
         end.

Lemma upper_empty (ticker : string) :
  Str.upper ticker = Some "" -> ticker = "".
Proof.
  destruct ticker as [|c s]; [done|]. cbn [Str.upper].
  destruct (_ || _)%bool; [discriminate|].
  destruct (Str.upper s); [|discriminate].
  repeat case_match; discriminate.
Qed.



(** On the sample sources the layoff lookup raises [IndexError], the job
    search and the legal report fail; the thread still reaches its last
    line, and two of the callbacks it schedules read an unassigned
    variable. *)
Example fetch_all_data_sample :
  exists t,
    fetch_all_data (sample_sources true (Return None)) " acme "
    = Some (Started t)
    /\ uncaught t = None
    /\ current_symbol t = Some "ACME"
    /\ After clear_layoff_tab ∈ events t
    /\ After (display_jobs (Bound None)) ∈ events t
    /\ After (display_dispute_report
               "Error generating legal report: a coroutine was expected")
         ∈ events t
    /\ After (display_sec_summary "Annual report in brief.") ∈ events t
    /\ After (display_layoff_charts Unbound) ∈ events t
    /\ After (display_jobs Unbound) ∈ events t.
Proof.
  eexists. split; [vm_compute; reflexivity|].
  simpl. repeat split; find_event.
Qed.

(** * Further properties of the code *)

(** ** dispute.py: the shape of the variant list *)

Lemma append_length (a b : string) :
  String.length (a +:+ b) = String.length a + String.length b.
Proof. induction a as [|c a IH]; simpl; [done|]. by rewrite IH. Qed.

Lemma append_inj_r (a x y : string) : a +:+ x = a +:+ y -> x = y.
Proof. induction a as [|c a IH]; simpl; [done|]. intros [= H]. by apply IH. Qed.

Lemma append_assoc (a b c : string) : (a +:+ b) +:+ c = a +:+ (b +:+ c).
Proof.
  induction a as [|x a IH]; [done|].
  change (String x ((a +:+ b) +:+ c) = String x (a +:+ (b +:+ c))).
  by rewrite IH.
Qed.

Lemma append_empty_r (a : string) : a +:+ "" = a.
Proof.
  induction a as [|x a IH]; [done|].
  change (String x (a +:+ "") = String x a). by rewrite IH.
Qed.

Lemma suffixes_NoDup : NoDup suffixes.
Proof. apply (bool_decide_unpack _). vm_compute. reflexivity. Qed.

Lemma suffixes_long (suffix : string) :
  suffix ∈ suffixes -> 2 <= String.length suffix.
Proof.
  unfold suffixes. rewrite !elem_of_cons, elem_of_nil.
  intros H. repeat (destruct H as [->|H]; [simpl; lia|]). done.
Qed.

(** The variants that are pairwise distinct whatever the name is. *)
Lemma distinct_variants (base : string) :
  NoDup (base :: (Str.dquote +:+ base +:+ Str.dquote)
              :: map (fun suffix => base +:+ " " +:+ suffix) suffixes).
Proof.
  assert (Hmap : forall v,
             v ∈ map (fun suffix => base +:+ " " +:+ suffix) suffixes ->
             String.length base + 3 <= String.length v).
  { intros v Hv. apply list_elem_of_fmap in Hv as (suffix & -> & Hs).
    apply suffixes_long in Hs. rewrite !append_length. simpl. lia. }
  apply NoDup_cons. split; [|apply NoDup_cons; split].
  - rewrite elem_of_cons. intros [E|Hv].
    + apply (f_equal String.length) in E.
      rewrite !append_length in E. simpl in E. lia.
    + apply Hmap in Hv. lia.
  - intros Hv. apply Hmap in Hv. rewrite !append_length in Hv.
    simpl in Hv. lia.
  - apply NoDup_fmap_2; [|apply suffixes_NoDup].
    intros x y E. apply append_inj_r in E. by injection E.
Qed.

(** X1: the list [_normalize_company_name] returns has no duplicates and
    has never fewer than 17 and never more than 19 entries. *)
Theorem normalize_company_name_size (company_name : string) :
  NoDup (_normalize_company_name company_name)
  /\ 17 <= length (_normalize_company_name company_name) <= 19.
Proof.
  unfold _normalize_company_name.
  set (S := list_to_set (variants company_name) : gset string).
  assert (Hnd : NoDup (elements S)) by apply NoDup_elements.
  split; [exact Hnd|]. split.
  - pose proof (distinct_variants (base_name company_name)) as Hd.
    apply (NoDup_submseteq _ (elements S)) in Hd.
    + apply submseteq_length in Hd. simpl in Hd. exact Hd.
    + intros v Hv. apply elem_of_elements, elem_of_list_to_set.
      unfold variants. cbv zeta. rewrite elem_of_app.
      rewrite !elem_of_cons in Hv. destruct Hv as [->|[->|Hv]].
      * left. apply list_elem_of_further, list_elem_of_here.
      * left. do 3 apply list_elem_of_further. apply list_elem_of_here.
      * by right.
  - apply (NoDup_submseteq _ (variants company_name)) in Hnd.
    + apply submseteq_length in Hnd. exact Hnd.
    + intros v Hv. by apply elem_of_elements, elem_of_list_to_set in Hv.
Qed.

(** ** dispute.py: the base name is a prefix of the trimmed name *)

Lemma append_cons (c : ascii) (a b : string) :
  String c a +:+ b = String c (a +:+ b).
Proof. reflexivity. Qed.

Lemma take_drop (n : nat) (s : string) : s = Str.take n s +:+ Str.drop n s.
Proof.
  revert s. induction n as [|n IH]; intros [|c s]; try done.
  cbn [Str.take Str.drop]. rewrite append_cons. by rewrite <- IH.
Qed.

Lemma rstrip_prefix (s : string) : exists rest, s = Str.rstrip s +:+ rest.
Proof.
  induction s as [|c s (rest & IH)]; [by exists ""|].
  rewrite rstrip_cons. destruct (Str.rstrip s) as [|d r].
  - destruct (Str.isspace c); [by exists (String c s)|]. by exists s.
  - exists rest. rewrite append_cons. by rewrite <- IH.
Qed.

Lemma lstrip_keep (c : ascii) (s : string) :
  Str.isspace c = false -> Str.lstrip (String c s) = String c s.
Proof. intros E. simpl. by rewrite E. Qed.

Lemma strip_head (s : string) :
  Str.strip s = "" \/
  exists c t, Str.strip s = String c t /\ Str.isspace c = false.
Proof.
  unfold Str.strip.
  destruct (lstrip_head s) as [->|(c & t & -> & E)]; [by left|].
  right. rewrite (rstrip_cons_keep c t E). eauto.
Qed.

Lemma strip_take_prefix (name : string) (n : nat) :
  (name = "" \/ exists c t, name = String c t /\ Str.isspace c = false) ->
  exists rest, name = Str.strip (Str.take n name) +:+ rest.
Proof.
  intros Hn. unfold Str.strip.
  assert (Hl : Str.lstrip (Str.take n name) = Str.take n name).
  { destruct Hn as [->|(c & t & -> & E)]; [by destruct n|].
    destruct n; [done|]. simpl. by rewrite E. }
  rewrite Hl.
  destruct (rstrip_prefix (Str.take n name)) as (r & Hr).
  exists (r +:+ Str.drop n name).
  rewrite <- append_assoc, <- Hr. apply take_drop.
Qed.

Lemma remove_suffix_prefix (name : string) (sufs : list string) :
  (name = "" \/ exists c t, name = String c t /\ Str.isspace c = false) ->
  exists rest, name = remove_suffix name sufs +:+ rest.
Proof.
  intros Hn. induction sufs as [|suffix sufs IH]; simpl.
  - exists "". by rewrite append_empty_r.
  - destruct (Str.endswith name (" " +:+ suffix)); [|exact IH].
    unfold Str.slice_off. destruct (String.length suffix).
    + by exists name.
    + by apply strip_take_prefix.
Qed.

(** X2: the base name [_normalize_company_name] computes is a prefix of
    the name with its surrounding whitespace removed, carries no
    surrounding whitespace itself, and is strictly shorter than the
    trimmed name when that name ends in a blank and a recognised
    suffix. *)
Theorem base_name_is_trimmed_prefix (company_name : string) :
  (exists rest, Str.strip company_name = base_name company_name +:+ rest)
  /\ Str.strip (base_name company_name) = base_name company_name
  /\ (has_suffix (Str.strip company_name) = true ->
      String.length (base_name company_name)
      < String.length (Str.strip company_name)).
Proof.
  split; [|split].
  - apply remove_suffix_prefix.
    destruct (strip_head company_name) as [->|H]; [by left|by right].
  - apply base_name_stripped.
  - apply remove_suffix_some.
Qed.

Lemma base_name_is_trimmed_prefix_witness :
  String.length (base_name "  Globex Holdings LLC ")
  < String.length (Str.strip "  Globex Holdings LLC ").
Proof.
  exact (proj2 (proj2 (base_name_is_trimmed_prefix "  Globex Holdings LLC "))
           eq_refl).
Defined.

(** ** utils.py: [validate_symbol] *)

Lemma alnum_not_space (c : ascii) :
  Str.isalnum_char c = true -> Str.isspace c = false.
Proof.
  destruct c as [[] [] [] [] [] [] [] []]; vm_compute; congruence.
Qed.

Lemma rstrip_nonempty (c : ascii) (s : string) :
  Str.isspace c = false -> Str.nonempty (Str.rstrip (String c s)) = true.
Proof. intros E. by rewrite (rstrip_cons_keep c s E). Qed.

Lemma isalnum_strip_nonempty (symbol : string) :
  Str.isalnum symbol = true ->
  Str.nonempty symbol && Str.nonempty (Str.strip symbol) = true.
Proof.
  destruct symbol as [|c s]; [done|]. intros E.
  simpl in E. apply andb_prop in E as [Ec _].
  apply alnum_not_space in Ec.
  unfold Str.strip. rewrite (lstrip_keep c s Ec).
  by rewrite (rstrip_nonempty c s Ec).
Qed.

(** X3: [validate_symbol] accepts exactly the non-empty strings made of
    alphanumeric characters only; its two other tests never decide. *)
Theorem validate_symbol_is_isalnum (symbol : string) :
  validate_symbol symbol = Str.isalnum symbol.
Proof.
  unfold validate_symbol.
  destruct (Str.isalnum symbol) eqn:E; [|by rewrite andb_false_r].
  by rewrite (isalnum_strip_nonempty symbol E).
Qed.

Lemma upper_cons (c : ascii) (s u : string) :
  Str.upper (String c s) = Some u ->
  exists u',
    Str.upper s = Some u'
    /\ Str.nonempty u = true
    /\ Str.all_chars Str.isalnum_char u
       = Str.isalnum_char c && Str.all_chars Str.isalnum_char u'.
Proof.
  destruct c as [[] [] [] [] [] [] [] []]; cbn;
    destruct (Str.upper s) as [u'|]; try discriminate;
    intros [= <-]; exists u'; repeat split.
Qed.

Lemma upper_all_alnum (s u : string) :
  Str.upper s = Some u ->
  Str.all_chars Str.isalnum_char u = Str.all_chars Str.isalnum_char s.
Proof.
  revert u. induction s as [|c s IH]; intros u Hu.
  - by injection Hu as <-.
  - apply upper_cons in Hu as (u' & Hu' & _ & Ha).
    rewrite Ha, (IH u' Hu'). reflexivity.
Qed.

Lemma upper_isalnum (s u : string) :
  Str.upper s = Some u -> Str.isalnum u = Str.isalnum s.
Proof.
  intros Hu. pose proof (upper_all_alnum s u Hu) as Ha.
  destruct s as [|c s]; [by injection Hu as <-|].
  apply upper_cons in Hu as (u' & _ & Hn & _).
  destruct u as [|d u]; [discriminate Hn|]. exact Ha.
Qed.

Lemma upper_ascii (s : string) :
  Str.isascii s = true -> exists u, Str.upper s = Some u.
Proof.
  unfold Str.isascii. induction s as [|c s IH]; [by exists ""|].
  intros H. simpl in H. apply andb_prop in H as [Hc Hs].
  destruct (IH Hs) as [u Hu].
  destruct c as [[] [] [] [] [] [] [] []]; try discriminate Hc;
    cbn; rewrite Hu; eauto.
Qed.

(** X4: once the ticker lookup has returned an ASCII text,
    [fetch_all_data] starts its thread exactly when that ticker is
    non-empty and purely alphanumeric, and then passes on its upper-case
    form; any other ASCII ticker (one with a dot or a hyphen, say) ends
    in an error box and no source is consulted. *)
Theorem fetch_all_data_starts_iff_alnum (srcs : sources)
  (entry ticker : string) :
  Str.nonempty (Str.strip entry) = true ->
  call_get_ticker srcs (Str.strip entry) = Return (Some (Text ticker)) ->
  Str.isascii ticker = true ->
  exists symbol,
    Str.upper ticker = Some symbol
    /\ ((Str.isalnum ticker = true
         /\ fetch_all_data srcs entry
            = Some (Started (fetch_thread srcs (Str.strip entry) symbol)))
        \/ (Str.isalnum ticker = false
            /\ exists message,
                 fetch_all_data srcs entry
                 = Some (Refused (showerror "Error" message)))).
Proof.
  intros Hq Ht Hascii.
  destruct (upper_ascii ticker Hascii) as [symbol Hu].
  exists symbol. split; [exact Hu|].
  unfold fetch_all_data. rewrite Hq, Ht. simpl. rewrite Hu. simpl.
  unfold validate_symbol.
  pose proof (isalnum_strip_nonempty symbol) as Hstrip.
  rewrite (upper_isalnum ticker symbol Hu) in *.
  destruct (Str.isalnum ticker) eqn:E; [rewrite Hstrip by done|];
    rewrite ?andb_false_r; simpl.
  - left. split; [done|]. by destruct ticker.
  - right. split; [done|]. destruct (Str.nonempty ticker); simpl; eauto.
Qed.

Lemma fetch_all_data_starts_iff_alnum_witness :
  exists message,
    fetch_all_data
      {| call_get_ticker := fun _ => Return (Some (Text "BRK-B"));
         call_fetch_stock_data := fun _ => (true, ∅);
         call_fetch_historical_data := fun _ => (true, ∅);
         call_process_and_match_companies := fun _ => Return None;
         call_layoffs := fun _ => Return None;
         call_get_filtered_company_jobs := fun _ _ => Return None;
         call_get_info := fun _ => Return "";
         call_get_summary := fun _ => Return "" |} "Berkshire"
    = Some (Refused (showerror "Error" message)).
Proof.
  destruct (fetch_all_data_starts_iff_alnum
              {| call_get_ticker := fun _ => Return (Some (Text "BRK-B"));
                 call_fetch_stock_data := fun _ => (true, ∅);
                 call_fetch_historical_data := fun _ => (true, ∅);
                 call_process_and_match_companies := fun _ => Return None;
                 call_layoffs := fun _ => Return None;
                 call_get_filtered_company_jobs := fun _ _ => Return None;
                 call_get_info := fun _ => Return "";
                 call_get_summary := fun _ => Return "" |}
              "Berkshire" "BRK-B" eq_refl eq_refl eq_refl)
    as (symbol & _ & [[H _]|[_ H]]).
  - discriminate H.
  - exact H.
Defined.

(** ** get_sec.py: the cache between calls *)

Lemma load_cache_fresh_entry
  (fromisoformat : string -> option datetime) (isoformat : Z -> string)
  (companies : payload) (now later : Z) :
  fromisoformat (isoformat now) = Some (Naive now) ->
  (later - now < CACHE_DURATION)%Z ->
  load_cache fromisoformat (save_cache isoformat companies now) later
  = Return (Some companies).
Proof.
  intros Hrt Hfresh. unfold save_cache, load_cache. rewrite Hrt.
  unfold mbind, outcome_bind. simpl.
  destruct (Z.ltb_spec (later - now) CACHE_DURATION); done || lia.
Qed.

(** X5: round trip of the cache. A table written by [save_cache] at time
    [now] is what [load_cache] returns at any later reading less than
    seven days after, and is no longer returned from seven days on,
    provided [fromisoformat] reads back what [isoformat] wrote. *)
Theorem load_cache_after_save_cache
  (fromisoformat : string -> option datetime) (isoformat : Z -> string)
  (companies : payload) (now later : Z) :
  fromisoformat (isoformat now) = Some (Naive now) ->
  ((later - now < CACHE_DURATION)%Z ->
   load_cache fromisoformat (save_cache isoformat companies now) later
   = Return (Some companies))
  /\ ((CACHE_DURATION <= later - now)%Z ->
      load_cache fromisoformat (save_cache isoformat companies now) later
      = Return None).
Proof.
  intros Hrt. split; [by apply load_cache_fresh_entry|].
  intros Hstale. unfold save_cache, load_cache. rewrite Hrt.
  unfold mbind, outcome_bind. simpl.
  destruct (Z.ltb_spec (later - now) CACHE_DURATION); done || lia.
Qed.

Lemma load_cache_after_save_cache_witness :
  load_cache sample_fromisoformat
    (save_cache sample_isoformat sample_payload 0) (3 * day)
  = Return (Some sample_payload).
Proof.
  apply (load_cache_after_save_cache sample_fromisoformat sample_isoformat
           sample_payload 0 (3 * day) eq_refl).
  reflexivity.
Defined.

(** X6: when there is no usable cache and the SEC answers 200 with a table,
    [get_company_data] returns that table and caches it. A second call
    less than seven days later returns the same table without looking at
    the network, provided the table is not empty; an empty table is
    cached too but never served: the second call asks the network
    again and fails when the network fails. *)
Theorem get_company_data_second_call
  (fromisoformat : string -> option datetime) (isoformat : Z -> string)
  (file : cache_file) (now later : Z) (companies : payload)
  (miss : option payload) (http' : outcome response) :
  fromisoformat (isoformat now) = Some (Naive now) ->
  load_cache fromisoformat file now = Return miss ->
  truthy miss = false ->
  (later - now < CACHE_DURATION)%Z ->
  let first :=
    get_company_data fromisoformat isoformat file now
      (Return {| status_code := 200; json := Return companies |}) in
  first = (Return (Some companies), save_cache isoformat companies now)
  /\ (companies <> [] ->
      get_company_data fromisoformat isoformat first.2 later http'
      = (Return (Some companies), first.2))
  /\ (companies = [] ->
      forall e, http' = Raise e ->
      get_company_data fromisoformat isoformat first.2 later http'
      = (Raise e, first.2)).
Proof.
  intros Hrt Hmiss Hfalse Hfresh first.
  assert (Hfirst : first
                   = (Return (Some companies), save_cache isoformat companies now)).
  { unfold first, get_company_data. rewrite Hmiss, Hfalse. reflexivity. }
  split; [exact Hfirst|]. rewrite Hfirst. simpl.
  unfold get_company_data.
  rewrite (load_cache_fresh_entry fromisoformat isoformat companies now later
             Hrt Hfresh).
  split.
  - intros Hne. by destruct companies.
  - intros -> e ->. reflexivity.
Qed.

Lemma get_company_data_second_call_witness :
  get_company_data sample_fromisoformat sample_isoformat
    (save_cache sample_isoformat sample_payload 0) (3 * day)
    (Raise (Exn ConnectionError "Connection timed out"))
  = (Return (Some sample_payload), save_cache sample_isoformat sample_payload 0).
Proof.
  destruct (get_company_data_second_call sample_fromisoformat sample_isoformat
              Absent 0 (3 * day) sample_payload None
              (Raise (Exn ConnectionError "Connection timed out"))
              eq_refl eq_refl eq_refl eq_refl) as (_ & Hsecond & _).
  apply Hsecond. discriminate.
Defined.

(** ** get_sec.py: the flattened table *)

Lemma unique_snoc (l : list string) (x : string) :
  unique (l ++ [x])
  = if decide (x ∈ unique l) then unique l else unique l ++ [x].
Proof. unfold unique. by rewrite fold_left_app. Qed.

Lemma dict_set_keys (d : list (string * Z)) (k : string) (v : Z) :
  map fst (dict_set d k v)
  = if decide (k ∈ map fst d) then map fst d else map fst d ++ [k].
Proof.
  induction d as [|[k0 v0] d IH]; simpl.
  - destruct (decide (k ∈ [])) as [H|_]; [by apply elem_of_nil in H|done].
  - destruct (String.eqb_spec k k0) as [->|Hk]; simpl.
    + destruct (decide (k0 ∈ k0 :: map fst d)) as [_|H]; [done|].
      exfalso. apply H, list_elem_of_here.
    + rewrite IH. destruct (decide (k ∈ map fst d)) as [Hin|Hin];
        destruct (decide (k ∈ k0 :: map fst d)) as [Hin'|Hin']; try done.
      * exfalso. apply Hin'. by apply list_elem_of_further.
      * exfalso. apply elem_of_cons in Hin' as [?|?]; done.
Qed.

Lemma flatten_snoc (data : payload) (kv : string * company) :
  flatten (data ++ [kv])
  = dict_set (flatten data) (title kv.2) (cik_str kv.2).
Proof. unfold flatten. by rewrite fold_left_app. Qed.

Lemma flatten_keys (data : payload) :
  map fst (flatten data) = unique (map (fun kv => title kv.2) data).
Proof.
  induction data as [|kv data IHk] using rev_ind; [done|].
  rewrite flatten_snoc, dict_set_keys, map_app. simpl.
  by rewrite unique_snoc, IHk.
Qed.

(** X7: the dict [get_ticker_or_cik] builds from the table has each title
    once, in the order in which the titles first appear, and maps a title
    to the CIK of the last entry that bears it. *)
Theorem flatten_keys_and_last_cik (data : payload) :
  map fst (flatten data) = unique (map (fun kv => title kv.2) data)
  /\ forall t,
       dict_get (flatten data) t
       = (fun kv => cik_str kv.2)
           <$> last (filter (fun kv => title kv.2 = t) data).
Proof.
  split; [apply flatten_keys|].
  induction data as [|kv data IHv] using rev_ind; [done|].
  rewrite flatten_snoc.
  - intros t. rewrite dict_get_set.
    rewrite (filter_app (fun kv0 : string * company => title kv0.2 = t)).
    rewrite filter_cons, filter_nil.
    destruct (String.eqb_spec t (title kv.2)) as [->|Hne].
    + rewrite decide_True by done. by rewrite last_snoc.
    + rewrite decide_False by congruence. rewrite app_nil_r. apply IHv.
Qed.

(** ** get_sec.py: what [get_ticker_or_cik] accepts *)

Lemma first_max_fold_max (l : list (string * Z)) (b m : string * Z) :
  fold_left (fun best x =>
               match best with
               | None => Some x
               | Some b => if (b.2 <? x.2)%Z then Some x else Some b
               end) l (Some b) = Some m ->
  (b.2 <= m.2)%Z /\ forall x, x ∈ l -> (x.2 <= m.2)%Z.
Proof.
  revert b. induction l as [|y l IH]; intros b; simpl.
  - intros [= ->]. split; [lia|]. intros x Hx. by apply elem_of_nil in Hx.
  - destruct (Z.ltb_spec b.2 y.2) as [Hlt|Hge]; intros Hf;
      apply IH in Hf as [Hb Hl];
      (split; [lia|]); intros x Hx; apply elem_of_cons in Hx as [->|Hx];
      try lia; by apply Hl.
Qed.

Lemma first_max_is_max (l : list (string * Z)) (m : string * Z) :
  first_max l = Some m -> forall x, x ∈ l -> (x.2 <= m.2)%Z.
Proof.
  unfold first_max. destruct l as [|y l]; simpl; [done|].
  intros H x Hx. apply first_max_fold_max in H as [Hy Hl].
  apply elem_of_cons in Hx as [->|Hx]; [done|by apply Hl].
Qed.

Lemma first_max_some (l : list (string * Z)) (x : string * Z) :
  x ∈ l -> exists m, first_max l = Some m.
Proof.
  unfold first_max. destruct l as [|y l]; simpl.
  - intros H. by apply elem_of_nil in H.
  - intros _. generalize y. clear. induction l as [|z l IH]; intros y; simpl.
    + eauto.
    + destruct (y.2 <? z.2)%Z; apply IH.
Qed.

Lemma flatten_has_title (data : payload) (key : string) (c : company) :
  (key, c) ∈ data -> title c ∈ map fst (flatten data).
Proof.
  intros Hin. rewrite flatten_keys.
  apply unique_elem, list_elem_of_fmap. by exists (key, c).
Qed.

Section AcceptFacts.

Variable scorer : string -> string -> Z.
Variable fromisoformat : string -> option datetime.
Variable isoformat : Z -> string.

(** X8: with the company table loaded, [get_ticker_or_cik] accepts a
    match exactly when some title of the table scores above 70; the title
    it returns then scores above 70, no title of the table scores higher,
    and the CIK returned is the one the flattened table holds for it. *)
Theorem get_ticker_or_cik_accepts_the_best (file file' : cache_file)
  (now : Z) (http : outcome response) (data : payload)
  (company_name : string) :
  get_company_data fromisoformat isoformat file now http
  = (Return (Some data), file') ->
  (forall m cik,
     get_ticker_or_cik scorer fromisoformat isoformat file now http
       company_name = (Return (Some (m, cik)), file') ->
     (70 < scorer company_name m)%Z
     /\ dict_get (flatten data) m = Some cik
     /\ forall key c, (key, c) ∈ data ->
          (scorer company_name (title c) <= scorer company_name m)%Z)
  /\ ((exists key c, (key, c) ∈ data
                     /\ (70 < scorer company_name (title c))%Z) <->
      exists m cik,
        get_ticker_or_cik scorer fromisoformat isoformat file now http
          company_name = (Return (Some (m, cik)), file')).
Proof.
  intros Hdata.
  assert (Hrun : get_ticker_or_cik scorer fromisoformat isoformat file now
                   http company_name
                 = (resolve scorer (Some data) company_name, file')).
  { unfold get_ticker_or_cik. by rewrite Hdata. }
  rewrite Hrun.
  assert (Hsound : forall m cik,
             resolve scorer (Some data) company_name = Return (Some (m, cik)) ->
             (70 < scorer company_name m)%Z
             /\ dict_get (flatten data) m = Some cik
             /\ forall key c, (key, c) ∈ data ->
                  (scorer company_name (title c) <= scorer company_name m)%Z).
  { intros m cik. unfold resolve.
    destruct (truthy (Some data)); simpl; [|discriminate].
    destruct (extractOne scorer company_name (map fst (flatten data)))
      as [[m' s]|] eqn:Hone; [|discriminate].
    destruct (Z.ltb_spec 70 s) as [Hs|Hs]; [|discriminate].
    destruct (dict_get (flatten data) m') as [cik'|] eqn:Hcik; [|discriminate].
    intros [= -> ->].
    pose proof (extractOne_elem scorer _ _ _ Hone) as [_ Hscore].
    simpl in Hscore. subst s. split; [exact Hs|]. split; [exact Hcik|].
    intros key c Hin.
    destruct (Z.le_gt_cases 0 (scorer company_name (title c))) as [Hpos|Hneg];
      [|lia].
    apply (first_max_is_max _ _ Hone (title c, scorer company_name (title c))).
    apply extractWithoutOrder_keeps; [exact Hpos|].
    by apply (flatten_has_title data key c). }
  split.
  - intros m cik [= H]. by apply Hsound.
  - split.
    + intros (key & c & Hin & Hs).
      assert (Ht : truthy (Some data) = true).
      { destruct data; [by apply elem_of_nil in Hin|done]. }
      pose proof (flatten_has_title data key c Hin) as Hkey.
      assert (Hkept : (title c, scorer company_name (title c))
                      ∈ extractWithoutOrder scorer company_name
                          (map fst (flatten data))).
      { apply extractWithoutOrder_keeps; [lia|exact Hkey]. }
      destruct (first_max_some _ _ Hkept) as ([m s] & Hone).
      pose proof (first_max_is_max _ _ Hone _ Hkept) as Hmax. simpl in Hmax.
      pose proof (extractOne_elem scorer _ _ _ Hone) as [Hm _]. simpl in Hm.
      destruct (dict_get_keys _ _ Hm) as (cik & Hcik).
      exists m, cik. unfold resolve. rewrite Ht. simpl.
      unfold extractOne. rewrite Hone, Hcik.
      by destruct (Z.ltb_spec 70 s); [|lia].
    + intros (m & cik & [= H]). destruct (Hsound m cik H) as (Hs & Hcik & _).
      apply flatten_sound in Hcik as (key & c & Hin & <- & _).
      by exists key, c.
Qed.

End AcceptFacts.

Lemma get_ticker_or_cik_accepts_the_best_witness :
  exists m cik,
    get_ticker_or_cik (table_scorer [("Acme Corp", 95%Z); ("Acme Co", 94%Z)])
      sample_fromisoformat sample_isoformat Absent 0 sample_response "Acme"
    = (Return (Some (m, cik)), save_cache sample_isoformat sample_payload 0).
Proof.
  destruct (get_ticker_or_cik_accepts_the_best
              (table_scorer [("Acme Corp", 95%Z); ("Acme Co", 94%Z)])
              sample_fromisoformat sample_isoformat
              Absent (save_cache sample_isoformat sample_payload 0) 0
              sample_response sample_payload "Acme" eq_refl) as [_ [Hex _]].
  apply Hex. exists "1", {| title := "Acme Co"; cik_str := 1002 |}.
  split; [|reflexivity].
  apply list_elem_of_further, list_elem_of_here.
Defined.

(** ** layoff.py and h1b.py: which rows come back *)

Lemma insert_desc_head_is_max (x : string * Z) (l : list (string * Z)) :
  head_is_max l -> head_is_max (insert_desc x l).
Proof.
  destruct l as [|y l]; simpl.
  - intros _ z Hz. apply list_elem_of_singleton in Hz as ->. lia.
  - intros Hmax. destruct (Z.ltb_spec x.2 y.2) as [Hlt|Hge]; simpl.
    + intros z Hz. apply elem_of_cons in Hz as [->|Hz]; [lia|].
      rewrite (insert_desc_elem (fun _ _ => 0%Z)) in Hz.
      destruct Hz as [->|Hz]; [lia|].
      apply Hmax. by apply list_elem_of_further.
    + intros z Hz. apply elem_of_cons in Hz as [->|Hz]; [lia|].
      specialize (Hmax z Hz). lia.
Qed.

Lemma sort_desc_head_is_max (l : list (string * Z)) : head_is_max (sort_desc l).
Proof.
  induction l as [|x l IH]; simpl; [done|]. by apply insert_desc_head_is_max.
Qed.

Section RowFacts.

Variable scorer : string -> string -> Z.

Lemma extract_head_is_max (q : string) (choices : list string)
  (m : string * Z) (rest : list (string * Z)) :
  extract scorer q choices = m :: rest ->
  m.1 ∈ choices /\ m.2 = scorer q m.1
  /\ (forall x, x ∈ extract scorer q choices -> (x.2 <= m.2)%Z)
  /\ forall c, c ∈ choices -> (0 <= scorer q c)%Z -> (scorer q c <= m.2)%Z.
Proof.
  intros Hex.
  assert (Hm : m ∈ extract scorer q choices)
    by (rewrite Hex; apply list_elem_of_here).
  apply extract_elem in Hm as [Hm1 Hm2].
  pose proof (sort_desc_head_is_max (extractWithoutOrder scorer q choices))
    as Hmax.
  unfold extract in Hex.
  destruct (sort_desc (extractWithoutOrder scorer q choices))
    as [|m' sorted] eqn:Hs; [discriminate Hex|].
  simpl in Hex. injection Hex as -> _. simpl in Hmax.
  split; [exact Hm1|]. split; [exact Hm2|]. split.
  - intros x Hx. unfold extract in Hx. rewrite Hs in Hx.
    apply elem_of_take in Hx as (k & Hk & _).
    apply Hmax. by apply list_elem_of_lookup_2 in Hk.
  - intros c Hc Hpos.
    apply (Hmax (c, scorer q c)). rewrite <- Hs.
    apply (sort_desc_elem scorer).
    by apply extractWithoutOrder_keeps.
Qed.

Lemma layoffs_accepts_head (df out : DataFrame) (company_name : string) :
  layoffs scorer (Return df) company_name = Return (Some out) ->
  exists i m rest,
    position "Company" (columns df) = Some i
    /\ extract scorer company_name
         (unique (dropna (map (at_column i) (records df)))) = m :: rest
    /\ (80 <= m.2)%Z
    /\ columns out = columns df
    /\ records out = filter (fun r => at_column i r = Text m.1) (records df).
Proof.
  unfold layoffs, getitem. simpl.
  destruct (position "Company" (columns df)) as [i|] eqn:Hi; [|discriminate].
  simpl.
  set (names := unique (dropna (map (at_column i) (records df)))).
  destruct (extract scorer company_name names) as [|m rest] eqn:Hex;
    [discriminate|].
  destruct (extract_head_is_max _ _ _ _ Hex) as (_ & _ & Hmax & _).
  rewrite filter_cons.
  destruct (decide (80 <= m.2)%Z) as [H80|H80].
  - simpl. unfold where_eq. rewrite Hi. simpl. intros [= <-].
    by exists i, m, rest.
  - rewrite filter_none; [discriminate|].
    intros x Hx Hx80.
    assert (Hin : x ∈ extract scorer company_name names)
      by (rewrite Hex; by apply list_elem_of_further).
    specialize (Hmax x Hin). lia.
Qed.

(** X9: a frame returned by [layoffs] is never empty. It keeps the
    columns of the sheet and holds exactly the rows whose [Company] is one
    name; that name scores 80 or more, and no company name of the sheet
    scores higher. *)
Theorem layoffs_returns_rows_of_best_company (df out : DataFrame)
  (company_name : string) :
  layoffs scorer (Return df) company_name = Return (Some out) ->
  exists i target,
    position "Company" (columns df) = Some i
    /\ columns out = columns df
    /\ records out = filter (fun r => at_column i r = Text target) (records df)
    /\ empty out = false
    /\ (80 <= scorer company_name target)%Z
    /\ forall name, Text name ∈ map (at_column i) (records df) ->
         (scorer company_name name <= scorer company_name target)%Z.
Proof.
  intros Hout.
  destruct (layoffs_accepts_head df out company_name Hout)
    as (i & m & rest & Hi & Hex & H80 & Hcols & Hrec).
  destruct (extract_head_is_max _ _ _ _ Hex) as (Hm1 & Hm2 & _ & Hall).
  exists i, m.1.
  assert (Hrow : exists r, r ∈ records df /\ at_column i r = Text m.1).
  { apply unique_elem, dropna_elem, list_elem_of_fmap in Hm1
      as (r & E & Hr). by exists r. }
  destruct Hrow as (r & Hr & Er).
  destruct (filter_first (fun r => at_column i r = Text m.1) (records df)
              r Hr Er) as (row & others & Hf).
  split; [exact Hi|]. split; [exact Hcols|]. split; [exact Hrec|].
  split; [|split].
  - unfold empty. rewrite Hcols, Hrec, Hf.
    apply (empty_rows "Company" i _ row others Hi).
  - by rewrite <- Hm2.
  - intros name Hname. rewrite <- Hm2.
    destruct (Z.le_gt_cases 0 (scorer company_name name)) as [Hpos|Hneg];
      [|lia].
    apply Hall; [|exact Hpos]. by apply unique_elem, dropna_elem.
Qed.

(** X10: with the sheet read and its [Company] column there, [layoffs]
    returns a frame exactly when some company name of the sheet scores 80
    or more. *)
Theorem layoffs_returns_frame_iff (df : DataFrame) (company_name : string)
  (i : nat) :
  position "Company" (columns df) = Some i ->
  (exists name, Text name ∈ map (at_column i) (records df)
                /\ (80 <= scorer company_name name)%Z) <->
  exists out, layoffs scorer (Return df) company_name = Return (Some out).
Proof.
  intros Hi. split.
  - intros (name & Hname & H80).
    unfold layoffs, getitem. simpl. rewrite Hi. simpl.
    set (names := unique (dropna (map (at_column i) (records df)))).
    assert (Hn : name ∈ names) by (by apply unique_elem, dropna_elem).
    destruct (extract_nonempty scorer company_name names name)
      as (m & rest & Hex); [lia|exact Hn|].
    rewrite Hex.
    destruct (extract_head_is_max _ _ _ _ Hex) as (_ & _ & _ & Hall).
    specialize (Hall name Hn ltac:(lia)).
    rewrite filter_cons. rewrite decide_True by lia. simpl.
    unfold where_eq. rewrite Hi. simpl. eauto.
  - intros (out & Hout).
    apply layoffs_accepts_head in Hout
      as (i' & m & rest & Hi' & Hex & H80 & _).
    rewrite Hi in Hi'. injection Hi' as <-.
    destruct (extract_head_is_max _ _ _ _ Hex) as (Hm1 & Hm2 & _).
    exists m.1. split; [|by rewrite <- Hm2].
    by apply dropna_elem, unique_elem.
Qed.

(** X11: with the sheet read and its employer column there,
    [process_and_match_companies] never raises. It returns [None] exactly
    when no employer name scores 50 or more; otherwise it returns a frame
    that is not empty and holds the rows of at most five employer names,
    each of which scores 50 or more. *)
Theorem process_and_match_companies_outcomes (df : DataFrame)
  (input_company : string) (i : nat) :
  position "Employer (Petitioner) Name" (columns df) = Some i ->
  (process_and_match_companies scorer (Return df) input_company = Return None
   <-> forall name, Text name ∈ map (at_column i) (records df) ->
         (scorer input_company name < 50)%Z)
  /\ (process_and_match_companies scorer (Return df) input_company
      = Return None
      \/ exists out matched,
           process_and_match_companies scorer (Return df) input_company
           = Return (Some out)
           /\ columns out = columns df
           /\ records out
              = filter (fun r => isin matched (at_column i r) = true)
                  (records df)
           /\ empty out = false
           /\ 0 < length matched <= 5
           /\ forall name, name ∈ matched ->
                Text name ∈ map (at_column i) (records df)
                /\ (50 <= scorer input_company name)%Z).
Proof.
  intros Hi.
  unfold process_and_match_companies, getitem. simpl. rewrite Hi. simpl.
  set (names := unique (dropna (map (at_column i) (records df)))).
  set (matches := extract scorer input_company names).
  set (kept := filter (fun m : string * Z => (50 <= m.2)%Z) matches).
  assert (Hkept : forall m, m ∈ kept ->
             Text m.1 ∈ map (at_column i) (records df)
             /\ (50 <= scorer input_company m.1)%Z).
  { intros m Hm. apply list_elem_of_filter in Hm as [H50 Hm].
    apply extract_elem in Hm as [Hin Hs]. rewrite <- Hs.
    split; [|exact H50]. by apply dropna_elem, unique_elem. }
  assert (Hlen : length kept <= 5).
  { unfold kept, matches, extract.
    etransitivity; [apply length_filter|]. rewrite length_take. lia. }
  split.
  - split.
    + intros Hnone name Hname.
      destruct (Z.lt_ge_cases (scorer input_company name) 50) as [|H50];
        [done|exfalso].
      assert (Hn : name ∈ names) by (by apply unique_elem, dropna_elem).
      destruct (extract_nonempty scorer input_company names name)
        as (m & rest & Hex); [lia|exact Hn|].
      destruct (extract_head_is_max _ _ _ _ Hex) as (_ & _ & _ & Hall).
      specialize (Hall name Hn ltac:(lia)).
      unfold kept, matches in Hnone. rewrite Hex, filter_cons in Hnone.
      rewrite decide_True in Hnone by lia. simpl in Hnone.
      unfold where_isin in Hnone. rewrite Hi in Hnone. discriminate Hnone.
    + intros Hlow. unfold kept. rewrite filter_none; [done|].
      intros x Hx. apply extract_elem in Hx as [Hin ->].
      apply unique_elem, dropna_elem in Hin. specialize (Hlow _ Hin). lia.
  - destruct kept as [|m kept'] eqn:Hk; [by left|right].
    simpl. unfold where_isin. rewrite Hi. simpl.
    eexists _, (m.1 :: map fst kept'). split; [reflexivity|]. simpl.
    split; [done|]. split; [done|].
    assert (Hm : m ∈ m :: kept') by apply list_elem_of_here.
    destruct (Hkept m Hm) as [Hrow H50].
    apply list_elem_of_fmap in Hrow as (r & E & Hr).
    assert (Hisin : isin (m.1 :: map fst kept') (at_column i r) = true).
    { rewrite <- E. simpl. apply bool_decide_eq_true, list_elem_of_here. }
    destruct (filter_first
                (fun r => isin (m.1 :: map fst kept') (at_column i r) = true)
                (records df) r Hr Hisin) as (row & others & Hf).
    split; [rewrite Hf; by apply (empty_rows "Employer (Petitioner) Name" i)|].
    split; [simpl in Hlen; rewrite length_map; lia|].
    intros name Hname. apply elem_of_cons in Hname as [->|Hname].
    + by apply Hkept.
    + apply list_elem_of_fmap in Hname as (m' & -> & Hm').
      apply Hkept. by apply list_elem_of_further.
Qed.

End RowFacts.

Lemma layoffs_returns_frame_iff_witness :
  exists out,
    layoffs (table_scorer [("Acme Corp", 91%Z); ("Globex LLC", 25%Z)])
      (Return sample_warn_sheet) "acme" = Return (Some out).
Proof.
  apply (layoffs_returns_frame_iff
           (table_scorer [("Acme Corp", 91%Z); ("Globex LLC", 25%Z)])
           sample_warn_sheet "acme" 0 eq_refl).
  exists "Acme Corp". split; [apply list_elem_of_here|]. vm_compute.
  discriminate.
Defined.

Lemma layoffs_returns_rows_witness :
  exists i target,
    position "Company" (columns sample_warn_sheet) = Some i
    /\ columns {| columns := ["Company"; "Employees"];
                  records := [[Text "Acme Corp"; Text "120"]] |}
       = columns sample_warn_sheet
    /\ records {| columns := ["Company"; "Employees"];
                  records := [[Text "Acme Corp"; Text "120"]] |}
       = filter (fun r => at_column i r = Text target)
           (records sample_warn_sheet)
    /\ empty {| columns := ["Company"; "Employees"];
                records := [[Text "Acme Corp"; Text "120"]] |} = false
    /\ (80 <= table_scorer [("Acme Corp", 91%Z); ("Globex LLC", 25%Z)]
                "acme" target)%Z
    /\ forall name,
         Text name ∈ map (at_column i) (records sample_warn_sheet) ->
         (table_scorer [("Acme Corp", 91%Z); ("Globex LLC", 25%Z)] "acme" name
          <= table_scorer [("Acme Corp", 91%Z); ("Globex LLC", 25%Z)]
               "acme" target)%Z.
Proof.
  apply (layoffs_returns_rows_of_best_company
           (table_scorer [("Acme Corp", 91%Z); ("Globex LLC", 25%Z)])
           sample_warn_sheet _ "acme").
  reflexivity.
Defined.

Lemma process_and_match_companies_outcomes_witness :
  process_and_match_companies
    (table_scorer [("Acme Corp", 40%Z); ("Globex LLC", 25%Z)])
    (Return {| columns := ["Employer (Petitioner) Name"; "Approvals"];
               records := [[Text "Acme Corp"; Text "7"];
                           [Text "Globex LLC"; Text "2"]] |})
    "Initech" = Return None.
Proof.
  apply (process_and_match_companies_outcomes
           (table_scorer [("Acme Corp", 40%Z); ("Globex LLC", 25%Z)])
           {| columns := ["Employer (Petitioner) Name"; "Approvals"];
              records := [[Text "Acme Corp"; Text "7"];
                          [Text "Globex LLC"; Text "2"]] |}
           "Initech" 0 eq_refl).
  intros name _. unfold table_scorer. simpl.
  repeat (case_match; simpl; try lia).
Defined.

(** ** stock_app.py: what every run of the thread does *)

Ltac thread_cases srcs company_name symbol :=
  unfold fetch_thread;
  destruct (call_fetch_stock_data srcs symbol) as [[] ?cur];
    [destruct (call_fetch_historical_data srcs symbol) as [[] ?hist];
     [destruct (call_process_and_match_companies srcs company_name)
        as [?h1b_df|?e0];
      [destruct (layoff_block srcs company_name) as [?levs ?ldf];
       destruct (jobs_block srcs company_name) as [?jevs ?jdf]|]|]|];
    simpl.

Ltac closing_event :=
  do 2 apply list_elem_of_further; rewrite !elem_of_app; right; right;
  find_event.

Lemma closing_calls_current_symbol (srcs : sources)
  (company_name symbol : string) :
  current_symbol (fetch_thread srcs company_name symbol) = Some symbol
  <-> closing_calls_scheduled (fetch_thread srcs company_name symbol).
Proof.
  unfold closing_calls_scheduled. thread_cases srcs company_name symbol.
  - split; [|done]. intros _.
    repeat split; try done; repeat eexists; closing_event.
  - split; [discriminate|]. intros (H & _). discriminate H.
  - split; [discriminate|]. intros (_ & (c & h & H) & _). split_events H.
  - split; [discriminate|]. intros (_ & (c & h & H) & _). split_events H.
Qed.

(** X12: the thread switches the loading indicator on before anything
    else. Unless the visa-sponsorship lookup raises, it schedules the
    switching off; when that lookup raises, the exception leaves the
    thread, nothing at all is scheduled and the indicator stays on. The
    fields kept for a later export are set exactly when both market-data
    calls report success and the visa-sponsorship lookup returns,
    whatever the layoff, job, legal and 10-K sources do and whether or
    not the callbacks scheduled for them can run. *)
Theorem fetch_thread_loading_indicator (srcs : sources)
  (company_name symbol : string) :
  (exists rest,
     events (fetch_thread srcs company_name symbol)
     = Call (show_loading true) :: Call clear_frames :: rest)
  /\ (uncaught (fetch_thread srcs company_name symbol) = None ->
      After (show_loading false)
        ∈ events (fetch_thread srcs company_name symbol))
  /\ (forall e,
        uncaught (fetch_thread srcs company_name symbol) = Some e ->
        call_process_and_match_companies srcs company_name = Raise e
        /\ events (fetch_thread srcs company_name symbol)
           = [Call (show_loading true); Call clear_frames])
  /\ (current_symbol (fetch_thread srcs company_name symbol) = Some symbol
      <-> (call_fetch_stock_data srcs symbol).1 = true
          /\ (call_fetch_historical_data srcs symbol).1 = true
          /\ raises (call_process_and_match_companies srcs company_name)
             = false)
  /\ (current_symbol (fetch_thread srcs company_name symbol) = Some symbol
      <-> current_hist_data (fetch_thread srcs company_name symbol)
          = Some (call_fetch_historical_data srcs symbol).2).
Proof.
  split; [|split; [|split; [|split]]].
  - thread_cases srcs company_name symbol; eauto.
  - thread_cases srcs company_name symbol; try discriminate; intros _.
    + closing_event.
    + find_event.
    + find_event.
  - thread_cases srcs company_name symbol; try discriminate.
    by intros e [= ->].
  - thread_cases srcs company_name symbol; split;
      first [ done | discriminate | intros (? & ? & ?); discriminate ].
  - thread_cases srcs company_name symbol; split; done || discriminate.
Qed.

(** X13: in a run that reaches the closing calls, the closing call
    [display_layoff_charts(layoff_df)] reads a variable that was never
    assigned exactly when the layoff lookup raised, and the closing
    [display_jobs(jobs_df)] does so exactly when the job search raised. *)
Theorem fetch_thread_reads_unassigned (srcs : sources)
  (company_name symbol : string) :
  closing_calls_scheduled (fetch_thread srcs company_name symbol) ->
  (After (display_layoff_charts Unbound)
     ∈ events (fetch_thread srcs company_name symbol)
   <-> raises (call_layoffs srcs company_name) = true)
  /\ (After (display_jobs Unbound)
        ∈ events (fetch_thread srcs company_name symbol)
      <-> raises (call_get_filtered_company_jobs srcs company_name
                    "Software Engineer") = true).
Proof.
  intros Hrep.
  apply closing_calls_current_symbol in Hrep. revert Hrep.
  unfold fetch_thread, layoff_block, jobs_block.
  destruct (call_fetch_stock_data srcs symbol) as [[] cur];
    [|discriminate].
  destruct (call_fetch_historical_data srcs symbol) as [[] hist];
    [|discriminate].
  destruct (call_process_and_match_companies srcs company_name)
    as [h1b_df|e0]; [|discriminate].
  intros _.
  destruct (call_layoffs srcs company_name) as [[df|]|e1];
    [destruct (empty df)| |];
    destruct (call_get_filtered_company_jobs srcs company_name
                "Software Engineer") as [jobs_df|e2];
    simpl;
    (split; split; intros H;
     first [ reflexivity | discriminate H | solve [find_event]
           | split_events H; fail ]).
Qed.

Lemma fetch_thread_reads_unassigned_witness :
  After (display_layoff_charts Unbound)
    ∈ events (fetch_thread (sample_sources true (Return None)) "acme" "ACME").
Proof.
  apply (fetch_thread_reads_unassigned (sample_sources true (Return None))
           "acme" "ACME").
  - apply (closing_calls_current_symbol (sample_sources true (Return None))
             "acme" "ACME"). reflexivity.
  - reflexivity.
Defined.

(** ** get_sec.py: [clean_text_regex] *)

Lemma sub_blank_lines_length_aux (s : string) :
  String.length (Str.sub_blank_lines s) <= String.length s
  /\ forall a,
       String.length (Str.sub_blank_lines (String a s)) <= S (String.length s).
Proof.
  induction s as [|b s [IH1 IH2]]; [split; [done|by intros a]|].
  split; [apply IH2|].
  intros a. cbn [Str.sub_blank_lines].
  destruct (Ascii.eqb a Str.newline && Ascii.eqb b Str.newline).
  - simpl. lia.
  - specialize (IH2 b). simpl in *. lia.
Qed.

Lemma sub_blank_lines_length (s : string) :
  String.length (Str.sub_blank_lines s) <= String.length s.
Proof. apply sub_blank_lines_length_aux. Qed.

Lemma sub_blank_lines_cons (a b : ascii) (s : string) :
  Str.sub_blank_lines (String a (String b s))
  = if Ascii.eqb a Str.newline && Ascii.eqb b Str.newline
    then String Str.newline (Str.sub_blank_lines s)
    else String a (Str.sub_blank_lines (String b s)).
Proof. reflexivity. Qed.

Lemma sub_blank_lines_id_aux (s : string) :
  (has_blank_line s = false -> Str.sub_blank_lines s = s)
  /\ forall a,
       has_blank_line (String a s) = false ->
       Str.sub_blank_lines (String a s) = String a s.
Proof.
  induction s as [|b s [IH1 IH2]]; [split; [done|by intros a]|].
  split; [apply IH2|].
  intros a H. unfold has_blank_line in H.
  cbn [Str.contains] in H. apply orb_false_elim in H as [Hp Hrest].
  rewrite sub_blank_lines_cons.
  destruct (Ascii.eqb_spec a Str.newline) as [->|Ha];
    destruct (Ascii.eqb_spec b Str.newline) as [->|Hb]; cbv [andb].
  - destruct s; vm_compute in Hp; discriminate Hp.
  - f_equal. by apply IH2.
  - f_equal. by apply IH2.
  - f_equal. by apply IH2.
Qed.

(** X14: whatever its first substitution would do, [clean_text_regex]
    returns a text without surrounding whitespace that is never longer
    than its input; only the second substitution counts, so a text without
    two line feeds in a row comes back merely trimmed, its [Form 10-K]
    header lines included. *)
Theorem clean_text_regex_trims (sub_header other : string -> string)
  (text : string) :
  Str.strip (clean_text_regex sub_header text) = clean_text_regex sub_header text
  /\ String.length (clean_text_regex sub_header text) <= String.length text
  /\ clean_text_regex sub_header text = clean_text_regex other text
  /\ (has_blank_line text = false ->
      clean_text_regex sub_header text = Str.strip text).
Proof.
  unfold clean_text_regex. cbv zeta. split; [apply strip_idem|].
  split; [|split; [done|]].
  - etransitivity; [apply strip_length|apply sub_blank_lines_length].
  - intros H. f_equal. by apply sub_blank_lines_id_aux.
Qed.

Lemma clean_text_regex_trims_witness :
  clean_text_regex (fun _ => "") ("  Apple Inc. | 2023 Form 10-K | 1" +:+ Str.nl)
  = "Apple Inc. | 2023 Form 10-K | 1".
Proof.
  rewrite (proj2 (proj2 (proj2
             (clean_text_regex_trims (fun _ => "") (fun _ => "")
                ("  Apple Inc. | 2023 Form 10-K | 1" +:+ Str.nl))))
             eq_refl).
  reflexivity.
Defined.

(** ** get_sec.py: [get_10k_section_text] *)

Section FilingFacts.

Variable requests_get : string -> outcome submissions.
Variable extractor_get : string -> string -> outcome (Z * string).
Variable sub_form_10k_header : string -> string.
Variable open_for_writing : string -> outcome unit.

Lemma sections_loop_appends (filing_urls section_ids : list string)
  (text written text' written' : string) :
  sections_loop extractor_get sub_form_10k_header filing_urls section_ids
    text written = (Return text', written') ->
  (exists added, text' = text +:+ added /\ written' = written +:+ added)
  /\ (section_ids <> [] -> filing_urls <> []).
Proof.
  revert text written.
  induction section_ids as [|section_id rest IH]; intros text written; simpl.
  - intros [= <- <-]. split; [|done]. exists "". by rewrite !append_empty_r.
  - destruct filing_urls as [|first_url urls]; [discriminate|].
    destruct (extract_section extractor_get first_url section_id)
      as [[section|]|e]; [| |discriminate].
    + intros H. apply IH in H as [(added & -> & ->) _]. split; [|done].
      exists (clean_text_regex sub_form_10k_header section +:+ added).
      by rewrite !append_assoc.
    + intros H. apply IH in H as [Hadd _]. split; [exact Hadd|done].
Qed.

(** X15: a name [get_ticker_or_cik] did not resolve never yields a text.
    [get_10k_section_text] first asks for the submissions of the CIK
    [000000None]; if that request raises, so does the call, and otherwise
    it raises [AttributeError]. No file is opened, and [get_summary] raises
    before the language model is called. *)
Theorem get_10k_section_text_unresolved (store_dir : string)
  (section_ids : list string) (summarize_text : string -> option string) :
  section_file
    (get_10k_section_text requests_get extractor_get sub_form_10k_header
       open_for_writing (Return None) store_dir section_ids) = None
  /\ (forall e,
        get_filing_urls requests_get None "10-K" = Raise e ->
        section_text
          (get_10k_section_text requests_get extractor_get
             sub_form_10k_header open_for_writing (Return None) store_dir
             section_ids) = Raise e)
  /\ (forall urls,
        get_filing_urls requests_get None "10-K" = Return urls ->
        exists e,
          section_text
            (get_10k_section_text requests_get extractor_get
               sub_form_10k_header open_for_writing (Return None) store_dir
               section_ids) = Raise e
          /\ exn_cls e = AttributeError)
  /\ submissions_url None
     = "https://data.sec.gov/submissions/CIK000000None.json"
  /\ raises (get_summary requests_get extractor_get sub_form_10k_header
               open_for_writing summarize_text (Return None)) = true.
Proof.
  unfold get_summary, get_10k_section_text. simpl.
  destruct (get_filing_urls requests_get None "10-K") as [urls|e]; simpl.
  - repeat split; try done. intros urls' _. eexists. split; reflexivity.
  - repeat split; try done. by intros e' [= ->].
Qed.

(** X16: when [get_10k_section_text] returns a text, the name was
    resolved, the file [10K.txt] under the directory named after the
    matched name (blanks replaced by underscores) holds exactly the text
    returned, and a filing URL was there unless no section was asked
    for. *)
Theorem get_10k_section_text_file_holds_text
  (resolved : outcome (option (string * Z))) (store_dir : string)
  (section_ids : list string) (text : string) :
  section_text
    (get_10k_section_text requests_get extractor_get sub_form_10k_header
       open_for_writing resolved store_dir section_ids) = Return text ->
  exists matched_name cik filing_urls,
    resolved = Return (Some (matched_name, cik))
    /\ get_filing_urls requests_get (Some cik) "10-K" = Return filing_urls
    /\ section_file
         (get_10k_section_text requests_get extractor_get sub_form_10k_header
            open_for_writing resolved store_dir section_ids)
       = Some (path_join
                 (path_join store_dir (Str.replace_char " " "_" matched_name))
                 "10K.txt", text)
    /\ (section_ids <> [] -> filing_urls <> []).
Proof.
  unfold get_10k_section_text.
  destruct resolved as [[[matched_name cik]|]|e]; simpl; try discriminate.
  - destruct (get_filing_urls requests_get (Some cik) "10-K")
      as [filing_urls|e] eqn:Hget; [|discriminate].
    destruct (open_for_writing _) as [[]|e]; [|discriminate].
    destruct (sections_loop extractor_get sub_form_10k_header filing_urls
                section_ids "" "") as [result written] eqn:Hloop.
    simpl. intros ->.
    apply sections_loop_appends in Hloop as [(added & -> & ->) Hurls].
    exists matched_name, cik, filing_urls.
    split; [done|]. split; [done|]. split; [done|exact Hurls].
  - destruct (get_filing_urls requests_get None "10-K"); discriminate.
Qed.

(** X17: when the name is resolved but the submissions site answers with
    a status other than 200, [get_filing_urls] returns the empty list,
    and [get_10k_section_text], asked for at least one section, opens
    [10K.txt], leaves it empty and raises [IndexError]. *)
Theorem get_10k_section_text_without_filings (matched_name : string)
  (cik : Z) (answer : submissions) (store_dir : string)
  (section_id : string) (section_ids : list string) :
  requests_get (submissions_url (Some cik)) = Return answer ->
  sub_status answer <> 200%Z ->
  open_for_writing
    (path_join (path_join store_dir (Str.replace_char " " "_" matched_name))
       "10K.txt") = Return tt ->
  get_filing_urls requests_get (Some cik) "10-K" = Return []
  /\ get_10k_section_text requests_get extractor_get sub_form_10k_header
       open_for_writing (Return (Some (matched_name, cik))) store_dir
       (section_id :: section_ids)
     = {| section_text := Raise (Exn IndexError "list index out of range");
          section_file :=
            Some (path_join
                    (path_join store_dir
                       (Str.replace_char " " "_" matched_name))
                    "10K.txt", "") |}.
Proof.
  intros Hget Hstatus Hopen.
  assert (Hurls : get_filing_urls requests_get (Some cik) "10-K" = Return []).
  { unfold get_filing_urls. rewrite Hget. simpl.
    destruct (Z.eqb_spec (sub_status answer) 200); [done|reflexivity]. }
  split; [exact Hurls|].
  unfold get_10k_section_text. simpl. rewrite Hurls, Hopen. reflexivity.
Qed.

End FilingFacts.

Lemma get_10k_section_text_file_holds_text_witness :
  exists matched_name cik filing_urls,
    Return (Some ("Acme Corp", 1001%Z)) = Return (Some (matched_name, cik))
    /\ get_filing_urls
         (fun _ => Return {| sub_status := 200;
                             sub_json :=
                               Return {| accessionNumber :=
                                           ["0001-23-000045"; "0001-23-000046"];
                                         form := ["8-K"; "10-K"] |} |})
         (Some cik) "10-K" = Return filing_urls
    /\ section_file
         (get_10k_section_text
            (fun _ => Return {| sub_status := 200;
                                sub_json :=
                                  Return {| accessionNumber :=
                                              ["0001-23-000045";
                                               "0001-23-000046"];
                                            form := ["8-K"; "10-K"] |} |})
            (fun _ item => Return (200%Z, " Item " +:+ item +:+ ". "))
            (fun t => t) (fun _ => Return tt)
            (Return (Some ("Acme Corp", 1001%Z))) "sec-edgar-filings"
            ["1"; "1A"])
       = Some (path_join
                 (path_join "sec-edgar-filings"
                    (Str.replace_char " " "_" matched_name))
                 "10K.txt", "Item 1.Item 1A.")
    /\ (["1"; "1A"] <> [] -> filing_urls <> []).
Proof.
  apply (get_10k_section_text_file_holds_text
           (fun _ => Return {| sub_status := 200;
                               sub_json :=
                                 Return {| accessionNumber :=
                                             ["0001-23-000045";
                                              "0001-23-000046"];
                                           form := ["8-K"; "10-K"] |} |})
           (fun _ item => Return (200%Z, " Item " +:+ item +:+ ". "))
           (fun t => t) (fun _ => Return tt)
           (Return (Some ("Acme Corp", 1001%Z))) "sec-edgar-filings"
           ["1"; "1A"] "Item 1.Item 1A.").
  reflexivity.
Defined.

Lemma get_10k_section_text_without_filings_witness :
  section_text
    (get_10k_section_text
       (fun _ => Return {| sub_status := 404;
                           sub_json := Raise (Exn JSONDecodeError "") |})
       (fun _ _ => Return (200%Z, "")) (fun t => t) (fun _ => Return tt)
       (Return (Some ("Acme Corp", 1001%Z))) "sec-edgar-filings"
       default_section_ids)
  = Raise (Exn IndexError "list index out of range").
Proof.
  destruct (get_10k_section_text_without_filings
              (fun _ => Return {| sub_status := 404;
                                  sub_json := Raise (Exn JSONDecodeError "") |})
              (fun _ _ => Return (200%Z, "")) (fun t => t)
              (fun _ => Return tt)
              "Acme Corp" 1001
              {| sub_status := 404;
                 sub_json := Raise (Exn JSONDecodeError "") |}
              "sec-edgar-filings" "1" ["1A"; "2"; "7"; "7A"; "8"]
              eq_refl ltac:(discriminate) eq_refl) as [_ Hrun].
  unfold default_section_ids. by rewrite Hrun.
Defined.

(** ** utils.py: [fetch_stock_data] *)

Lemma format_comma_numeric (info : gmap string value) (key : string) :
  (exists text, format_comma (info_get info key) = Return text)
  <-> numeric (info !! key) = true.
Proof.
  unfold info_get. destruct (info !! key) as [[]|]; simpl; split;
    try done; try (intros [? ?]; discriminate); eauto.
Qed.

(** X18: [fetch_stock_data] reports success exactly when the [info] dict
    was obtained, has the key [longName], and holds a number under both
    [marketCap] and [volume]: the ['N/A'] those two fall back on cannot be
    formatted with [:,], so a missing market capitalisation or volume
    turns into the failure "Error fetching data: Cannot specify ',' with
    's'.". Without [longName] the failure is "Invalid stock symbol". *)
Theorem fetch_stock_data_success_iff (info : outcome (gmap string value)) :
  ((fetch_stock_data info).1 = true <->
   exists d, info = Return d
             /\ is_Some (d !! "longName")
             /\ numeric (d !! "marketCap") = true
             /\ numeric (d !! "volume") = true)
  /\ (forall d, info = Return d -> d !! "longName" = None ->
      fetch_stock_data info = (false, {[ "error" := "Invalid stock symbol" ]}))
  /\ (forall d, info = Return d -> is_Some (d !! "longName") ->
      d !! "marketCap" = None
      \/ (numeric (d !! "marketCap") = true /\ d !! "volume" = None) ->
      fetch_stock_data info
      = (false,
         {[ "error" := "Error fetching data: Cannot specify ',' with 's'." ]})).
Proof.
  split; [|split].
  - unfold fetch_stock_data. destruct info as [d|e]; simpl.
    + destruct (d !! "longName") as [name|] eqn:Hname.
      * rewrite bool_decide_eq_true_2 by eauto. simpl.
        destruct (format_comma (info_get d "marketCap")) as [cap|e] eqn:Hcap;
          simpl.
        -- destruct (format_comma (info_get d "volume")) as [vol|e] eqn:Hvol;
             simpl.
           ++ split; [intros _|done]. exists d.
              split; [done|]. split; [eauto|].
              split; apply format_comma_numeric; eauto.
           ++ split; [discriminate|]. intros (d' & [= <-] & _ & _ & Hv).
              apply format_comma_numeric in Hv as (t & Ht). congruence.
        -- split; [discriminate|]. intros (d' & [= <-] & _ & Hc & _).
           apply format_comma_numeric in Hc as (t & Ht). congruence.
      * rewrite bool_decide_eq_false_2 by (intros [? ?]; discriminate).
        simpl. split; [discriminate|].
        intros (d' & [= <-] & [? ?] & _). congruence.
    + split; [discriminate|]. intros (d' & [=] & _).
  - intros d -> Hname. unfold fetch_stock_data. simpl. rewrite Hname.
    rewrite bool_decide_eq_false_2 by (intros [? ?]; discriminate). done.
  - intros d -> Hname Hmissing. unfold fetch_stock_data. simpl.
    rewrite bool_decide_eq_true_2 by done. simpl.
    unfold info_get. destruct Hmissing as [->|[Hcap ->]]; [done|].
    destruct (d !! "marketCap") as [[]|]; try discriminate Hcap; done.
Qed.

Lemma fetch_stock_data_success_iff_witness :
  (fetch_stock_data
     (Return (<[ "longName" := VText "Acme Corporation" ]>
              (<[ "marketCap" := VInt 1234567890 ]>
              (<[ "volume" := VInt 45210 ]> ∅))))).1 = true
  /\ fetch_stock_data
       (Return (<[ "longName" := VText "Acme Corporation" ]>
                (<[ "volume" := VInt 45210 ]> ∅)))
     = (false,
        {[ "error" := "Error fetching data: Cannot specify ',' with 's'." ]}).
Proof.
  split.
  - apply (proj1 (fetch_stock_data_success_iff _)).
    eexists. split; [reflexivity|]. repeat split. by eexists.
  - apply (proj2 (proj2 (fetch_stock_data_success_iff _))
             (<[ "longName" := VText "Acme Corporation" ]>
              (<[ "volume" := VInt 45210 ]> ∅))); [done|by eexists|by left].
Defined.

Example fetch_stock_data_sample :
  (fetch_stock_data
     (Return (<[ "longName" := VText "Acme Corporation" ]>
              (<[ "marketCap" := VInt 1234567890 ]>
              (<[ "volume" := VInt 45210 ]> ∅))))).2 !! "Market Cap"
  = Some "$1,234,567,890".
Proof. vm_compute. reflexivity. Qed.

(** ** dispute.py: what [analyze_company] returns *)

Lemma count_recent_fold (fromisoformat : string -> option datetime)
  (now : Z) (cases : list court_case) (count : nat) :
  fold_left (fun count case =>
               if counts_as_recent fromisoformat now case
               then S count else count) cases count
  <= count + length cases.
Proof.
  revert count. induction cases as [|case cases IH]; intros count; simpl.
  - lia.
  - destruct (counts_as_recent fromisoformat now case);
      etransitivity; [apply IH|lia|apply IH|lia].
Qed.

Lemma count_recent_le (fromisoformat : string -> option datetime)
  (now : Z) (cases : list court_case) :
  _count_recent_cases fromisoformat now cases <= length cases.
Proof. apply (count_recent_fold fromisoformat now cases 0). Qed.

Lemma summary_set_fresh (d : list (string * analysis)) (k : string)
  (v : analysis) :
  k ∉ map fst d -> summary_set d k v = d ++ [(k, v)].
Proof.
  induction d as [|[k0 v0] d IH]; simpl; [done|].
  intros Hk. destruct (String.eqb_spec k k0) as [->|Hne].
  - exfalso. apply Hk, list_elem_of_here.
  - rewrite IH; [done|]. intros Hin. apply Hk. by apply list_elem_of_further.
Qed.

Section DisputeFacts.

Variable fromisoformat : string -> option datetime.
Variable search_cases : string -> CaseType -> outcome (list court_case).
Variable now_for : CaseType -> Z.

Lemma entry_of_sound (company_name : string) (case_type : CaseType)
  (entry : string * analysis) :
  entry_of fromisoformat search_cases now_for company_name case_type
  = Some entry ->
  entry.1 = ct_name case_type
  /\ priority_level entry.2 = priority case_type
  /\ recent_cases entry.2 <= total_cases entry.2.
Proof.
  unfold entry_of. destruct (search_cases company_name case_type);
    [|discriminate].
  intros [= <-]. simpl. repeat split. apply count_recent_le.
Qed.

Lemma analyze_loop_spec (company_name : string) (case_types : list CaseType)
  (r0 r : results) :
  NoDup (map ct_name case_types) ->
  (forall ct, ct ∈ case_types -> ct_name ct ∉ map fst (case_summary r0)) ->
  analyze_loop fromisoformat search_cases now_for company_name case_types r0
  = Return r ->
  exists entries,
    mapM (entry_of fromisoformat search_cases now_for company_name)
      case_types = Some entries
    /\ case_summary r = case_summary r0 ++ entries
    /\ red_flags r
       = red_flags r0
         ++ map (fun e => flag_text e.1)
              (filter (fun e => is_flagged e.2 = true) entries)
    /\ factors r
       = factors r0
         ++ map (fun e => factor_of e.1)
              (filter (fun e => is_voluminous e.2 = true) entries)
    /\ overall_risk r
       = (if filter (fun e => is_flagged e.2 = true) entries is [] 
          then overall_risk r0 else "HIGH")
    /\ company_name_of r = company_name_of r0
    /\ analysis_date r = analysis_date r0
    /\ lookback_period r = lookback_period r0.
Proof.
  revert r0. induction case_types as [|ct rest IH]; intros r0 Hnd Hfresh.
  - simpl. intros [= <-]. exists []. simpl. by rewrite !app_nil_r.
  - cbn [analyze_loop]. unfold mbind at 1, outcome_bind at 1.
    destruct (search_cases company_name ct) as [cases|e] eqn:Hsearch;
      [|discriminate].
    cbn [obind].
    set (a := _analyze_case_type fromisoformat (now_for ct) cases ct).
    assert (Hle : recent_cases a <= total_cases a) by apply count_recent_le.
    assert (Hprio : priority_level a = priority ct) by reflexivity.
    apply NoDup_cons in Hnd as [Hct Hnd].
    rewrite (summary_set_fresh (case_summary r0) (ct_name ct) a)
      by (apply Hfresh, list_elem_of_here).
    match goal with
    | |- analyze_loop _ _ _ _ _ ?r2 = _ -> _ => set (r2' := r2)
    end.
    assert (Hr2 :
      case_summary r2' = case_summary r0 ++ [(ct_name ct, a)]
      /\ red_flags r2'
         = red_flags r0 ++ (if is_flagged a then [flag_text (ct_name ct)] else [])
      /\ factors r2'
         = factors r0 ++ (if is_voluminous a then [factor_of (ct_name ct)] else [])
      /\ overall_risk r2' = (if is_flagged a then "HIGH" else overall_risk r0)
      /\ company_name_of r2' = company_name_of r0
      /\ analysis_date r2' = analysis_date r0
      /\ lookback_period r2' = lookback_period r0).
    { unfold r2', _update_risk_assessment, is_flagged, is_voluminous.
      rewrite Hprio.
      destruct (Nat.ltb_spec 0 (total_cases a)) as [Hpos|Hzero].
      - destruct ((priority ct =? 1)%Z && (2 <? recent_cases a));
          destruct (5 <? total_cases a); simpl;
          rewrite ?app_nil_r; done.
      - assert (H2 : (2 <? recent_cases a) = false)
          by (apply Nat.ltb_ge; lia).
        assert (H5 : (5 <? total_cases a) = false)
          by (apply Nat.ltb_ge; lia).
        rewrite H2, H5, andb_false_r. simpl. by rewrite !app_nil_r. }
    clearbody r2'.
    destruct Hr2 as (Hs & Hf & Hfa & Ho & Hc & Hd & Hl).
    intros Hloop. apply IH in Hloop as (entries & Hm & Hs' & Hf' & Hfa' & Ho' & Hc' & Hd' & Hl').
    + exists ((ct_name ct, a) :: entries).
      split.
      { cbn [mapM]. rewrite Hm. unfold entry_of. rewrite Hsearch.
        reflexivity. }
      rewrite Hs', Hf', Hfa', Ho', Hc', Hd', Hl', Hs, Hf, Hfa, Ho, Hc, Hd, Hl.
      rewrite !filter_cons. cbn [snd fst].
      destruct (is_flagged a); destruct (is_voluminous a);
        cbn [decide_rel]; simpl; rewrite <- ?app_assoc; simpl;
        repeat split; try done;
        by destruct (filter _ entries).
    + exact Hnd.
    + intros ct' Hct'. rewrite Hs, map_app, elem_of_app. simpl.
      intros [Hin|Hin].
      * revert Hin. apply Hfresh. by apply list_elem_of_further.
      * apply list_elem_of_singleton in Hin. apply Hct.
        rewrite <- Hin. apply list_elem_of_fmap. by exists ct'.
Qed.

End DisputeFacts.

Lemma analyze_company_entries
  (fromisoformat : string -> option datetime)
  (search_cases : string -> CaseType -> outcome (list court_case))
  (now_for : CaseType -> Z) (end_date company_name : string)
  (lookback_years : Z) (r : results) :
  analyze_company fromisoformat search_cases now_for end_date company_name
    lookback_years = Return r ->
  exists e1 e2 e3 e4 : string * analysis,
    case_summary r = [e1; e2; e3; e4]
    /\ map fst [e1; e2; e3; e4]
       = ["Employment Discrimination"; "Wage Violations"; "Workplace Safety";
          "Bankruptcy"]
    /\ priority_level e3.2 = 2%Z
    /\ (forall e, e ∈ [e1; e2; e3; e4] ->
          recent_cases e.2 <= total_cases e.2)
    /\ red_flags r
       = map (fun e => flag_text e.1)
           (filter (fun e => is_flagged e.2 = true) [e1; e2; e3; e4])
    /\ factors r
       = map (fun e => factor_of e.1)
           (filter (fun e => is_voluminous e.2 = true) [e1; e2; e3; e4])
    /\ overall_risk r
       = (if filter (fun e => is_flagged e.2 = true) [e1; e2; e3; e4] is []
          then "LOW" else "HIGH")
    /\ company_name_of r = company_name
    /\ analysis_date r = end_date
    /\ lookback_period r = pretty lookback_years +:+ " years".
Proof.
  intros Hrun. unfold analyze_company in Hrun.
  apply analyze_loop_spec in Hrun
    as (entries & Hm & Hs & Hf & Hfa & Ho & Hcn & Hdate & Hlook).
  2: { apply (bool_decide_unpack _). vm_compute. reflexivity. }
  2: { intros ct _ Hin. by apply elem_of_nil in Hin. }
  simpl in Hs, Hf, Hfa, Ho, Hcn, Hdate, Hlook.
  unfold CASE_TYPES in Hm. cbn [map snd mapM] in Hm.
  destruct (entry_of fromisoformat search_cases now_for company_name
              {| ct_name := "Employment Discrimination"; priority := 1;
                 nature_of_suit_codes := ["442"; "445"];
                 keywords := ["discrimination"; "hostile work environment";
                              "retaliation"] |}) as [e1|] eqn:H1;
    [|discriminate Hm].
  destruct (entry_of fromisoformat search_cases now_for company_name
              {| ct_name := "Wage Violations"; priority := 1;
                 nature_of_suit_codes := ["710"];
                 keywords := ["unpaid wages"; "overtime"; "FLSA"] |})
    as [e2|] eqn:H2; [|discriminate Hm].
  destruct (entry_of fromisoformat search_cases now_for company_name
              {| ct_name := "Workplace Safety"; priority := 2;
                 nature_of_suit_codes := ["790"];
                 keywords := ["OSHA"; "safety violation";
                              "workplace injury"] |})
    as [e3|] eqn:H3; [|discriminate Hm].
  destruct (entry_of fromisoformat search_cases now_for company_name
              {| ct_name := "Bankruptcy"; priority := 1;
                 nature_of_suit_codes := ["422"; "423"];
                 keywords := ["Chapter 11"; "bankruptcy";
                              "reorganization"] |})
    as [e4|] eqn:H4; [|discriminate Hm].
  cbn [mbind option_bind mret option_ret] in Hm. injection Hm as <-.
  apply entry_of_sound in H1 as (N1 & P1 & L1).
  apply entry_of_sound in H2 as (N2 & P2 & L2).
  apply entry_of_sound in H3 as (N3 & P3 & L3).
  apply entry_of_sound in H4 as (N4 & P4 & L4).
  simpl in N1, N2, N3, N4, P1, P2, P3, P4.
  exists e1, e2, e3, e4.
  split; [exact Hs|]. split; [simpl; by rewrite N1, N2, N3, N4|].
  split; [exact P3|]. split; [|by repeat split].
  intros e He. rewrite !elem_of_cons, elem_of_nil in He.
  by destruct He as [->|[->|[->|[->|[]]]]].
Qed.

(** X19: the results [analyze_company] returns. The summary holds the
    four case types in their fixed order, each with no more recent cases
    than cases. The red flags are exactly the summary entries of priority
    1 with more than two recent cases, in order, and the factors exactly
    the entries with more than five cases. The overall risk is HIGH when
    there is a red flag and LOW otherwise; Workplace Safety, of priority
    2, never raises a flag, so there are at most three. *)
Theorem analyze_company_results
  (fromisoformat : string -> option datetime)
  (search_cases : string -> CaseType -> outcome (list court_case))
  (now_for : CaseType -> Z) (end_date company_name : string)
  (lookback_years : Z) (r : results) :
  analyze_company fromisoformat search_cases now_for end_date company_name
    lookback_years = Return r ->
  map fst (case_summary r)
  = ["Employment Discrimination"; "Wage Violations"; "Workplace Safety";
     "Bankruptcy"]
  /\ red_flags r
     = map (fun e => flag_text e.1)
         (filter (fun e => is_flagged e.2 = true) (case_summary r))
  /\ factors r
     = map (fun e => factor_of e.1)
         (filter (fun e => is_voluminous e.2 = true) (case_summary r))
  /\ (overall_risk r = "HIGH" /\ red_flags r <> []
      \/ overall_risk r = "LOW" /\ red_flags r = [])
  /\ (forall e, e ∈ case_summary r ->
        recent_cases e.2 <= total_cases e.2
        /\ (e.1 = "Workplace Safety" -> is_flagged e.2 = false))
  /\ length (red_flags r) <= 3.
Proof.
  intros Hrun.
  destruct (analyze_company_entries fromisoformat search_cases now_for
              end_date company_name lookback_years r Hrun)
    as (e1 & e2 & e3 & e4 & Hs & Hn & P3 & Hle & Hf & Hfa & Ho & _).
  rewrite Hs.
  assert (F3 : is_flagged e3.2 = false)
    by (unfold is_flagged; by rewrite P3).
  split; [exact Hn|]. split; [exact Hf|]. split; [exact Hfa|].
  split; [|split].
  - rewrite Ho, Hf.
    destruct (filter (fun e => is_flagged e.2 = true) [e1; e2; e3; e4]);
      [by right|by left].
  - intros e He. split; [by apply Hle|]. intros Hname.
    injection Hn as N1 N2 N3 N4.
    rewrite !elem_of_cons, elem_of_nil in He.
    destruct He as [->|[->|[->|[->|[]]]]];
      rewrite ?N1, ?N2, ?N3, ?N4 in Hname; try discriminate Hname.
    exact F3.
  - rewrite Hf, length_map, !filter_cons, filter_nil. rewrite F3.
    rewrite (decide_False (P := false = true)) by discriminate.
    repeat case_decide; simpl; lia.
Qed.

Lemma analyze_company_results_witness :
  exists r,
    analyze_company sample_fromisoformat
      (fun _ ct =>
         if (priority ct =? 1)%Z
         then Return (replicate 3
                        {| dateFiled := IsText "2025-02-08T09:00:00";
                           case_name := Some "Doe v. Acme";
                           description := None |})
         else Return [])
      (fun _ => day) "2025-02-09T09:00:00" "Acme" 2 = Return r
    /\ overall_risk r = "HIGH"
    /\ length (red_flags r) = 3.
Proof.
  eexists. split; [vm_compute; reflexivity|].
  match goal with
  | |- overall_risk ?r = _ /\ _ =>
      destruct (analyze_company_results sample_fromisoformat
                  (fun _ ct =>
                     if (priority ct =? 1)%Z
                     then Return (replicate 3
                                    {| dateFiled := IsText "2025-02-08T09:00:00";
                                       case_name := Some "Doe v. Acme";
                                       description := None |})
                     else Return [])
                  (fun _ => day) "2025-02-09T09:00:00" "Acme" 2 r)
        as (_ & _ & _ & _ & _ & Hlen)
  end.
  - vm_compute. reflexivity.
  - split; reflexivity.
Defined.

(** ** dispute.py: [_analyze_keywords] *)

Lemma multiplicity_cons (k k0 : string) (l : list string) :
  multiplicity k (k0 :: l)
  = if decide (k0 = k) then S (multiplicity k l) else multiplicity k l.
Proof.
  unfold multiplicity. rewrite filter_cons. by destruct (decide (k0 = k)).
Qed.

Lemma multiplicity_absent (k : string) (l : list string) :
  k ∉ l -> multiplicity k l = 0.
Proof.
  intros Hk. unfold multiplicity. rewrite filter_none; [done|].
  intros x Hx ->. by apply Hk.
Qed.

Lemma keyword_pass_lookup (case : court_case) (kws : list string)
  (m : gmap string nat) (k : string) :
  fold_left (fun counts keyword =>
               if mentions case keyword
               then <[ keyword := S (default 0 (counts !! keyword)) ]> counts
               else counts) kws m !! k
  = if mentions case k && bool_decide (k ∈ kws)
    then Some (default 0 (m !! k) + multiplicity k kws)
    else m !! k.
Proof.
  revert m. induction kws as [|k0 kws IH]; intros m; simpl.
  - by rewrite andb_false_r.
  - rewrite IH, multiplicity_cons. clear IH.
    destruct (decide (k0 = k)) as [->|Hne].
    + rewrite (bool_decide_eq_true_2 (k ∈ k :: kws))
        by apply list_elem_of_here.
      destruct (mentions case k); simpl.
      * rewrite lookup_insert_eq. simpl.
        case_bool_decide as Hin; f_equal; [lia|].
        rewrite multiplicity_absent by done. lia.
      * done.
    + assert (Hiff : bool_decide (k ∈ k0 :: kws) = bool_decide (k ∈ kws)).
      { apply bool_decide_ext. rewrite elem_of_cons.
        split; [intros [E|Hin]; [congruence|done]|by right]. }
      rewrite Hiff.
      destruct (mentions case k0); [|done].
      by rewrite lookup_insert_ne.
Qed.

Lemma keyword_counts_init (kws : list string) (k : string) :
  (list_to_map (map (fun keyword => (keyword, 0)) kws) : gmap string nat) !! k
  = if bool_decide (k ∈ kws) then Some 0 else None.
Proof.
  induction kws as [|k0 kws IH]; simpl; [done|].
  destruct (decide (k0 = k)) as [->|Hne].
  - rewrite lookup_insert_eq.
    by rewrite bool_decide_eq_true_2 by apply list_elem_of_here.
  - rewrite lookup_insert_ne by done. rewrite IH.
    apply (f_equal (fun b : bool => if b then Some 0 else None)).
    apply bool_decide_ext. rewrite elem_of_cons.
    split; [by right|intros [E|Hin]; [congruence|done]].
Qed.

(** X20: [_analyze_keywords] has one count per keyword and none for any
    other text. The count of a keyword is the number of cases whose name
    and description mention it, whatever the case of the letters, times
    the number of times the keyword stands in the keyword list: once for
    the keyword lists of the configuration, none of which repeats a
    keyword. *)
Theorem analyze_keywords_counts (cases : list court_case)
  (kws : list string) (k : string) :
  _analyze_keywords cases kws !! k
  = if bool_decide (k ∈ kws)
    then Some (multiplicity k kws
               * length (filter (fun case => mentions case k = true) cases))
    else None.
Proof.
  unfold _analyze_keywords.
  assert (Hgen : forall (m : gmap string nat) (d : nat),
             m !! k = (if bool_decide (k ∈ kws) then Some d else None) ->
             fold_left
               (fun counts case =>
                  fold_left
                    (fun counts keyword =>
                       if mentions case keyword
                       then <[ keyword := S (default 0 (counts !! keyword)) ]>
                              counts
                       else counts) kws counts) cases m !! k
             = if bool_decide (k ∈ kws)
               then Some (d + multiplicity k kws
                              * length (filter
                                          (fun case => mentions case k = true)
                                          cases))
               else None).
  { induction cases as [|case cases IH]; intros m d Hm; simpl.
    - rewrite Hm. case_bool_decide; [f_equal; lia|done].
    - rewrite (IH _ (if mentions case k
                     then d + multiplicity k kws else d)).
      + rewrite filter_cons. case_bool_decide; [|done].
        destruct (mentions case k) eqn:E.
        * rewrite decide_True by done. simpl. f_equal. lia.
        * rewrite decide_False by discriminate. done.
      + rewrite keyword_pass_lookup, Hm.
        case_bool_decide; destruct (mentions case k); simpl; done. }
  rewrite (Hgen _ 0); [done|apply keyword_counts_init].
Qed.

Lemma case_type_keywords_distinct (key : string) (case_type : CaseType) :
  (key, case_type) ∈ CASE_TYPES -> NoDup (keywords case_type).
Proof.
  unfold CASE_TYPES. rewrite !elem_of_cons, elem_of_nil.
  intros [E|[E|[E|[E|[]]]]]; injection E as -> ->;
    apply (bool_decide_unpack _); vm_compute; reflexivity.
Qed.

(** ** jobsearch.py: [get_filtered_company_jobs] *)

Lemma bool_filter_length {A} (f : A -> bool) (l : list A) :
  length (List.filter f l) <= length l.
Proof.
  induction l as [|x l IH]; simpl; [done|]. destruct (f x); simpl; lia.
Qed.

Lemma select_columns_shape (df out : DataFrame) (cols : list string) :
  select_columns df cols = Return out ->
  columns out = cols /\ length (records out) = length (records df).
Proof.
  unfold select_columns.
  destruct (mapM (fun c => position c (columns df)) cols); [|discriminate].
  intros [= <-]. simpl. by rewrite length_map.
Qed.

(** X21: a frame returned by [get_filtered_company_jobs] is never empty
    and has exactly the columns company, title, location and job_url, with
    no more rows than were scraped; it is returned only when the best
    match among the scraped company names scores at least the
    threshold. *)
Theorem get_filtered_company_jobs_result (scorer : string -> string -> Z)
  (str_contains : string -> outcome (string -> bool))
  (scraped : outcome DataFrame) (company_name : string) (match_threshold : Z)
  (out : DataFrame) :
  get_filtered_company_jobs scorer str_contains scraped company_name
    match_threshold = Return (Some out) ->
  columns out = relevant_columns
  /\ empty out = false
  /\ exists jobs i best rest,
       scraped = Return jobs
       /\ position "company" (columns jobs) = Some i
       /\ extract scorer company_name
            (unique (dropna (map (at_column i) (records jobs))))
          = (best, scorer company_name best) :: rest
       /\ (match_threshold <= scorer company_name best)%Z
       /\ length (records out) <= length (records jobs).
Proof.
  unfold get_filtered_company_jobs, getitem.
  destruct scraped as [jobs|e]; simpl; [|discriminate].
  destruct (empty jobs); [discriminate|].
  destruct (position "company" (columns jobs)) as [i|] eqn:Hi; simpl;
    [|discriminate].
  destruct (extract scorer company_name _) as [|[best score] rest] eqn:Hex;
    [discriminate|].
  destruct (Z.ltb_spec score match_threshold) as [Hlow|Hok]; [discriminate|].
  destruct (str_contains best) as [matcher|e]; simpl; [|discriminate].
  match goal with
  | |- context [empty ?df] => destruct (empty df) eqn:Hempty
  end; [discriminate|].
  match goal with
  | |- context [select_columns ?df relevant_columns] =>
      destruct (select_columns df relevant_columns) as [out'|e] eqn:Hsel
  end; simpl; [|discriminate].
  intros [= <-].
  apply select_columns_shape in Hsel as [Hcols Hlen]. simpl in Hlen.
  assert (Hscore : score = scorer company_name best).
  { apply (extract_elem scorer company_name
             (unique (dropna (map (at_column i) (records jobs))))
             (best, score)).
    rewrite Hex. apply list_elem_of_here. }
  subst score.
  split; [done|]. split.
  - unfold empty in *. simpl in Hempty. rewrite Hcols.
    destruct (columns jobs); [discriminate Hempty|].
    destruct (List.filter _ (records jobs)); [discriminate Hempty|].
    by destruct (records out').
  - exists jobs, i, best, rest. repeat split; try done.
    rewrite Hlen. apply bool_filter_length.
Qed.

Lemma get_filtered_company_jobs_result_witness :
  exists out,
    get_filtered_company_jobs
      (table_scorer [("Acme Corp", 90%Z); ("Acme Staffing", 60%Z)])
      (fun pattern => Return (fun s => Str.contains (Str.lower s)
                                         (Str.lower pattern)))
      (Return {| columns := ["title"; "company"; "location"; "job_url"; "site"];
                 records :=
                   [ [Text "Engineer"; Text "Acme Corp"; Text "Pittsburgh";
                      Text "https://jobs.example/1"; Text "indeed"];
                     [Text "Recruiter"; Text "Acme Staffing"; NaN;
                      Text "https://jobs.example/2"; Text "linkedin"] ] |})
      "acme" 80 = Return (Some out)
    /\ columns out = relevant_columns
    /\ empty out = false.
Proof.
  eexists. split; [vm_compute; reflexivity|].
  match goal with
  | |- columns ?out = _ /\ _ =>
      destruct (get_filtered_company_jobs_result
                  (table_scorer [("Acme Corp", 90%Z); ("Acme Staffing", 60%Z)])
                  (fun pattern => Return (fun s => Str.contains (Str.lower s)
                                                     (Str.lower pattern)))
                  (Return {| columns := ["title"; "company"; "location";
                                         "job_url"; "site"];
                             records :=
                               [ [Text "Engineer"; Text "Acme Corp";
                                  Text "Pittsburgh";
                                  Text "https://jobs.example/1"; Text "indeed"];
                                 [Text "Recruiter"; Text "Acme Staffing"; NaN;
                                  Text "https://jobs.example/2";
                                  Text "linkedin"] ] |})
                  "acme" 80 out) as (Hc & He & _)
  end.
  - vm_compute. reflexivity.
  - split; [exact Hc|exact He].
Defined.

(** ** dispute.py: the report of an analysis *)

Ltac split_lines H :=
  simpl in H; rewrite ?elem_of_cons, ?elem_of_nil in H;
  repeat match type of H with
         | _ \/ _ => destruct H as [H|H]
         | False => destruct H
         | _ = _ => try discriminate H
         end.

Lemma prefix_empty (s : string) : String.prefix "" s = true.
Proof. by destruct s. Qed.

Lemma contains_nl_cons (a : ascii) (s : string) :
  Str.contains (String a s) Str.nl
  = Ascii.eqb a Str.newline || Str.contains s Str.nl.
Proof.
  cbn [Str.contains]. unfold Str.nl at 1. cbn [String.prefix].
  destruct (ascii_dec Str.newline a) as [<-|Hne].
  - by rewrite prefix_empty.
  - destruct (Ascii.eqb_spec a Str.newline) as [->|_]; done.
Qed.

Lemma contains_nl_app (a b : string) :
  Str.contains (a +:+ b) Str.nl
  = Str.contains a Str.nl || Str.contains b Str.nl.
Proof.
  induction a as [|c a IH]; [done|].
  change (String c a +:+ b) with (String c (a +:+ b)).
  rewrite !contains_nl_cons, IH. by rewrite orb_assoc.
Qed.

Lemma split_nonempty (sep : ascii) (s : string) : Str.split sep s <> [].
Proof.
  destruct s as [|c s]; [done|]. cbn [Str.split].
  destruct (Ascii.eqb c sep); [done|]. by destruct (Str.split sep s).
Qed.

(** A text without a line feed is one line. *)
Lemma split_single_line (s : string) :
  Str.contains s Str.nl = false -> Str.split Str.newline s = [s].
Proof.
  induction s as [|c s IH]; [done|].
  rewrite contains_nl_cons. intros H. apply orb_false_elim in H as [Hc Hs].
  cbn [Str.split]. by rewrite Hc, (IH Hs).
Qed.

Lemma split_app_sep (sep : ascii) (x z : string) :
  Str.split sep (x +:+ String sep z) = Str.split sep x ++ Str.split sep z.
Proof.
  induction x as [|c x IH].
  - change ("" +:+ String sep z) with (String sep z).
    cbn [Str.split]. by rewrite Ascii.eqb_refl.
  - change (String c x +:+ String sep z) with (String c (x +:+ String sep z)).
    cbn [Str.split]. rewrite IH.
    destruct (Ascii.eqb c sep); [done|].
    pose proof (split_nonempty sep x) as Hx.
    by destruct (Str.split sep x).
Qed.

(** Splitting a joined list at the separator gives the pieces of its
    entries, in order. *)
Lemma split_join (sep : ascii) (l : list string) :
  l <> [] ->
  Str.split sep (Str.join (String sep "") l)
  = concat (map (Str.split sep) l).
Proof.
  induction l as [|x [|y l] IH]; [done| |]; intros _.
  - simpl. by rewrite app_nil_r.
  - change (Str.join (String sep "") (x :: y :: l))
      with (x +:+ String sep (Str.join (String sep "") (y :: l))).
    rewrite split_app_sep, IH by done. reflexivity.
Qed.

Lemma pretty_N_go_single_line (x : N) (s : string) :
  Str.contains s Str.nl = false ->
  Str.contains (pretty_N_go x s) Str.nl = false.
Proof.
  revert s. induction (N.lt_wf_0 x) as [x _ IH]. intros s Hs.
  assert (x = 0 \/ 0 < x)%N as [->|Hpos] by lia.
  - by rewrite pretty_N_go_0.
  - rewrite pretty_N_go_step by done. apply IH; [by apply N.div_lt|].
    rewrite contains_nl_cons, Hs. unfold pretty_N_char.
    by repeat case_match.
Qed.

Lemma pretty_N_single_line (x : N) : Str.contains (pretty x) Str.nl = false.
Proof.
  unfold pretty, pretty_N. case_decide; [done|].
  by apply pretty_N_go_single_line.
Qed.

Lemma pretty_nat_single_line (n : nat) :
  Str.contains (pretty n) Str.nl = false.
Proof. apply (pretty_N_single_line (N.of_nat n)). Qed.

Lemma pretty_Z_single_line (z : Z) :
  Str.contains (pretty z) Str.nl = false.
Proof.
  destruct z as [|x|x]; [done|apply (pretty_N_single_line (Npos x))|].
  change (pretty (Zneg x)) with ("-" +:+ pretty (Npos x)).
  by rewrite contains_nl_app, pretty_N_single_line.
Qed.

Lemma lines_cons_single (x : string) (l : list string) :
  Str.contains x Str.nl = false ->
  concat (map (Str.split Str.newline) (x :: l))
  = x :: concat (map (Str.split Str.newline) l).
Proof. intros H. cbn [map concat]. by rewrite (split_single_line x H). Qed.

Lemma lines_cons_nl (x : string) (l : list string) :
  Str.contains x Str.nl = false ->
  concat (map (Str.split Str.newline) ((Str.nl +:+ x) :: l))
  = "" :: x :: concat (map (Str.split Str.newline) l).
Proof.
  intros H. cbn [map concat].
  change (Str.nl +:+ x) with (String Str.newline x). cbn [Str.split].
  by rewrite Ascii.eqb_refl, (split_single_line x H).
Qed.

Lemma lines_app (a b : list string) :
  concat (map (Str.split Str.newline) (a ++ b))
  = concat (map (Str.split Str.newline) a)
    ++ concat (map (Str.split Str.newline) b).
Proof. by rewrite map_app, concat_app. Qed.

Lemma lines_all_single (l : list string) :
  Forall (fun x => Str.contains x Str.nl = false) l ->
  concat (map (Str.split Str.newline) l) = l.
Proof.
  induction 1 as [|x l Hx _ IH]; [done|].
  rewrite lines_cons_single by done. by rewrite IH.
Qed.

Lemma summary_lines (summary : list (string * analysis)) :
  Forall (fun e => Str.contains e.1 Str.nl = false) summary ->
  concat (map (Str.split Str.newline)
            (concat (map (fun entry : string * analysis =>
                            [ Str.nl +:+ entry.1 +:+ ":";
                              "  Total Cases: "
                                +:+ pretty (total_cases entry.2);
                              "  Recent Cases: "
                                +:+ pretty (recent_cases entry.2) ])
                       summary)))
  = concat (map (fun entry : string * analysis =>
                   [ ""; entry.1 +:+ ":";
                     "  Total Cases: " +:+ pretty (total_cases entry.2);
                     "  Recent Cases: " +:+ pretty (recent_cases entry.2) ])
              summary).
Proof.
  induction 1 as [|e l He _ IH]; [done|].
  cbn [map concat]. rewrite lines_app, IH.
  rewrite lines_cons_nl by (by rewrite contains_nl_app, He).
  rewrite lines_cons_single
    by (by rewrite contains_nl_app, pretty_nat_single_line).
  rewrite lines_cons_single
    by (by rewrite contains_nl_app, pretty_nat_single_line).
  reflexivity.
Qed.

(** The lines of the text [generate_report] returns, when no field of
    the results holds a line feed. *)
Lemma report_text_lines (r : results) :
  Str.contains (company_name_of r) Str.nl = false ->
  Str.contains (analysis_date r) Str.nl = false ->
  Str.contains (lookback_period r) Str.nl = false ->
  Str.contains (overall_risk r) Str.nl = false ->
  Forall (fun flag => Str.contains flag Str.nl = false) (red_flags r) ->
  Forall (fun e : string * analysis => Str.contains e.1 Str.nl = false)
    (case_summary r) ->
  Str.split Str.newline (generate_report r)
  = [ "Employment Legal Analysis Report";
      "==============================";
      "";
      "Company: " +:+ company_name_of r;
      "Analysis Date: " +:+ analysis_date r;
      "Lookback Period: " +:+ lookback_period r;
      "";
      "Risk Assessment";
      "---------------";
      "Overall Risk: " +:+ overall_risk r ]
    ++ (match red_flags r with
        | [] => []
        | _ :: _ =>
            [""; "Red Flags"; "---------"]
            ++ map (fun flag => "- " +:+ flag) (red_flags r)
        end)
    ++ [""; "Case Summary"; "-----------"]
    ++ concat (map (fun entry : string * analysis =>
                      [ ""; entry.1 +:+ ":";
                        "  Total Cases: " +:+ pretty (total_cases entry.2);
                        "  Recent Cases: "
                          +:+ pretty (recent_cases entry.2) ])
                 (case_summary r)).
Proof.
  intros Hname Hdate Hperiod Hrisk Hflags Hsum.
  unfold generate_report. rewrite split_join by done.
  unfold report_lines. rewrite !lines_app, (summary_lines _ Hsum).
  f_equal; [|f_equal].
  - rewrite 2!lines_cons_single by reflexivity.
    rewrite lines_cons_nl by (by rewrite contains_nl_app, Hname).
    rewrite lines_cons_single by (by rewrite contains_nl_app, Hdate).
    rewrite lines_cons_single by (by rewrite contains_nl_app, Hperiod).
    rewrite lines_cons_nl by reflexivity.
    rewrite lines_cons_single by reflexivity.
    rewrite lines_cons_single by (by rewrite contains_nl_app, Hrisk).
    reflexivity.
  - revert Hflags. destruct (red_flags r) as [|flag flags]; [done|].
    intros Hflags. rewrite lines_app.
    rewrite lines_cons_nl by reflexivity.
    rewrite lines_cons_single by reflexivity.
    rewrite (lines_all_single
               (map (fun flag => "- " +:+ flag) (flag :: flags)));
      [done|].
    apply Forall_fmap. eapply Forall_impl; [exact Hflags|].
    intros x Hx. simpl. by rewrite contains_nl_app, Hx.
Qed.

Lemma flag_line_prefix (x : string) (flags : list string) :
  x ∈ map (fun flag => "- " +:+ flag) flags -> String.prefix "- " x = true.
Proof.
  intros H. apply list_elem_of_fmap in H as (flag & -> & _).
  simpl. by rewrite prefix_empty.
Qed.

(** X22: the lines of the report text. For the results of
    [analyze_company] on a company name and a date without a line feed,
    the text [generate_report] returns has the line "Overall Risk: HIGH"
    exactly when it has the heading "Red Flags", which is exactly when
    there is a red flag, and otherwise the line "Overall Risk: LOW"; each
    red flag has its line; the text has 29 lines without red flags, and
    three more plus one per flag with them. *)
Theorem generate_report_sections
  (fromisoformat : string -> option datetime)
  (search_cases : string -> CaseType -> outcome (list court_case))
  (now_for : CaseType -> Z) (end_date company_name : string)
  (lookback_years : Z) (r : results) :
  analyze_company fromisoformat search_cases now_for end_date company_name
    lookback_years = Return r ->
  Str.contains company_name Str.nl = false ->
  Str.contains end_date Str.nl = false ->
  let text_lines := Str.split Str.newline (generate_report r) in
  ("Overall Risk: HIGH" ∈ text_lines <-> red_flags r <> [])
  /\ ("Overall Risk: LOW" ∈ text_lines <-> red_flags r = [])
  /\ ("Red Flags" ∈ text_lines <-> red_flags r <> [])
  /\ (forall flag, flag ∈ red_flags r -> "- " +:+ flag ∈ text_lines)
  /\ length text_lines
     = 29 + match red_flags r with
            | [] => 0
            | _ :: _ => 3 + length (red_flags r)
            end.
Proof.
  intros Hrun Hname Hdate text_lines. subst text_lines.
  destruct (analyze_company_entries fromisoformat search_cases now_for
              end_date company_name lookback_years r Hrun)
    as ([n1 a1] & [n2 a2] & [n3 a3] & [n4 a4]
        & Hs & Hn & _ & _ & Hf & _ & Ho & Hcn & Hd & Hl).
  simpl in Hn. injection Hn as -> -> -> ->.
  assert (Hflags : Forall (fun flag => Str.contains flag Str.nl = false)
                     (red_flags r)).
  { rewrite Hf. apply Forall_fmap, Forall_forall. intros e He.
    apply list_elem_of_filter in He as [_ He].
    rewrite !elem_of_cons, elem_of_nil in He.
    destruct He as [->|[->|[->|[->|[]]]]]; reflexivity. }
  assert (Hrisk : overall_risk r = "HIGH" /\ red_flags r <> []
                  \/ overall_risk r = "LOW" /\ red_flags r = []).
  { rewrite Ho, Hf.
    destruct (filter _ _); [by right|by left]. }
  rewrite report_text_lines; try done.
  2: by rewrite Hcn.
  2: by rewrite Hd.
  2: by rewrite Hl, contains_nl_app, pretty_Z_single_line.
  2: by destruct Hrisk as [[-> _]|[-> _]].
  2: rewrite Hs; by repeat constructor.
  rewrite Hs. cbn [map concat fst snd app].
  generalize (company_name_of r) (analysis_date r) (lookback_period r)
    (pretty (total_cases a1)) (pretty (recent_cases a1))
    (pretty (total_cases a2)) (pretty (recent_cases a2))
    (pretty (total_cases a3)) (pretty (recent_cases a3))
    (pretty (total_cases a4)) (pretty (recent_cases a4)).
  intros name date period t1 r1 t2 r2 t3 r3 t4 r4.
  clear Hs Hf Ho Hcn Hd Hl Hrun Hflags.
  destruct Hrisk as [[-> Hsome]|[-> ->]].
  - destruct (red_flags r) as [|flag flags]; [done|]. clear Hsome.
    split; [|split; [|split; [|split]]].
    + split; [done|]. intros _. find_event.
    + split; [|done]. intros H. exfalso.
      do 10 (apply elem_of_cons in H as [H|H]; [discriminate H|]).
      do 3 (apply elem_of_cons in H as [H|H]; [discriminate H|]).
      apply elem_of_app in H as [H|H].
      * apply flag_line_prefix in H. discriminate H.
      * split_lines H.
    + split; [done|]. intros _. find_event.
    + intros x Hx. do 13 apply list_elem_of_further.
      apply elem_of_app. left. apply list_elem_of_fmap. by exists x.
    + cbn [length app]. rewrite length_app, length_map. simpl. lia.
  - split; [|split; [|split; [|split]]].
    + split; [intros H; split_lines H|intros H; by destruct H].
    + split; [done|]. intros _. find_event.
    + split; [intros H; split_lines H|intros H; by destruct H].
    + intros x Hx. by apply elem_of_nil in Hx.
    + reflexivity.
Qed.

Lemma generate_report_sections_witness :
  exists r,
    analyze_company sample_fromisoformat
      (fun _ ct =>
         if String.eqb (ct_name ct) "Wage Violations"
         then Return (replicate 3
                        {| dateFiled := IsText "2025-02-08T09:00:00";
                           case_name := None; description := None |})
         else Return [])
      (fun _ => day) "2025-02-09T09:00:00" "Acme" 2 = Return r
    /\ "Red Flags" ∈ Str.split Str.newline (generate_report r).
Proof.
  eexists. split; [vm_compute; reflexivity|].
  match goal with
  | |- _ ∈ Str.split Str.newline (generate_report ?r) =>
      apply (generate_report_sections sample_fromisoformat
               (fun _ ct =>
                  if String.eqb (ct_name ct) "Wage Violations"
                  then Return (replicate 3
                                 {| dateFiled := IsText "2025-02-08T09:00:00";
                                    case_name := None; description := None |})
                  else Return [])
               (fun _ => day) "2025-02-09T09:00:00" "Acme" 2 r)
  end.
  - vm_compute. reflexivity.
  - reflexivity.
  - reflexivity.
  - discriminate.
Defined.

(** ** get_sec.py: the cache file is never left corrupt *)

(** X23: when [get_company_data] returns, the cache file it leaves behind
    is not corrupt, whether it was kept or rewritten, provided
    [fromisoformat] can read what [isoformat] writes. *)
Theorem get_company_data_leaves_sound_cache
  (fromisoformat : string -> option datetime) (isoformat : Z -> string)
  (file : cache_file) (now : Z) (http : outcome response)
  (data : option payload) :
  (forall t, fromisoformat (isoformat t) <> None) ->
  (get_company_data fromisoformat isoformat file now http).1 = Return data ->
  corrupt fromisoformat
    (get_company_data fromisoformat isoformat file now http).2 = false.
Proof.
  intros Hiso. unfold get_company_data.
  destruct (load_cache fromisoformat file now) as [cached|e] eqn:Hload;
    [|discriminate].
  assert (Hfile : corrupt fromisoformat file = false).
  { destruct file as [|e0|ty|[| |s] companies]; simpl in *;
      try discriminate Hload; try done.
    by destruct (fromisoformat s). }
  destruct (truthy cached); [done|].
  destruct http as [resp|e]; [|discriminate].
  destruct (status_code resp =? 200)%Z; [|done].
  destruct (json resp) as [companies|e]; [|discriminate].
  intros _. simpl. specialize (Hiso now).
  by destruct (fromisoformat (isoformat now)).
Qed.

Lemma get_company_data_leaves_sound_cache_witness :
  corrupt (fun s => Some (Naive 0))
    (get_company_data (fun s => Some (Naive 0)) sample_isoformat Absent 0
       sample_response).2 = false.
Proof.
  apply (get_company_data_leaves_sound_cache (fun s => Some (Naive 0))
           sample_isoformat Absent 0 sample_response (Some sample_payload)).
  - discriminate.
  - reflexivity.
Defined.

(** ** utils.py: every run of [get_ticker] *)

Section TickerFacts.

Variable scorer : string -> string -> Z.

(** X24: on any table and any query, [get_ticker] never prints its
    "Ticker not found" line and never reaches its [return] with [ticker]
    unassigned: it returns [None], returns a ticker cell, or raises
    [KeyError] for a missing [title] or [ticker] column. *)
Theorem get_ticker_outcomes (df : DataFrame) (input_company : string) :
  ~ (ticker_not_found ∈ (get_ticker scorer (Return df) input_company).1)
  /\ ((get_ticker scorer (Return df) input_company).2 = Return None
      \/ (exists t,
            (get_ticker scorer (Return df) input_company).2 = Return (Some t))
      \/ exists e,
           (get_ticker scorer (Return df) input_company).2 = Raise e
           /\ exn_cls e = KeyError).
Proof.
  unfold get_ticker, getitem. simpl.
  destruct (position "title" (columns df)) as [i|] eqn:Hi; simpl.
  - set (names := unique (dropna (map (at_column i) (records df)))).
    destruct (extract scorer input_company names) as [|[best score] rest]
      eqn:Hex.
    + simpl. split; [|by left].
      rewrite list_elem_of_singleton. discriminate.
    + assert (Hbest : Text best ∈ map (at_column i) (records df)).
      { apply dropna_elem, unique_elem.
        apply (extract_elem scorer input_company names (best, score)).
        rewrite Hex. apply list_elem_of_here. }
      apply list_elem_of_fmap in Hbest as (r & E & Hr).
      destruct (filter_first (fun r => at_column i r = Text best) (records df)
                  r Hr (eq_sym E)) as (row & others & Hf).
      unfold where_eq. rewrite Hi, Hf.
      rewrite (empty_rows "title" i _ _ _ Hi). unfold iloc0. cbn.
      destruct (position "ticker" (columns df)) as [j|]; cbn.
      * split; [rewrite list_elem_of_singleton; discriminate|].
        right. left. eauto.
      * split; [rewrite list_elem_of_singleton; discriminate|].
        right. right. eexists. split; reflexivity.
  - split; [apply not_elem_of_nil|]. right. right. eexists.
    split; reflexivity.
Qed.

(** X25: with the [title] and [ticker] columns there, [get_ticker]
    returns [None] exactly when no title of the table reaches the score 0,
    and a ticker it returns is the ticker of the first row of a title that
    no title of the table outscores. *)
Theorem get_ticker_returns_top_title (df : DataFrame)
  (input_company : string) (i j : nat) :
  position "title" (columns df) = Some i ->
  position "ticker" (columns df) = Some j ->
  ((get_ticker scorer (Return df) input_company).2 = Return None
   <-> forall name, Text name ∈ map (at_column i) (records df) ->
         (scorer input_company name < 0)%Z)
  /\ forall t,
       (get_ticker scorer (Return df) input_company).2 = Return (Some t) ->
       exists best row others,
         filter (fun r => at_column i r = Text best) (records df)
         = row :: others
         /\ t = at_column j row
         /\ forall name, Text name ∈ map (at_column i) (records df) ->
              (scorer input_company name <= scorer input_company best)%Z.
Proof.
  intros Hi Hj. unfold get_ticker, getitem. simpl. rewrite Hi. simpl.
  set (names := unique (dropna (map (at_column i) (records df)))).
  destruct (extract scorer input_company names) as [|[best score] rest]
    eqn:Hex.
  - simpl. split.
    + split; [intros _ name Hname|done].
      destruct (Z.lt_ge_cases (scorer input_company name) 0) as [|Hpos];
        [done|exfalso].
      destruct (extract_nonempty scorer input_company names name)
        as (m & rest' & Hex'); [lia|by apply unique_elem, dropna_elem|].
      congruence.
    + intros t [=].
  - destruct (extract_head_is_max scorer _ _ _ _ Hex)
      as (Hm1 & Hm2 & _ & Hall). simpl in Hm1, Hm2.
    assert (Hbest : Text best ∈ map (at_column i) (records df))
      by (by apply dropna_elem, unique_elem).
    assert (Hpos : (0 <= score)%Z).
    { assert (Hin : (best, score)
                    ∈ extractWithoutOrder scorer input_company names).
      { apply (sort_desc_elem scorer). unfold extract in Hex.
        destruct (sort_desc _) as [|m sorted] eqn:Hs; [discriminate Hex|].
        simpl in Hex. injection Hex as -> _. apply list_elem_of_here. }
      unfold extractWithoutOrder in Hin.
      by apply list_elem_of_filter in Hin as [Hin _]. }
    apply list_elem_of_fmap in Hbest as (r & E & Hr).
    destruct (filter_first (fun r => at_column i r = Text best) (records df)
                r Hr (eq_sym E)) as (row & others & Hf).
    unfold where_eq. rewrite Hi, Hf.
    rewrite (empty_rows "title" i _ _ _ Hi). unfold iloc0. cbn.
    rewrite Hj. cbn. split.
    + split; [discriminate|]. intros Hneg. exfalso.
      assert (Hb : Text best ∈ map (at_column i) (records df)).
      { rewrite E. apply list_elem_of_fmap. by exists r. }
      specialize (Hneg best Hb). lia.
    + intros t [= <-]. exists best, row, others.
      split; [done|]. split; [done|]. intros name Hname.
      rewrite <- Hm2.
      destruct (Z.le_gt_cases 0 (scorer input_company name)) as [Hp|Hn];
        [|lia].
      apply Hall; [by apply unique_elem, dropna_elem|exact Hp].
Qed.

End TickerFacts.

Lemma get_ticker_returns_top_title_witness :
  exists best row others,
    filter (fun r => at_column 1 r = Text best) (records sample_companies_csv)
    = row :: others
    /\ Text "ACME" = at_column 0 row
    /\ forall name,
         Text name ∈ map (at_column 1) (records sample_companies_csv) ->
         (sample_scorer "acme" name <= sample_scorer "acme" best)%Z.
Proof.
  destruct (get_ticker_returns_top_title sample_scorer sample_companies_csv
              "acme" 1 0 eq_refl eq_refl) as [_ Hsome].
  apply Hsome. reflexivity.
Defined.
